(** * MoveBinaryData: the "Move Binary Data" node of n8n

    A shallow embedding of
    [packages/nodes-base/nodes/MoveBinaryData.node.ts] and the properties
    of its [execute] method.

    The node moves data between the two sides of a workflow item: the
    [json] side (nested JSON data) and the [binary] side (base64 payloads
    with a mime type).  The method threads a list of output items through
    a loop over the input items; an exception raised anywhere inside the
    loop leaves the method, which is modelled by an error monad.

    The first part holds the definitions: base64, JSON values with
    [JSON.stringify] and [JSON.parse], UTF-8, the path functions of
    lodash, the node itself, and the vocabulary of the properties.  The
    second part holds the facts: the round trips of base64 and of JSON,
    the bytes of well-formed UTF-8, the laws of the path functions, and
    the properties of the node. *)

From Stdlib Require Import ZArith NArith List Bool Lia.
From Stdlib.Strings Require Import String Ascii Byte.
From Stdlib Require Import Decimal DecimalFacts DecimalN.
Import ListNotations.

Local Open Scope string_scope.
Local Open Scope list_scope.

Set Implicit Arguments.

(* ================================================================== *)
(** * Exceptions and the error monad *)

(** What JavaScript can throw inside [execute]: [JSON.parse] throws a
    [SyntaxError], [Buffer.from] and property reads on [null] throw a
    [TypeError], and the node itself throws [new Error(message)]. *)
Inductive exn : Type :=
| SyntaxError
| TypeError
| Error (message : string).

Inductive result (A : Type) : Type :=
| Ok (a : A)
| Throw (e : exn).

Arguments Ok {A} a.
Arguments Throw {A} e.

Definition bind {A B : Type} (m : result A) (k : A -> result B) : result B :=
  match m with
  | Ok a => k a
  | Throw e => Throw e
  end.

Declare Scope result_scope.
Delimit Scope result_scope with result.
Notation "x <- m ;; k" := (bind m (fun x => k))
  (at level 61, m at next level, right associativity) : result_scope.
Local Open Scope result_scope.

(* ================================================================== *)
(** * Buffers and base64 *)

(** A [Buffer] is a sequence of bytes. *)
Definition Buffer : Type := list byte.

Module Base64.

Local Open Scope N_scope.

Definition alphabet : string :=
  "ABCDEFGHIJKLMNOPQRSTUVWXYZabcdefghijklmnopqrstuvwxyz0123456789+/".

(** The character of a 6-bit group. *)
Definition char_of (n : N) : ascii :=
  match String.get (N.to_nat n) alphabet with
  | Some c => c
  | None => "="%char
  end.

(** The 6-bit group of a character.  Node reads the URL-safe characters
    [-] and [_] as well. *)
Definition index_of (c : ascii) : option N :=
  let n := N_of_ascii c in
  if (65 <=? n) && (n <=? 90) then Some (n - 65)
  else if (97 <=? n) && (n <=? 122) then Some (n - 71)
  else if (48 <=? n) && (n <=? 57) then Some (n + 4)
  else if (n =? 43) || (n =? 45) then Some 62
  else if (n =? 47) || (n =? 95) then Some 63
  else None.

Definition byte_of_N (n : N) : byte :=
  match Byte.of_N (n mod 256) with
  | Some b => b
  | None => x00
  end.

(** [buffer.toString('base64')]: three bytes give four characters, and
    the last group is padded with [=]. *)
Fixpoint encode (bs : Buffer) : string :=
  match bs with
  | [] => ""
  | [x] =>
      let a := Byte.to_N x in
      String (char_of (a / 4))
        (String (char_of ((a mod 4) * 16)) "==")
  | [x; y] =>
      let a := Byte.to_N x in
      let b := Byte.to_N y in
      String (char_of (a / 4))
        (String (char_of ((a mod 4) * 16 + b / 16))
           (String (char_of ((b mod 16) * 4)) "="))
  | x :: y :: z :: rest =>
      let a := Byte.to_N x in
      let b := Byte.to_N y in
      let c := Byte.to_N z in
      String (char_of (a / 4))
        (String (char_of ((a mod 4) * 16 + b / 16))
           (String (char_of ((b mod 16) * 4 + c / 64))
              (String (char_of (c mod 64)) (encode rest))))
  end.

(** The 6-bit groups of a base64 text, the way Node reads it: a
    character outside the alphabet is skipped and [=] ends the data. *)
Fixpoint sextets (s : string) : list N :=
  match s with
  | EmptyString => []
  | String c r =>
      if Ascii.eqb c "="
      then []
      else match index_of c with
           | Some n => n :: sextets r
           | None => sextets r
           end
  end.

(** Four groups give three bytes; a last group of three gives two bytes,
    of two gives one byte, and a single left-over group gives none. *)
Fixpoint bytes_of_sextets (l : list N) : Buffer :=
  match l with
  | p :: q :: r :: s :: rest =>
      byte_of_N (p * 4 + q / 16)
        :: byte_of_N ((q mod 16) * 16 + r / 4)
        :: byte_of_N ((r mod 4) * 64 + s)
        :: bytes_of_sextets rest
  | [p; q; r] =>
      [byte_of_N (p * 4 + q / 16); byte_of_N ((q mod 16) * 16 + r / 4)]
  | [p; q] => [byte_of_N (p * 4 + q / 16)]
  | _ => []
  end.

(** [Buffer.from(text, 'base64')]; it never throws. *)
Definition decode (s : string) : Buffer :=
  bytes_of_sextets (sextets s).

End Base64.

(* ================================================================== *)
(** * JSON data *)

(** The data on both sides of an item is plain JSON: a tree of objects,
    arrays and scalars.  A string is a text held as its UTF-8 bytes.  An
    object lists its properties in insertion order, the order
    [JSON.stringify] prints them in. *)

(** A number is a decimal number, held exactly: an integer [n], or a
    fraction [m / 10^e] that is not an integer.  The node does nothing
    with a number but read it with [JSON.parse] and write it with
    [JSON.stringify]; JavaScript, which holds a number as a double, reads
    and writes the same as long as a literal has no more than 15
    significant digits and is within the range of a double, and rounds
    beyond that. *)
Inductive number : Type :=
| Int (n : Z)
| Dec (m : Z) (e : positive).

Coercion Int : Z >-> number.

(** A fraction is in lowest form when the last digit of [m] is not 0:
    each number is held in one way only. *)
Definition canonical (x : number) : bool :=
  match x with
  | Int _ => true
  | Dec m _ => negb (N.eqb (N.modulo (Z.abs_N m) 10) 0)
  end.

#[local] Unset Elimination Schemes.
Inductive value : Type :=
| JNull
| JBool (b : bool)
| JNum (n : number)
| JStr (s : string)
| JArr (elements : list value)
| JObj (properties : list (string * value)).
#[local] Set Elimination Schemes.

Arguments JNum n%_Z.

Definition object : Type := list (string * value).

Section ValueInduction.
Variable P : value -> Prop.
Hypothesis Hnull : P JNull.
Hypothesis Hbool : forall b, P (JBool b).
Hypothesis Hnum : forall n, P (JNum n).
Hypothesis Hstr : forall s, P (JStr s).
Hypothesis Harr : forall l, Forall P l -> P (JArr l).
Hypothesis Hobj : forall o, Forall (fun kv => P (snd kv)) o -> P (JObj o).

Fixpoint value_nested_ind (v : value) : P v :=
  match v with
  | JNull => Hnull
  | JBool b => Hbool b
  | JNum n => Hnum n
  | JStr s => Hstr s
  | JArr l =>
      Harr ((fix go (l : list value) : Forall P l :=
               match l with
               | [] => Forall_nil P
               | x :: r => Forall_cons x (value_nested_ind x) (go r)
               end) l)
  | JObj o =>
      Hobj ((fix go (o : object) : Forall (fun kv => P (snd kv)) o :=
               match o with
               | [] => Forall_nil _
               | kv :: r =>
                   Forall_cons (P := fun kv => P (snd kv)) kv
                     (value_nested_ind (snd kv)) (go r)
               end) o)
  end.
End ValueInduction.

(** ** Properties of an object *)

(** [o[k]], [None] standing for [undefined]. *)
Fixpoint lookup (k : string) (o : object) : option value :=
  match o with
  | [] => None
  | (k', v) :: r => if String.eqb k k' then Some v else lookup k r
  end.

(** [o[k] = v]: an existing property keeps its place, a new one goes last. *)
Fixpoint assign (k : string) (v : value) (o : object) : object :=
  match o with
  | [] => [(k, v)]
  | (k', v') :: r =>
      if String.eqb k k' then (k', v) :: r else (k', v') :: assign k v r
  end.

(** [delete o[k]]. *)
Fixpoint delete (k : string) (o : object) : object :=
  match o with
  | [] => []
  | (k', v') :: r =>
      if String.eqb k k' then delete k r else (k', v') :: delete k r
  end.

Fixpoint mem (k : string) (l : list string) : bool :=
  match l with
  | [] => false
  | k' :: r => String.eqb k k' || mem k r
  end.

Fixpoint distinct (l : list string) : bool :=
  match l with
  | [] => true
  | k :: r => negb (mem k r) && distinct r
  end.

(** A value is well formed when no object in it has two properties of the
    same name and every fraction in it is in lowest form.  Every
    JavaScript value is so: this is the invariant of the lists that stand
    for objects and of the pairs that stand for fractions, not a
    condition on the data. *)
Fixpoint wf_value (v : value) : bool :=
  match v with
  | JArr l => forallb wf_value l
  | JObj o =>
      distinct (map fst o) && forallb (fun kv => wf_value (snd kv)) o
  | JNum x => canonical x
  | _ => true
  end.

(* ================================================================== *)
(** * JSON.stringify and JSON.parse *)

Module JSON.

Local Open Scope string_scope.
Local Open Scope N_scope.

Definition dquote : ascii := Eval cbv in ascii_of_N 34.
Definition backslash : ascii := Eval cbv in ascii_of_N 92.

(** ** Printing *)

Fixpoint string_of_uint (d : uint) : string :=
  match d with
  | Nil => ""
  | D0 d => String "0" (string_of_uint d)
  | D1 d => String "1" (string_of_uint d)
  | D2 d => String "2" (string_of_uint d)
  | D3 d => String "3" (string_of_uint d)
  | D4 d => String "4" (string_of_uint d)
  | D5 d => String "5" (string_of_uint d)
  | D6 d => String "6" (string_of_uint d)
  | D7 d => String "7" (string_of_uint d)
  | D8 d => String "8" (string_of_uint d)
  | D9 d => String "9" (string_of_uint d)
  end.

(** The decimal digits of a natural number. *)
Definition digits (m : N) : string := string_of_uint (N.to_uint m).

(** [n] zeros. *)
Fixpoint zeros (n : nat) : string :=
  match n with
  | O => ""
  | S n' => String "0" (zeros n')
  end.

(** The first [n] characters of a text, and the others. *)
Fixpoint take (n : nat) (s : string) : string :=
  match n, s with
  | S n', String c r => String c (take n' r)
  | _, _ => ""
  end.

Fixpoint drop (n : nat) (s : string) : string :=
  match n, s with
  | S n', String _ r => drop n' r
  | _, _ => s
  end.

(** The digits without the zeros at their end. *)
Fixpoint significant (s : string) : string :=
  match s with
  | EmptyString => ""
  | String c r =>
      match significant r with
      | EmptyString => if Ascii.eqb c "0" then "" else String c ""
      | r' => String c r'
      end
  end.

(** The exponent part for the exponent [n - 1]. *)
Definition exponent (n : Z) : string :=
  if (n <? 1)%Z
  then "e-" ++ digits (Z.to_N (1 - n))
  else "e+" ++ digits (Z.to_N (n - 1)).

(** The first digit, the point and the other digits if there are any,
    and the exponent. *)
Definition scientific (s : string) (n : Z) : string :=
  match s with
  | EmptyString => exponent n
  | String d EmptyString => String d (exponent n)
  | String d r => String d (String "." (r ++ exponent n))
  end.

(** [Number::toString] of ECMAScript for the positive number
    [0.s * 10^n], whose significant digits are the [k] digits [s]: the
    digits and zeros when [k <= n <= 21], the digits with a point after
    the first [n] when [0 < n <= 21], [0.] and zeros and the digits when
    [-6 < n <= 0], and the exponent form otherwise. *)
Definition toString (s : string) (n : Z) : string :=
  let k := Z.of_nat (String.length s) in
  if ((k <=? n) && (n <=? 21))%Z then s ++ zeros (Z.to_nat (n - k))
  else if ((0 <? n) && (n <=? 21))%Z
  then take (Z.to_nat n) s ++ String "." (drop (Z.to_nat n) s)
  else if ((-6 <? n) && (n <=? 0))%Z
  then String "0" (String "." (zeros (Z.to_nat (- n)) ++ s))
  else scientific s n.

(** The sign that is written: none for a number that is not negative. *)
Definition sign (n : Z) : string :=
  match n with
  | Zneg _ => "-"
  | _ => ""
  end.

(** How [JSON.stringify] writes a number. *)
Definition string_of_number (x : number) : string :=
  match x with
  | Int n =>
      if (n =? 0)%Z then "0"
      else
        let s := digits (Z.abs_N n) in
        sign n ++ toString (significant s) (Z.of_nat (String.length s))
  | Dec m e =>
      let s := digits (Z.abs_N m) in
      sign m ++ toString s (Z.of_nat (String.length s) - Z.pos e)
  end.

Definition hex_digit (n : N) : ascii :=
  if n <? 10 then ascii_of_N (48 + n) else ascii_of_N (87 + n).

(** How [JSON.stringify] writes one character of a string. *)
Definition escape_char (c : ascii) : string :=
  let n := N_of_ascii c in
  if n =? 34 then String backslash (String dquote "")
  else if n =? 92 then String backslash (String backslash "")
  else if n =? 8 then String backslash "b"
  else if n =? 12 then String backslash "f"
  else if n =? 10 then String backslash "n"
  else if n =? 13 then String backslash "r"
  else if n =? 9 then String backslash "t"
  else if n <? 32 then
    String backslash
      (String "u" (String "0" (String "0"
         (String (hex_digit (n / 16)) (String (hex_digit (n mod 16)) "")))))
  else String c "".

Fixpoint escape (s : string) : string :=
  match s with
  | EmptyString => ""
  | String c r => escape_char c ++ escape r
  end.

Definition quote (s : string) : string :=
  String dquote (escape s ++ String dquote "").

Fixpoint stringify (v : value) : string :=
  match v with
  | JNull => "null"
  | JBool true => "true"
  | JBool false => "false"
  | JNum n => string_of_number n
  | JStr s => quote s
  | JArr l =>
      "[" ++ (fix elements (l : list value) : string :=
                match l with
                | [] => "]"
                | [x] => stringify x ++ "]"
                | x :: r => stringify x ++ "," ++ elements r
                end) l
  | JObj o =>
      "{" ++ (fix members (o : object) : string :=
                match o with
                | [] => "}"
                | [(k, x)] => quote k ++ ":" ++ stringify x ++ "}"
                | (k, x) :: r =>
                    quote k ++ ":" ++ stringify x ++ "," ++ members r
                end) o
  end.

(** ** Reading *)

Definition is_ws (c : ascii) : bool :=
  let n := N_of_ascii c in
  (n =? 32) || (n =? 9) || (n =? 10) || (n =? 13).

Fixpoint skip_ws (s : string) : string :=
  match s with
  | EmptyString => ""
  | String c r => if is_ws c then skip_ws r else s
  end.

(** [expect lit s] is what follows [lit] in [s]. *)
Fixpoint expect (lit s : string) : option string :=
  match lit with
  | EmptyString => Some s
  | String c lit' =>
      match s with
      | EmptyString => None
      | String d r => if Ascii.eqb c d then expect lit' r else None
      end
  end.

Definition is_digit (c : ascii) : bool :=
  let n := N_of_ascii c in (48 <=? n) && (n <=? 57).

(** The longest run of digits at the head of a text, and what follows. *)
Fixpoint read_digits (s : string) : string * string :=
  match s with
  | EmptyString => ("", "")
  | String c r =>
      if is_digit c
      then let (ds, r') := read_digits r in (String c ds, r')
      else ("", s)
  end.

(** The number a run of digits writes, after the digits of [acc]. *)
Fixpoint number_of_digits (acc : N) (ds : string) : N :=
  match ds with
  | EmptyString => acc
  | String c r => number_of_digits (acc * 10 + (N_of_ascii c - 48)) r
  end.

(** The integer part of a literal: [0], or digits that do not start
    with [0]. *)
Definition is_int (ds : string) : bool :=
  match ds with
  | EmptyString => false
  | String _ EmptyString => true
  | String c _ => negb (Ascii.eqb c "0")
  end.

(** The digits of the integer part, and what follows. *)
Definition parse_int (s : string) : option (string * string) :=
  let (ds, r) := read_digits s in
  if is_int ds then Some (ds, r) else None.

(** A run of at least one digit. *)
Definition parse_digits (s : string) : option (string * string) :=
  let (ds, r) := read_digits s in
  match ds with
  | EmptyString => None
  | _ => Some (ds, r)
  end.

(** The fraction part of a literal, if there is one: a point and
    digits. *)
Definition parse_frac (s : string) : option (string * string) :=
  match s with
  | String c r => if Ascii.eqb c "." then parse_digits r else Some ("", s)
  | EmptyString => Some ("", s)
  end.

(** The exponent part of a literal, if there is one: [e] or [E], a sign
    or none, and digits. *)
Definition parse_exp (s : string) : option (Z * string) :=
  match s with
  | String c r =>
      if Ascii.eqb c "e" || Ascii.eqb c "E" then
        match r with
        | String sg r' =>
            if Ascii.eqb sg "-" then
              match parse_digits r' with
              | Some (ds, r'') =>
                  Some (Z.opp (Z.of_N (number_of_digits 0 ds)), r'')
              | None => None
              end
            else
              match parse_digits (if Ascii.eqb sg "+" then r' else r) with
              | Some (ds, r'') => Some (Z.of_N (number_of_digits 0 ds), r'')
              | None => None
              end
        | EmptyString => None
        end
      else Some (0%Z, s)
  | EmptyString => Some (0%Z, s)
  end.

(** [m / 10^e] in lowest form. *)
Fixpoint lowest (e : nat) (m : N) : number :=
  match e with
  | O => Int (Z.of_N m)
  | S e' =>
      if m mod 10 =? 0
      then lowest e' (m / 10)
      else Dec (Z.of_N m) (Pos.of_nat e)
  end.

(** The number [ds * 10^e], for the digits [ds]. *)
Definition make_number (ds : string) (e : Z) : number :=
  let m := number_of_digits 0 ds in
  if (0 <=? e)%Z
  then Int (Z.of_N m * 10 ^ e)
  else lowest (Z.to_nat (- e)) m.

(** The number with the other sign. *)
Definition negate (x : number) : number :=
  match x with
  | Int n => Int (- n)
  | Dec m e => Dec (- m) e
  end.

(** A number literal without its sign. *)
Definition parse_unsigned (s : string) : option (number * string) :=
  match parse_int s with
  | None => None
  | Some (int, r1) =>
      match parse_frac r1 with
      | None => None
      | Some (frac, r2) =>
          match parse_exp r2 with
          | None => None
          | Some (e, r3) =>
              Some (make_number (int ++ frac)
                      (e - Z.of_nat (String.length frac)), r3)
          end
      end
  end.

(** A number literal: an optional [-], the integer part, and then an
    optional fraction part and an optional exponent part. *)
Definition parse_number (s : string) : option (number * string) :=
  match s with
  | EmptyString => None
  | String c r =>
      if Ascii.eqb c "-" then
        match parse_unsigned r with
        | Some (x, r') => Some (negate x, r')
        | None => None
        end
      else parse_unsigned s
  end.

Definition hex_value (c : ascii) : option N :=
  let n := N_of_ascii c in
  if (48 <=? n) && (n <=? 57) then Some (n - 48)
  else if (97 <=? n) && (n <=? 102) then Some (n - 87)
  else if (65 <=? n) && (n <=? 70) then Some (n - 55)
  else None.

(** A character of a string literal: one taken as it is (or through a
    short escape), or a UTF-16 code unit written [\uXXXX]. *)
Inductive token : Type :=
| Raw (c : ascii)
| Unit16 (u : N).

Definition unescape (c : ascii) : option ascii :=
  let n := N_of_ascii c in
  if (n =? 34) || (n =? 92) || (n =? 47) then Some c
  else if n =? 98 then Some (ascii_of_N 8)
  else if n =? 102 then Some (ascii_of_N 12)
  else if n =? 110 then Some (ascii_of_N 10)
  else if n =? 114 then Some (ascii_of_N 13)
  else if n =? 116 then Some (ascii_of_N 9)
  else None.

(** The characters of a string literal up to its closing quote. *)
Fixpoint tokens (s : string) : option (list token * string) :=
  match s with
  | EmptyString => None
  | String c r =>
      if Ascii.eqb c dquote then Some ([], r)
      else if Ascii.eqb c backslash then
        match r with
        | EmptyString => None
        | String e r1 =>
            if Ascii.eqb e "u" then
              match r1 with
              | String h1 (String h2 (String h3 (String h4 r2))) =>
                  match hex_value h1, hex_value h2,
                        hex_value h3, hex_value h4 with
                  | Some a, Some b, Some c, Some d =>
                      match tokens r2 with
                      | Some (ts, r3) =>
                          Some (Unit16 (((a * 16 + b) * 16 + c) * 16 + d)
                                  :: ts, r3)
                      | None => None
                      end
                  | _, _, _, _ => None
                  end
              | _ => None
              end
            else
              match unescape e with
              | Some x =>
                  match tokens r1 with
                  | Some (ts, r2) => Some (Raw x :: ts, r2)
                  | None => None
                  end
              | None => None
              end
        end
      else if N_of_ascii c <? 32 then None
      else
        match tokens r with
        | Some (ts, r1) => Some (Raw c :: ts, r1)
        | None => None
        end
  end.

(** The UTF-8 bytes of a code point. *)
Definition utf8 (cp : N) : string :=
  if cp <? 128 then String (ascii_of_N cp) ""
  else if cp <? 2048 then
    String (ascii_of_N (192 + cp / 64))
      (String (ascii_of_N (128 + cp mod 64)) "")
  else if cp <? 65536 then
    String (ascii_of_N (224 + cp / 4096))
      (String (ascii_of_N (128 + (cp / 64) mod 64))
         (String (ascii_of_N (128 + cp mod 64)) ""))
  else
    String (ascii_of_N (240 + cp / 262144))
      (String (ascii_of_N (128 + (cp / 4096) mod 64))
         (String (ascii_of_N (128 + (cp / 64) mod 64))
            (String (ascii_of_N (128 + cp mod 64)) ""))).

Definition is_high (u : N) : bool := (55296 <=? u) && (u <? 56320).
Definition is_low (u : N) : bool := (56320 <=? u) && (u <? 57344).

(** The text of a string literal: a surrogate pair is one code point,
    a surrogate on its own is written as U+FFFD. *)
Fixpoint assemble (ts : list token) : string :=
  match ts with
  | [] => ""
  | Raw c :: r => String c (assemble r)
  | Unit16 u :: r =>
      if is_high u then
        match r with
        | Unit16 w :: r' =>
            if is_low w
            then utf8 (65536 + (u - 55296) * 1024 + (w - 56320))
                   ++ assemble r'
            else utf8 65533 ++ assemble r
        | _ => utf8 65533 ++ assemble r
        end
      else if is_low u then utf8 65533 ++ assemble r
      else utf8 u ++ assemble r
  end.

(** A string literal after its opening quote. *)
Definition parse_string (s : string) : option (string * string) :=
  match tokens s with
  | Some (ts, r) => Some (assemble ts, r)
  | None => None
  end.

(** The object a list of members builds, assigned in the order read:
    a name read again overwrites the value and keeps its first place. *)
Definition make_object (members : list (string * value)) : object :=
  fold_left (fun o kv => assign (fst kv) (snd kv) o) members [].

(** The reader proper.  [fuel] bounds the depth of the calls; twice the
    length of the text is always enough. *)
Fixpoint parse_value (fuel : nat) (s : string) {struct fuel}
  : option (value * string) :=
  match fuel with
  | O => None
  | S fuel' =>
      match skip_ws s with
      | EmptyString => None
      | String c r =>
          if Ascii.eqb c "n" then
            option_map (pair JNull) (expect "ull" r)
          else if Ascii.eqb c "t" then
            option_map (pair (JBool true)) (expect "rue" r)
          else if Ascii.eqb c "f" then
            option_map (pair (JBool false)) (expect "alse" r)
          else if Ascii.eqb c dquote then
            match parse_string r with
            | Some (x, r') => Some (JStr x, r')
            | None => None
            end
          else if Ascii.eqb c "[" then
            match skip_ws r with
            | EmptyString => None
            | String c' r' =>
                if Ascii.eqb c' "]" then Some (JArr [], r')
                else
                  match parse_elements fuel' r with
                  | Some (l, r'') => Some (JArr l, r'')
                  | None => None
                  end
            end
          else if Ascii.eqb c "{" then
            match skip_ws r with
            | EmptyString => None
            | String c' r' =>
                if Ascii.eqb c' "}" then Some (JObj [], r')
                else
                  match parse_members fuel' r with
                  | Some (o, r'') => Some (JObj (make_object o), r'')
                  | None => None
                  end
            end
          else
            match parse_number (String c r) with
            | Some (n, r') => Some (JNum n, r')
            | None => None
            end
      end
  end

with parse_elements (fuel : nat) (s : string) {struct fuel}
  : option (list value * string) :=
  match fuel with
  | O => None
  | S fuel' =>
      match parse_value fuel' s with
      | None => None
      | Some (x, r) =>
          match skip_ws r with
          | EmptyString => None
          | String c r' =>
              if Ascii.eqb c "," then
                match parse_elements fuel' r' with
                | Some (l, r'') => Some (x :: l, r'')
                | None => None
                end
              else if Ascii.eqb c "]" then Some ([x], r')
              else None
          end
      end
  end

with parse_members (fuel : nat) (s : string) {struct fuel}
  : option (list (string * value) * string) :=
  match fuel with
  | O => None
  | S fuel' =>
      match skip_ws s with
      | EmptyString => None
      | String q r =>
          if Ascii.eqb q dquote then
            match parse_string r with
            | None => None
            | Some (k, r1) =>
                match skip_ws r1 with
                | EmptyString => None
                | String c r2 =>
                    if Ascii.eqb c ":" then
                      match parse_value fuel' r2 with
                      | None => None
                      | Some (x, r3) =>
                          match skip_ws r3 with
                          | EmptyString => None
                          | String c' r4 =>
                              if Ascii.eqb c' "," then
                                match parse_members fuel' r4 with
                                | Some (o, r5) => Some ((k, x) :: o, r5)
                                | None => None
                                end
                              else if Ascii.eqb c' "}"
                              then Some ([(k, x)], r4)
                              else None
                          end
                      end
                    else None
                end
            end
          else None
      end
  end.

(** [JSON.parse(text)]: one value, with nothing but white space after
    it; anything else throws a [SyntaxError]. *)
Definition parse (text : string) : result value :=
  match parse_value (2 * String.length text + 2) text with
  | Some (v, r) =>
      match skip_ws r with
      | EmptyString => Ok v
      | String _ _ => Throw SyntaxError
      end
  | None => Throw SyntaxError
  end.

End JSON.

(** Definitions the facts about [JSON.stringify] and [JSON.parse] are
    stated with. *)
Module JSONShapes.
Import JSON.

Local Open Scope string_scope.

(** What [tokens] reads back from the way one character is written. *)
Definition token_of (c : ascii) : token :=
  let n := N_of_ascii c in
  if ((n <? 32) && negb ((n =? 8) || (n =? 9) || (n =? 10)
                         || (n =? 12) || (n =? 13)))%N
  then Unit16 n
  else Raw c.

(** What [tokens] reads back from the way a string is written. *)
Fixpoint tokens_of (s : string) : list token :=
  match s with
  | EmptyString => []
  | String c r => token_of c :: tokens_of r
  end.

(** The text starts with a digit. *)
Definition head_is_digit (s : string) : bool :=
  match s with
  | EmptyString => false
  | String c _ => is_digit c
  end.

(** A fraction or an exponent would follow here. *)
Definition fraction_follows (s : string) : bool :=
  match s with
  | EmptyString => false
  | String c _ =>
      let n := N_of_ascii c in (n =? 46)%N || (n =? 101)%N || (n =? 69)%N
  end.

(** The text is made of digits. *)
Fixpoint all_digits (s : string) : bool :=
  match s with
  | EmptyString => true
  | String c r => is_digit c && all_digits r
  end.

(** What may follow a value in a text that [stringify] wrote. *)
Definition follow_ok (rest : string) : bool :=
  match rest with
  | EmptyString => true
  | String c _ => Ascii.eqb c "," || Ascii.eqb c "]" || Ascii.eqb c "}"
  end.

(** What [stringify] writes after the opening bracket of an array. *)
Fixpoint print_elements (l : list value) : string :=
  match l with
  | [] => "]"
  | [x] => stringify x ++ "]"
  | x :: r => stringify x ++ "," ++ print_elements r
  end.

(** What [stringify] writes after the opening brace of an object. *)
Fixpoint print_members (o : object) : string :=
  match o with
  | [] => "}"
  | [(k, x)] => quote k ++ ":" ++ stringify x ++ "}"
  | (k, x) :: r => quote k ++ ":" ++ stringify x ++ "," ++ print_members r
  end.

(** The depth of calls that reading a value back takes. *)
Fixpoint size (v : value) : nat :=
  match v with
  | JArr l => S (fold_right (fun x n => S (size x + n)) 0 l)
  | JObj o => S (fold_right (fun kv n => S (size (snd kv) + n)) 0 o)
  | _ => 1
  end.

(** A printed value starts with a character that is neither white space
    nor a closing bracket. *)
Definition opens_value (s : string) : Prop :=
  exists c r, s = String c r /\ is_ws c = false
              /\ Ascii.eqb c "]" = false /\ Ascii.eqb c "}" = false.

(** [v] is read back from its printed form, whatever follows it. *)
Definition reads_back (v : value) : Prop :=
  wf_value v = true ->
  forall fuel rest,
    (size v <= fuel)%nat -> follow_ok rest = true ->
    parse_value fuel (stringify v ++ rest) = Some (v, rest).

(** A result of the reader stands with any fuel from twice the number of
    characters read on. *)
Definition steady_value (f : nat) : Prop :=
  forall s v r,
    parse_value f s = Some (v, r) ->
    String.length r < String.length s
    /\ forall F, 2 * (String.length s - String.length r) <= S F ->
                 parse_value F s = Some (v, r).

Definition steady_elements (f : nat) : Prop :=
  forall s l r,
    parse_elements f s = Some (l, r) ->
    String.length r + 2 <= String.length s
    /\ forall F, 2 * (String.length s - String.length r) <= F ->
                 parse_elements F s = Some (l, r).

Definition steady_members (f : nat) : Prop :=
  forall s o r,
    parse_members f s = Some (o, r) ->
    String.length r + 2 <= String.length s
    /\ forall F, 2 * (String.length s - String.length r) <= F ->
                 parse_members F s = Some (o, r).

End JSONShapes.

(* ================================================================== *)
(** * UTF-8 *)

(** Well-formed UTF-8, as the Unicode Standard defines it (table 3-7 of
    chapter 3): what [buffer.toString('utf8')] reads without replacing
    anything. *)
Module UTF8.

Local Open Scope N_scope.

(** The byte is between [lo] and [hi]. *)
Definition within (lo hi : N) (b : byte) : bool :=
  (lo <=? Byte.to_N b) && (Byte.to_N b <=? hi).

(** The six bits a continuation byte carries. *)
Definition bits (b : byte) : N := Byte.to_N b - 128.

(** The code points of a well-formed sequence of bytes; [None] when the
    sequence is not well formed: a byte that cannot start a character, a
    missing or wrong continuation byte, an overlong form, a surrogate, or
    a code point above U+10FFFF. *)
Fixpoint decode (bs : Buffer) : option (list N) :=
  match bs with
  | [] => Some []
  | x :: r =>
      let n := Byte.to_N x in
      if n <? 128 then option_map (cons n) (decode r)
      else if (194 <=? n) && (n <=? 223) then
        match r with
        | y :: r' =>
            if within 128 191 y
            then option_map (cons ((n - 192) * 64 + bits y)) (decode r')
            else None
        | _ => None
        end
      else if (224 <=? n) && (n <=? 239) then
        match r with
        | y :: z :: r' =>
            if within (if n =? 224 then 160 else 128)
                      (if n =? 237 then 159 else 191) y
               && within 128 191 z
            then option_map
                   (cons ((n - 224) * 4096 + bits y * 64 + bits z))
                   (decode r')
            else None
        | _ => None
        end
      else if (240 <=? n) && (n <=? 244) then
        match r with
        | y :: z :: w :: r' =>
            if within (if n =? 240 then 144 else 128)
                      (if n =? 244 then 143 else 191) y
               && within 128 191 z && within 128 191 w
            then option_map
                   (cons ((n - 240) * 262144 + bits y * 4096
                          + bits z * 64 + bits w))
                   (decode r')
            else None
        | _ => None
        end
      else None
  end.

(** The text of a list of code points, held as its UTF-8 bytes. *)
Fixpoint text (code_points : list N) : string :=
  match code_points with
  | [] => ""
  | cp :: r => (JSON.utf8 cp ++ text r)%string
  end.

End UTF8.

(* ================================================================== *)
(** * Path addressing: lodash's get, set and unset *)

Module lodash.

(** Modelled from the spec: the path syntax of lodash, which is not part
    of the node's source.  A path is a dot-separated list of segments
    and each segment is a literal property name; the empty path is the
    single segment with the empty name. *)
Fixpoint castPath (path : string) : list string :=
  match path with
  | EmptyString => [""]
  | String c r =>
      if Ascii.eqb c "."
      then "" :: castPath r
      else match castPath r with
           | seg :: more => String c seg :: more
           | [] => [String c ""]
           end
  end.

(** Modelled from the spec: lodash's [baseGet], which is not part of the
    node's source.  It follows the segments through nested objects and
    is absent ([undefined]) as soon as a segment is not a property of
    an object. *)
Fixpoint baseGet (t : value) (path : list string) : option value :=
  match path with
  | [] => Some t
  | k :: more =>
      match t with
      | JObj o =>
          match lookup k o with
          | Some child => baseGet child more
          | None => None
          end
      | _ => None
      end
  end.

(** Modelled from the spec: lodash's [get(object, path)], which is not
    part of the node's source; the object itself may be [undefined], and
    [None] is the absent value. *)
Definition get (t : option value) (path : string) : option value :=
  match t with
  | Some t => baseGet t (castPath path)
  | None => None
  end.

(** Modelled from the spec: lodash's [baseSet], which is not part of the
    node's source.  It writes the value at the last segment and, on the
    way, puts an empty object wherever a segment does not lead to an
    object. *)
Fixpoint baseSet (o : object) (path : list string) (v : value) : object :=
  match path with
  | [] => o
  | [k] => assign k v o
  | k :: more =>
      let child :=
        match lookup k o with
        | Some (JObj c) => c
        | _ => []
        end in
      assign k (JObj (baseSet child more v)) o
  end.

(** Modelled from the spec: lodash's [set(object, path, value)], which is
    not part of the node's source, taken for its effect on [object];
    anything that is not an object is left as it is. *)
Definition set (t : value) (path : string) (v : value) : value :=
  match t with
  | JObj o => JObj (baseSet o (castPath path) v)
  | _ => t
  end.

(** Modelled from the spec: lodash's [baseUnset], which is not part of
    the node's source.  It deletes the last segment from the object the
    segments before it lead to, and does nothing when they lead to no
    object. *)
Fixpoint baseUnset (o : object) (path : list string) : object :=
  match path with
  | [] => o
  | [k] => delete k o
  | k :: more =>
      match lookup k o with
      | Some (JObj c) => assign k (JObj (baseUnset c more)) o
      | _ => o
      end
  end.

(** Modelled from the spec: lodash's [unset(object, path)], which is not
    part of the node's source, taken for its effect on [object]; it does
    nothing when the path is absent. *)
Definition unset (t : value) (path : string) : value :=
  match t with
  | JObj o => JObj (baseUnset o (castPath path))
  | _ => t
  end.

End lodash.

(* ================================================================== *)
(** * The node *)

(** An item of a workflow: [INodeExecutionData], with its [json] data and
    its optional [binary] data. *)
Record INodeExecutionData : Type := {
  json : value;
  binary : option value
}.

(** The [options] collection of the node; a field that is not set is
    [None]. *)
Record Options : Type := {
  encoding : option string;
  jsonParse : option bool;
  keepSource : option bool;
  mimeType : option string;
  useRawData : option bool
}.

(** [this.getNodeParameter]: [mode] and [options] are read for item 0,
    the other parameters for each item. *)
Record NodeParameters : Type := {
  mode : string;
  options : Options;
  setAllData : nat -> bool;
  convertAllData : nat -> bool;
  sourceKey : nat -> string;
  destinationKey : nat -> string
}.

(** [x || fallback] on an optional string: the empty string is falsy. *)
Definition or_default (x : option string) (fallback : string) : string :=
  match x with
  | Some EmptyString => fallback
  | Some s => s
  | None => fallback
  end.

(** [x === true]. *)
Definition is_true (x : option bool) : bool :=
  match x with
  | Some true => true
  | _ => false
  end.

(** [value.data]: reading a property of [null] throws, and what is not an
    object has no such property. *)
Definition prop_data (v : value) : result (option value) :=
  match v with
  | JObj o => Ok (lookup "data" o)
  | JNull => Throw TypeError
  | _ => Ok None
  end.

(** [JSON.parse(JSON.stringify(x))], the copy the node makes;
    [JSON.stringify(undefined)] is [undefined], which does not parse. *)
Definition copy (x : option value) : result value :=
  match x with
  | Some v => JSON.parse (JSON.stringify v)
  | None => Throw SyntaxError
  end.

(** The message of the error for a mode that is not known. *)
Definition unknown_operation (m : string) : string :=
  "The operation " ++ String JSON.dquote m
    ++ String JSON.dquote " is not known!".

Module MoveBinaryData.
Section Runtime.

(** What the model leaves open of Node's [Buffer]:
    [buffer.toString(encoding)] for an encoding other than UTF-8, and
    [Buffer.from(x)] for an [x] that is not a string.  The properties
    hold whatever these two do. *)
Variable toStringOther : string -> Buffer -> result string.
Variable bufferFromOther : value -> result Buffer.

(** [buffer.toString(encoding)].  A text is held as its UTF-8 bytes, so
    that the text of a buffer of well-formed UTF-8 (see [UTF8.decode]) is
    the buffer itself.  Bytes that are not well-formed UTF-8, which Node
    replaces by U+FFFD, are kept as they are: nothing is stated about
    the text of such a buffer but that it is a text. *)
Definition Buffer_toString (b : Buffer) (enc : string) : result string :=
  if String.eqb enc "utf8" || String.eqb enc "utf-8"
  then Ok (string_of_list_byte b)
  else toStringOther enc b.

(** [Buffer.from(x, 'base64')]; [None] is [undefined], which throws. *)
Definition Buffer_from_base64 (x : option value) : result Buffer :=
  match x with
  | Some (JStr s) => Ok (Base64.decode s)
  | Some v => bufferFromOther v
  | None => Throw TypeError
  end.

(** [Buffer.from(x)], the UTF-8 bytes of a string. *)
Definition Buffer_from (x : value) : result Buffer :=
  match x with
  | JStr s => Ok (list_byte_of_string s)
  | v => bufferFromOther v
  end.

(** The branch [mode === 'binaryToJson'] of the loop body; [Ok None]
    is [continue]. *)
Definition binaryToJson (this : NodeParameters) (itemIndex : nat)
           (item : INodeExecutionData)
  : result (option INodeExecutionData) :=
  let setAllData := setAllData this itemIndex in
  let sourceKey := sourceKey this itemIndex in
  match lodash.get (binary item) sourceKey with
  | None => Ok None
  | Some value =>
      let encoding := or_default (encoding (options this)) "utf8" in
      data <- prop_data value ;;
      buffer <- Buffer_from_base64 data ;;
      convertedValue <- Buffer_toString buffer encoding ;;
      newJson <-
        (if setAllData
         then JSON.parse convertedValue
         else
           copied <- copy (Some (json item)) ;;
           converted <-
             (if is_true (jsonParse (options this))
              then JSON.parse convertedValue
              else Ok (JStr convertedValue)) ;;
           let destinationKey := destinationKey this itemIndex in
           Ok (lodash.set copied destinationKey converted)) ;;
      newBinary <-
        (if is_true (keepSource (options this))
         then Ok (binary item)
         else
           copied <- copy (binary item) ;;
           Ok (Some (lodash.unset copied sourceKey))) ;;
      Ok (Some {| json := newJson; binary := newBinary |})
  end.

(** The branch [mode === 'jsonToBinary'] of the loop body. *)
Definition jsonToBinary (this : NodeParameters) (itemIndex : nat)
           (item : INodeExecutionData)
  : result (option INodeExecutionData) :=
  let convertAllData := convertAllData this itemIndex in
  let destinationKey := destinationKey this itemIndex in
  let value :=
    if convertAllData
    then Some (json item)
    else lodash.get (Some (json item)) (sourceKey this itemIndex) in
  match value with
  | None => Ok None
  | Some value =>
      newBinary <-
        match binary item with
        | Some _ => copy (binary item)
        | None => Ok (JObj [])
        end ;;
      buffer <-
        (if is_true (useRawData (options this))
         then Buffer_from value
         else Buffer_from (JStr (JSON.stringify value))) ;;
      let convertedValue :=
        JObj [("data", JStr (Base64.encode buffer));
              ("mimeType",
               JStr (or_default (mimeType (options this))
                       "application/json"))] in
      let newBinary := lodash.set newBinary destinationKey convertedValue in
      newJson <-
        (if is_true (keepSource (options this))
         then Ok (json item)
         else if convertAllData
              then Ok (JObj [])
              else
                copied <- copy (Some (json item)) ;;
                Ok (lodash.unset copied (sourceKey this itemIndex))) ;;
      Ok (Some {| json := newJson; binary := Some newBinary |})
  end.

(** The body of the loop of [execute] for the item at [itemIndex]:
    [Ok (Some newItem)] reaches [returnData.push(newItem)], [Ok None] is
    [continue], and [Throw] leaves [execute]. *)
Definition convert (this : NodeParameters) (itemIndex : nat)
           (item : INodeExecutionData)
  : result (option INodeExecutionData) :=
  if String.eqb (mode this) "binaryToJson"
  then binaryToJson this itemIndex item
  else if String.eqb (mode this) "jsonToBinary"
  then jsonToBinary this itemIndex item
  else Throw (Error (unknown_operation (mode this))).

(** The loop of [execute], from [itemIndex] on. *)
Fixpoint loop (this : NodeParameters) (items : list INodeExecutionData)
         (itemIndex : nat) (returnData : list INodeExecutionData)
  : result (list INodeExecutionData) :=
  match items with
  | [] => Ok returnData
  | item :: rest =>
      newItem <- convert this itemIndex item ;;
      loop this rest (S itemIndex)
        match newItem with
        | Some newItem => returnData ++ [newItem]
        | None => returnData
        end
  end.

(** [execute]: the items of the single output, or the exception. *)
Definition execute (this : NodeParameters)
           (items : list INodeExecutionData)
  : result (list (list INodeExecutionData)) :=
  returnData <- loop this items 0 [] ;;
  Ok [returnData].

End Runtime.
End MoveBinaryData.

(* ================================================================== *)
(** * Vocabulary of the properties *)

(** [x === undefined]. *)
Definition is_none (A : Type) (x : option A) : bool :=
  match x with
  | Some _ => false
  | None => true
  end.

(** The item has nothing at the source the node reads: the binary
    property at [sourceKey] in the mode [binaryToJson], the JSON data at
    [sourceKey] in the mode [jsonToBinary] when not all data is
    converted. *)
Definition source_absent (this : NodeParameters) (itemIndex : nat)
           (item : INodeExecutionData) : bool :=
  if String.eqb (mode this) "binaryToJson"
  then is_none (lodash.get (binary item) (sourceKey this itemIndex))
  else if String.eqb (mode this) "jsonToBinary"
  then negb (convertAllData this itemIndex)
       && is_none (lodash.get (Some (json item)) (sourceKey this itemIndex))
  else false.

(** The data of an item is made of JavaScript objects: no object in it
    has two properties of the same name (see [wf_value]). *)
Definition well_formed (item : INodeExecutionData) : bool :=
  wf_value (json item)
  && match binary item with
     | Some b => wf_value b
     | None => true
     end.

(** The value is an object, as the data of an item is by its type. *)
Definition is_object (v : value) : bool :=
  match v with
  | JObj _ => true
  | _ => false
  end.

(** The items an output is made of: nothing for [continue], the new item
    for [push]. *)
Definition pushed (o : option INodeExecutionData) : list INodeExecutionData :=
  match o with
  | Some newItem => [newItem]
  | None => []
  end.

(** Two paths are apart when they part at some segment: neither leads
    to the other. *)
Fixpoint apart (p q : list string) : bool :=
  match p, q with
  | k :: p', k' :: q' => if String.eqb k' k then apart p' q' else true
  | _, _ => false
  end.

(** [t'] is [t] with [v] written at [path]: [v] is there, and every path
    apart from it leads to what it led to. *)
Definition written_at (t : value) (path : string) (v : value) (t' : value)
  : Prop :=
  lodash.get (Some t') path = Some v
  /\ forall q, apart (lodash.castPath path) q = true ->
               lodash.baseGet t' q = lodash.baseGet t q.

(** [t'] is [t] with [path] removed: nothing is there, and every path
    apart from it leads to what it led to. *)
Definition removed_at (t : value) (path : string) (t' : value) : Prop :=
  lodash.get (Some t') path = None
  /\ forall q, apart (lodash.castPath path) q = true ->
               lodash.baseGet t' q = lodash.baseGet t q.

(** A runtime for the examples, which use UTF-8 and strings only: Node
    throws a [TypeError] for an encoding it does not know, and for
    [Buffer.from] of a number, a boolean, [null] or a plain object. *)
Definition no_other_encoding (enc : string) (b : Buffer) : result string :=
  Throw TypeError.

Definition no_other_source (v : value) : result Buffer :=
  Throw TypeError.

(** The number of items of a batch, from [itemIndex] on, whose source is
    absent. *)
Fixpoint count_absent (this : NodeParameters)
         (items : list INodeExecutionData) (itemIndex : nat) : nat :=
  match items with
  | [] => 0
  | item :: rest =>
      (if source_absent this itemIndex item then 1 else 0)
      + count_absent this rest (S itemIndex)
  end.

(** The item has a payload at the source whose text is not JSON, and the
    node is asked to parse it. *)
Definition parse_fails (toStringOther : string -> Buffer -> result string)
           (this : NodeParameters) (itemIndex : nat)
           (item : INodeExecutionData) : Prop :=
  mode this = "binaryToJson"
  /\ exists payload data text,
       lodash.get (binary item) (sourceKey this itemIndex) = Some payload
       /\ prop_data payload = Ok (Some (JStr data))
       /\ MoveBinaryData.Buffer_toString toStringOther (Base64.decode data)
            (or_default (encoding (options this)) "utf8") = Ok text
       /\ (setAllData this itemIndex = true
           \/ jsonParse (options this) = Some true)
       /\ JSON.parse text = Throw SyntaxError.

(** The parameters with another [encoding] option. *)
Definition with_encoding (this : NodeParameters) (enc : option string)
  : NodeParameters :=
  {| mode := mode this;
     options := {| encoding := enc;
                   jsonParse := jsonParse (options this);
                   keepSource := keepSource (options this);
                   mimeType := mimeType (options this);
                   useRawData := useRawData (options this) |};
     setAllData := setAllData this;
     convertAllData := convertAllData this;
     sourceKey := sourceKey this;
     destinationKey := destinationKey this |}.

(* ================================================================== *)
(** * Examples *)

Module Examples.

(** A payload whose text is the JSON text of [{x: 5}]. *)
Definition payload_x5 : value :=
  JObj [("data", JStr "eyJ4Ijo1fQ=="); ("mimeType", JStr "application/json")].

(** A payload whose text is [x], which is not a JSON text. *)
Definition payload_x : value :=
  JObj [("data", JStr "eA=="); ("mimeType", JStr "text/plain")].

Definition item_x5 : INodeExecutionData :=
  {| json := JObj []; binary := Some (JObj [("data", payload_x5)]) |}.

Definition item_x : INodeExecutionData :=
  {| json := JObj []; binary := Some (JObj [("data", payload_x)]) |}.

(** A payload which is not JSON text and not ASCII: the bytes
    [63 61 66 c3 a9], the UTF-8 form of the four code points of [cafe]
    with an acute accent on the [e] (U+00E9). *)
Definition payload_cafe : value :=
  JObj [("data", JStr "Y2Fmw6k="); ("mimeType", JStr "text/plain")].

Definition item_cafe : INodeExecutionData :=
  {| json := JObj []; binary := Some (JObj [("data", payload_cafe)]) |}.

(** A payload whose text is the JSON text of [{x: 1.5}]. *)
Definition payload_x15 : value :=
  JObj [("data", JStr "eyJ4IjoxLjV9"); ("mimeType", JStr "application/json")].

Definition item_x15 : INodeExecutionData :=
  {| json := JObj []; binary := Some (JObj [("data", payload_x15)]) |}.

Definition item_without_binary : INodeExecutionData :=
  {| json := JObj [("id", JNum 7)]; binary := None |}.

Definition item_a1 : INodeExecutionData :=
  {| json := JObj [("a", JNum 1)]; binary := Some (JObj []) |}.

Definition item_nested : INodeExecutionData :=
  {| json := JObj [("a", JObj [("b", JArr [JNum 1; JStr "x"])]);
                   ("c", JBool true)];
     binary := None |}.

(** A quoted text, to write JSON texts with. *)
Definition q (s : string) : string :=
  String JSON.dquote (s ++ String JSON.dquote "").

Definition no_options : Options :=
  {| encoding := None; jsonParse := None; keepSource := None;
     mimeType := None; useRawData := None |}.

(** The node as it is when it is added to a workflow: every parameter
    has its default. *)
Definition defaults : NodeParameters :=
  {| mode := "binaryToJson";
     options := no_options;
     setAllData := fun _ => true;
     convertAllData := fun _ => true;
     sourceKey := fun _ => "data";
     destinationKey := fun _ => "data" |}.

Definition unknown : NodeParameters :=
  {| mode := "jsonToXml";
     options := no_options;
     setAllData := fun _ => true;
     convertAllData := fun _ => true;
     sourceKey := fun _ => "data";
     destinationKey := fun _ => "data" |}.

Definition all_to_binary (raw : option bool) : NodeParameters :=
  {| mode := "jsonToBinary";
     options := {| encoding := None; jsonParse := None; keepSource := None;
                   mimeType := None; useRawData := raw |};
     setAllData := fun _ => true;
     convertAllData := fun _ => true;
     sourceKey := fun _ => "data";
     destinationKey := fun _ => "data" |}.

(** One key from the binary data to the JSON data, the source removed. *)
Definition key_to_json (parse : option bool) : NodeParameters :=
  {| mode := "binaryToJson";
     options := {| encoding := None; jsonParse := parse;
                   keepSource := Some false; mimeType := None;
                   useRawData := None |};
     setAllData := fun _ => false;
     convertAllData := fun _ => true;
     sourceKey := fun _ => "data";
     destinationKey := fun _ => "result.value" |}.

(** There and back at one path, the source kept. *)
Definition there (path : string) : NodeParameters :=
  {| mode := "jsonToBinary";
     options := {| encoding := None; jsonParse := None;
                   keepSource := Some true; mimeType := None;
                   useRawData := Some false |};
     setAllData := fun _ => true;
     convertAllData := fun _ => false;
     sourceKey := fun _ => path;
     destinationKey := fun _ => path |}.

Definition back (path : string) : NodeParameters :=
  {| mode := "binaryToJson";
     options := {| encoding := None; jsonParse := Some true;
                   keepSource := Some true; mimeType := None;
                   useRawData := None |};
     setAllData := fun _ => false;
     convertAllData := fun _ => true;
     sourceKey := fun _ => path;
     destinationKey := fun _ => path |}.

End Examples.

(* ================================================================== *)
(** * The description of the node *)

(** The [description] property of the class: what the editor shows for
    the node.  The help texts ([description] of each property) and the
    [subtitle] expression are left out. *)
Module Description.

(** A value of a parameter, as the defaults and the display conditions
    have them; [PEmpty] is the empty collection [{}]. *)
Inductive NodeParameterValue : Type :=
| PBool (b : bool)
| PStr (s : string)
| PEmpty.

#[local] Unset Elimination Schemes.
(** [INodeProperties]: one declared parameter.  [show] is
    [displayOptions.show], and [options] holds the choices of a parameter
    of type [options] or the parameters of one of type [collection]. *)
Inductive INodeProperties : Type :=
| Property (displayName name type : string)
           (show : list (string * list NodeParameterValue))
           (default : NodeParameterValue)
           (required : bool)
           (placeholder : option string)
           (options : list PropertyOption)
with PropertyOption : Type :=
| Choice (name value : string)
| Child (property : INodeProperties).
#[local] Set Elimination Schemes.

Definition name (p : INodeProperties) : string :=
  match p with Property _ n _ _ _ _ _ _ => n end.

Definition show (p : INodeProperties)
  : list (string * list NodeParameterValue) :=
  match p with Property _ _ _ s _ _ _ _ => s end.

Definition default (p : INodeProperties) : NodeParameterValue :=
  match p with Property _ _ _ _ d _ _ _ => d end.

Definition options (p : INodeProperties) : list PropertyOption :=
  match p with Property _ _ _ _ _ _ _ o => o end.

Record INodeTypeDescription : Type := {
  displayName : string;
  typeName : string;
  icon : string;
  group : list string;
  version : nat;
  defaults : string * string;
  inputs : list string;
  outputs : list string;
  properties : list INodeProperties
}.

Definition description : INodeTypeDescription :=
  {| displayName := "Move Binary Data";
     typeName := "moveBinaryData";
     icon := "fa:exchange-alt";
     group := ["transform"];
     version := 1;
     defaults := ("Move Binary Data", "#7722CC");
     inputs := ["main"];
     outputs := ["main"];
     properties :=
       [ Property "Mode" "mode" "options" []
           (PStr "binaryToJson") false None
           [Choice "Binary to JSON" "binaryToJson";
            Choice "JSON to Binary" "jsonToBinary"];
         (* binaryToJson *)
         Property "Set all Data" "setAllData" "boolean"
           [("mode", [PStr "binaryToJson"])]
           (PBool true) false None [];
         Property "Source Key" "sourceKey" "string"
           [("mode", [PStr "binaryToJson"])]
           (PStr "data") true (Some "data") [];
         Property "Destination Key" "destinationKey" "string"
           [("mode", [PStr "binaryToJson"]);
            ("setAllData", [PBool false])]
           (PStr "data") true (Some "") [];
         (* jsonToBinary *)
         Property "Convert all Data" "convertAllData" "boolean"
           [("mode", [PStr "jsonToBinary"])]
           (PBool true) false None [];
         Property "Source Key" "sourceKey" "string"
           [("convertAllData", [PBool false]);
            ("mode", [PStr "jsonToBinary"])]
           (PStr "data") true (Some "data") [];
         Property "Destination Key" "destinationKey" "string"
           [("mode", [PStr "jsonToBinary"])]
           (PStr "data") true (Some "data") [];
         Property "Options" "options" "collection" []
           PEmpty false (Some "Add Option")
           [ Child (Property "Encoding" "encoding" "string"
                      [("/mode", [PStr "binaryToJson"])]
                      (PStr "utf8") false None []);
             Child (Property "JSON Parse" "jsonParse" "boolean"
                      [("/mode", [PStr "binaryToJson"]);
                       ("/setAllData", [PBool false])]
                      (PBool false) false None []);
             Child (Property "Keep Source" "keepSource" "boolean" []
                      (PBool false) false None []);
             Child (Property "Mime Type" "mimeType" "string"
                      [("/mode", [PStr "jsonToBinary"])]
                      (PStr "application/json") false
                      (Some "application/json") []);
             Child (Property "Use Raw Data" "useRawData" "boolean"
                      [("/mode", [PStr "jsonToBinary"])]
                      (PBool false) false None []) ] ] |}.

(** The parameters a collection holds. *)
Fixpoint children (l : list PropertyOption) : list INodeProperties :=
  match l with
  | [] => []
  | Child p :: r => p :: children r
  | Choice _ _ :: r => children r
  end.

(** The first declaration of a name. *)
Fixpoint find (n : string) (l : list INodeProperties)
  : option INodeProperties :=
  match l with
  | [] => None
  | p :: r => if String.eqb (name p) n then Some p else find n r
  end.

(** The options the collection [options] declares. *)
Definition option_declarations : list INodeProperties :=
  match find "options" (properties description) with
  | Some p => children (options p)
  | None => []
  end.

Definition default_string (n : string) (l : list INodeProperties)
  : option string :=
  match find n l with
  | Some p => match default p with PStr s => Some s | _ => None end
  | None => None
  end.

Definition default_bool (n : string) (l : list INodeProperties)
  : option bool :=
  match find n l with
  | Some p => match default p with PBool b => Some b | _ => None end
  | None => None
  end.

Definition value_eqb (a b : NodeParameterValue) : bool :=
  match a, b with
  | PBool x, PBool y => Bool.eqb x y
  | PStr x, PStr y => String.eqb x y
  | PEmpty, PEmpty => true
  | _, _ => false
  end.

(** A name under [show] that starts with [/] is read from the root of
    the parameters; the parameters of this node are all at the root. *)
Definition root (key : string) : string :=
  match key with
  | String c r => if Ascii.eqb c "/" then r else key
  | EmptyString => key
  end.

(** n8n shows a parameter when each name under [show] has one of the
    values listed for it. *)
Definition displayed (values : string -> option NodeParameterValue)
           (p : INodeProperties) : bool :=
  forallb (fun condition =>
             match values (root (fst condition)) with
             | Some v => existsb (value_eqb v) (snd condition)
             | None => false
             end)
          (show p).

End Description.

(** What [this.getNodeParameter(name, itemIndex)] returns for the
    parameters at the root; the collection [options] is read through
    [option_value]. *)
Definition parameter (this : NodeParameters) (itemIndex : nat)
           (name : string) : option Description.NodeParameterValue :=
  if String.eqb name "mode"
  then Some (Description.PStr (mode this))
  else if String.eqb name "setAllData"
  then Some (Description.PBool (setAllData this itemIndex))
  else if String.eqb name "convertAllData"
  then Some (Description.PBool (convertAllData this itemIndex))
  else if String.eqb name "sourceKey"
  then Some (Description.PStr (sourceKey this itemIndex))
  else if String.eqb name "destinationKey"
  then Some (Description.PStr (destinationKey this itemIndex))
  else None.

(** The value of an option of the collection [options], when it is set. *)
Definition option_value (this : NodeParameters) (name : string)
  : option Description.NodeParameterValue :=
  if String.eqb name "encoding"
  then option_map Description.PStr (encoding (options this))
  else if String.eqb name "jsonParse"
  then option_map Description.PBool (jsonParse (options this))
  else if String.eqb name "keepSource"
  then option_map Description.PBool (keepSource (options this))
  else if String.eqb name "mimeType"
  then option_map Description.PStr (mimeType (options this))
  else if String.eqb name "useRawData"
  then option_map Description.PBool (useRawData (options this))
  else None.

(** Two settings of the node agree for an item on every parameter and
    every option that the editor shows for the first. *)
Definition agree_on_displayed (this this' : NodeParameters) (i : nat)
  : Prop :=
  (forall p,
      In p (Description.properties Description.description) ->
      Description.displayed (parameter this i) p = true ->
      parameter this i (Description.name p)
      = parameter this' i (Description.name p))
  /\ (forall p,
        In p Description.option_declarations ->
        Description.displayed (parameter this i) p = true ->
        option_value this (Description.name p)
        = option_value this' (Description.name p)).

(** The parameters with other options. *)
Definition with_options (this : NodeParameters) (o : Options)
  : NodeParameters :=
  {| mode := mode this;
     options := o;
     setAllData := setAllData this;
     convertAllData := convertAllData this;
     sourceKey := sourceKey this;
     destinationKey := destinationKey this |}.

(** An option that is not set, or is set to the empty text, replaced by
    the default the description declares for it. *)
Definition or_declared (x : option string) (name : string) : option string :=
  match x with
  | Some (String _ _) => x
  | _ => Description.default_string name Description.option_declarations
  end.

Definition or_declared_bool (x : option bool) (name : string) : option bool :=
  match x with
  | Some _ => x
  | None => Description.default_bool name Description.option_declarations
  end.

(** The options with every missing one filled in from the description. *)
Definition declared (o : Options) : Options :=
  {| encoding := or_declared (encoding o) "encoding";
     jsonParse := or_declared_bool (jsonParse o) "jsonParse";
     keepSource := or_declared_bool (keepSource o) "keepSource";
     mimeType := or_declared (mimeType o) "mimeType";
     useRawData := or_declared_bool (useRawData o) "useRawData" |}.

(** The parameters as the items from [n] on see them. *)
Definition shift (n : nat) (this : NodeParameters) : NodeParameters :=
  {| mode := mode this;
     options := options this;
     setAllData := fun i => setAllData this (n + i);
     convertAllData := fun i => convertAllData this (n + i);
     sourceKey := fun i => sourceKey this (n + i);
     destinationKey := fun i => destinationKey this (n + i) |}.

(** The parameters are the same for every item (no expression in them
    depends on the item). *)
Definition uniform (this : NodeParameters) : Prop :=
  forall i,
    setAllData this i = setAllData this 0
    /\ convertAllData this i = convertAllData this 0
    /\ sourceKey this i = sourceKey this 0
    /\ destinationKey this i = destinationKey this 0.

(** The values of the choices of a parameter of type [options]. *)
Fixpoint choice_values (l : list Description.PropertyOption) : list string :=
  match l with
  | [] => []
  | Description.Choice _ v :: r => v :: choice_values r
  | Description.Child _ :: r => choice_values r
  end.

(** The modes the description offers. *)
Definition declared_modes : list string :=
  match Description.find "mode"
          (Description.properties Description.description) with
  | Some p => choice_values (Description.options p)
  | None => []
  end.

(** The default the description declares for a text parameter, and for
    a boolean one, at the root. *)
Definition declared_string (name : string) : string :=
  match Description.default_string name
          (Description.properties Description.description) with
  | Some s => s
  | None => ""
  end.

Definition declared_bool (name : string) : bool :=
  match Description.default_bool name
          (Description.properties Description.description) with
  | Some b => b
  | None => false
  end.

(** The node as it is when it is added to a workflow: every parameter
    has the default the description declares, and no option is set. *)
Definition fresh : NodeParameters :=
  {| mode := declared_string "mode";
     options := {| encoding := None; jsonParse := None; keepSource := None;
                   mimeType := None; useRawData := None |};
     setAllData := fun _ => declared_bool "setAllData";
     convertAllData := fun _ => declared_bool "convertAllData";
     sourceKey := fun _ => declared_string "sourceKey";
     destinationKey := fun _ => declared_string "destinationKey" |}.

(** The item is one the node can receive: its JSON data is an object,
    its binary data, if it has any, is an object, and both are well
    formed. *)
Definition is_item (item : INodeExecutionData) : bool :=
  is_object (json item)
  && match binary item with
     | Some b => is_object b
     | None => true
     end
  && well_formed item.

(** An item with something at [key] on both sides: a text in the JSON
    data, and a payload with the JSON text [{}] in the binary data. *)
Definition item_at (key : string) : INodeExecutionData :=
  {| json := lodash.set (JObj []) key (JStr "x");
     binary :=
       Some (lodash.set (JObj []) key
               (JObj [("data", JStr "e30=");
                      ("mimeType", JStr "application/json")])) |}.

(** The payload the mode [jsonToBinary] writes for a buffer. *)
Definition payload_of (this : NodeParameters) (buffer : Buffer) : value :=
  JObj [("data", JStr (Base64.encode buffer));
        ("mimeType",
         JStr (or_default (mimeType (options this)) "application/json"))].

(** What the facts about the values [JSON.parse] returns are stated
    with. *)
Module ParseShapes.
Import JSON.

(** What the reader returns with fuel [f] is well formed. *)
Definition wf_results (f : nat) : Prop :=
  (forall s v r, parse_value f s = Some (v, r) -> wf_value v = true)
  /\ (forall s l r, parse_elements f s = Some (l, r) ->
        forallb wf_value l = true)
  /\ (forall s o r, parse_members f s = Some (o, r) ->
        forallb (fun kv => wf_value (snd kv)) o = true).

End ParseShapes.

(* ================================================================== *)
(** * More examples *)

Module MoreExamples.
Import Examples.

(** The default parameters with other values for everything the
    description hides in the mode [binaryToJson] with [setAllData]. *)
Definition defaults_with_hidden_changed : NodeParameters :=
  {| mode := "binaryToJson";
     options := {| encoding := None; jsonParse := Some true;
                   keepSource := None; mimeType := Some "text/plain";
                   useRawData := Some true |};
     setAllData := fun _ => true;
     convertAllData := fun _ => false;
     sourceKey := fun _ => "data";
     destinationKey := fun _ => "elsewhere" |}.

(** The default parameters reading a property of the payload itself. *)
Definition into_payload : NodeParameters :=
  {| mode := "binaryToJson";
     options := no_options;
     setAllData := fun _ => true;
     convertAllData := fun _ => true;
     sourceKey := fun _ => "data.mimeType";
     destinationKey := fun _ => "data" |}.

(** One key to the binary data as it is. *)
Definition raw_key (path : string) : NodeParameters :=
  {| mode := "jsonToBinary";
     options := {| encoding := None; jsonParse := None; keepSource := None;
                   mimeType := Some "text/plain"; useRawData := Some true |};
     setAllData := fun _ => true;
     convertAllData := fun _ => false;
     sourceKey := fun _ => path;
     destinationKey := fun _ => "file" |}.

Definition item_report : INodeExecutionData :=
  {| json := JObj [("name", JStr "report"); ("pages", JNum 3)];
     binary := None |}.

(** There and back at one path, the source removed. *)
Definition move_there (path : string) : NodeParameters :=
  {| mode := "jsonToBinary";
     options := no_options;
     setAllData := fun _ => true;
     convertAllData := fun _ => false;
     sourceKey := fun _ => path;
     destinationKey := fun _ => path |}.

Definition move_back (path : string) : NodeParameters :=
  {| mode := "binaryToJson";
     options := {| encoding := None; jsonParse := Some true;
                   keepSource := None; mimeType := None;
                   useRawData := None |};
     setAllData := fun _ => false;
     convertAllData := fun _ => true;
     sourceKey := fun _ => path;
     destinationKey := fun _ => path |}.

End MoreExamples.

(* ================================================================== *)
(** * Facts about base64 *)

Module Base64Facts.
Import Base64.

Local Open Scope N_scope.

Lemma index_of_char_of_all :
  forallb (fun n => match index_of (char_of n) with
                    | Some m => N.eqb m n
                    | None => false
                    end)
          (map N.of_nat (seq 0 64)) = true.
Proof. vm_compute. reflexivity. Qed.

Lemma char_of_not_pad_all :
  forallb (fun n => negb (Ascii.eqb (char_of n) "="))
          (map N.of_nat (seq 0 64)) = true.
Proof. vm_compute. reflexivity. Qed.

Lemma below_64_listed (n : N) :
  n < 64 -> In n (map N.of_nat (seq 0 64)).
Proof.
  intros Hn. apply in_map_iff. exists (N.to_nat n). split.
  - apply N2Nat.id.
  - apply in_seq. lia.
Qed.

Lemma index_of_char_of (n : N) :
  n < 64 -> index_of (char_of n) = Some n.
Proof.
  intros Hn.
  pose proof (proj1 (forallb_forall _ _) index_of_char_of_all n
                (below_64_listed Hn)) as H.
  cbv beta in H. destruct (index_of (char_of n)) as [m|]; [|discriminate].
  apply N.eqb_eq in H. now subst.
Qed.

Lemma char_of_not_pad (n : N) :
  n < 64 -> Ascii.eqb (char_of n) "=" = false.
Proof.
  intros Hn.
  pose proof (proj1 (forallb_forall _ _) char_of_not_pad_all n
                (below_64_listed Hn)) as H.
  cbv beta in H. now apply negb_true_iff in H.
Qed.

Lemma sextets_char_of (n : N) (r : string) :
  n < 64 -> sextets (String (char_of n) r) = n :: sextets r.
Proof.
  intros Hn. cbn [sextets].
  now rewrite (char_of_not_pad Hn), (index_of_char_of Hn).
Qed.

Lemma byte_of_N_to_N (b : byte) : byte_of_N (Byte.to_N b) = b.
Proof.
  unfold byte_of_N.
  pose proof (Byte.to_N_bounded b) as Hb.
  rewrite N.mod_small by lia.
  now rewrite Byte.of_to_N.
Qed.

Lemma byte_of_N_eq (n : N) (b : byte) :
  n = Byte.to_N b -> byte_of_N n = b.
Proof. intros ->. apply byte_of_N_to_N. Qed.

Ltac divmod := zify; Z.to_euclidean_division_equations; lia.

(** A three-step induction scheme for buffers, following [encode]. *)
Lemma buffer_ind3 (P : Buffer -> Prop) :
  P [] ->
  (forall x, P [x]) ->
  (forall x y, P [x; y]) ->
  (forall x y z rest, P rest -> P (x :: y :: z :: rest)) ->
  forall bs, P bs.
Proof.
  intros H0 H1 H2 H3.
  fix IH 1. intros [|x [|y [|z rest]]].
  - exact H0.
  - apply H1.
  - apply H2.
  - apply H3, IH.
Qed.

(** Base64 round trip: decoding the encoding of a buffer gives the buffer. *)
Lemma decode_encode (bs : Buffer) : decode (encode bs) = bs.
Proof.
  unfold decode. induction bs as [|x|x y|x y z rest IH] using buffer_ind3.
  - reflexivity.
  - pose proof (Byte.to_N_bounded x).
    cbn [encode]; cbv zeta.
    do 2 (rewrite sextets_char_of by divmod).
    change (sextets "==") with (@nil N). cbn [bytes_of_sextets].
    f_equal. apply byte_of_N_eq. divmod.
  - pose proof (Byte.to_N_bounded x). pose proof (Byte.to_N_bounded y).
    cbn [encode]; cbv zeta.
    do 3 (rewrite sextets_char_of by divmod).
    change (sextets "=") with (@nil N). cbn [bytes_of_sextets].
    f_equal; [|f_equal]; apply byte_of_N_eq; divmod.
  - pose proof (Byte.to_N_bounded x). pose proof (Byte.to_N_bounded y).
    pose proof (Byte.to_N_bounded z).
    cbn [encode]; cbv zeta.
    do 4 (rewrite sextets_char_of by divmod).
    cbn [bytes_of_sextets]. rewrite IH.
    f_equal; [|f_equal; [|f_equal]]; apply byte_of_N_eq; divmod.
Qed.

End Base64Facts.

(* ================================================================== *)
(** * Facts about JSON.stringify and JSON.parse *)

Module JSONFacts.
Import JSON JSONShapes.

Local Open Scope string_scope.

Lemma append_assoc (a b c : string) : (a ++ b) ++ c = a ++ (b ++ c).
Proof. induction a as [|x a IH]; cbn; [reflexivity | now rewrite IH]. Qed.

Lemma length_append (a b : string) :
  String.length (a ++ b) = String.length a + String.length b.
Proof. induction a as [|x a IH]; cbn; [reflexivity | now rewrite IH]. Qed.

Lemma append_empty (a : string) : a ++ "" = a.
Proof. induction a as [|x a IH]; cbn; [reflexivity | now rewrite IH]. Qed.

(** ** String literals *)

Lemma tokens_escape_char (c : ascii) (r : string) :
  tokens (escape_char c ++ r) =
  match tokens r with
  | Some (ts, r') => Some (token_of c :: ts, r')
  | None => None
  end.
Proof.
  destruct c as [[] [] [] [] [] [] [] []]; reflexivity.
Qed.

Lemma tokens_escape (s rest : string) :
  tokens (escape s ++ String dquote rest) = Some (tokens_of s, rest).
Proof.
  induction s as [|c s IH].
  - reflexivity.
  - cbn [escape tokens_of]. rewrite append_assoc, tokens_escape_char.
    now rewrite IH.
Qed.

Lemma assemble_token_of (c : ascii) (ts : list token) :
  assemble (token_of c :: ts) = String c (assemble ts).
Proof.
  destruct c as [[] [] [] [] [] [] [] []]; reflexivity.
Qed.

Lemma assemble_tokens_of (s : string) : assemble (tokens_of s) = s.
Proof.
  induction s as [|c s IH].
  - reflexivity.
  - cbn [tokens_of]. now rewrite assemble_token_of, IH.
Qed.

(** A string literal is read back as the string it was written from. *)
Lemma parse_string_quote (s rest : string) :
  parse_string (escape s ++ String dquote rest) = Some (s, rest).
Proof.
  unfold parse_string. now rewrite tokens_escape, assemble_tokens_of.
Qed.

(** ** Numbers *)

Lemma to_uint_normal (m : N) : unorm (N.to_uint m) = N.to_uint m.
Proof.
  rewrite <- (DecimalN.Unsigned.of_to m) at 2.
  now rewrite DecimalN.Unsigned.to_of.
Qed.

Lemma to_uint_shape (m : N) :
  N.to_uint m <> Nil /\
  (forall d, N.to_uint m = D0 d -> d = Nil).
Proof.
  split.
  - rewrite <- to_uint_normal. apply unorm_nonnil.
  - intros d Hd. pose proof (to_uint_normal m) as Hn.
    rewrite Hd in Hn. unfold unorm in Hn. rewrite nzhead_D0 in Hn.
    destruct (nzhead d) eqn:E; try discriminate Hn.
    + change (D0 Nil = D0 d) in Hn. now injection Hn.
    + exfalso. eapply nzhead_nonzero. exact E.
Qed.

Lemma follow_ok_head (rest : string) :
  follow_ok rest = true ->
  head_is_digit rest = false /\ fraction_follows rest = false.
Proof.
  destruct rest as [|c r]; [now split|]. cbn [follow_ok].
  intros H. apply orb_true_iff in H as [H|H];
    [apply orb_true_iff in H as [H|H]|];
    apply Ascii.eqb_eq in H; subst c; now split.
Qed.

(** ** Runs of digits *)

Lemma all_digits_app (a b : string) :
  all_digits (a ++ b) = all_digits a && all_digits b.
Proof.
  induction a as [|c a IH]; cbn [append all_digits]; [reflexivity|].
  now rewrite IH, andb_assoc.
Qed.

Lemma all_digits_string_of_uint (d : uint) :
  all_digits (string_of_uint d) = true.
Proof. induction d; cbn [string_of_uint all_digits]; auto. Qed.

Lemma all_digits_digits (m : N) : all_digits (digits m) = true.
Proof. apply all_digits_string_of_uint. Qed.

Lemma all_digits_zeros (n : nat) : all_digits (zeros n) = true.
Proof. induction n; cbn [zeros all_digits]; auto. Qed.

Lemma all_digits_take (n : nat) (s : string) :
  all_digits s = true -> all_digits (take n s) = true.
Proof.
  revert s. induction n as [|n IH]; intros [|c s]; cbn [take all_digits];
    try reflexivity.
  intros H. apply andb_true_iff in H as [Hc Hs]. now rewrite Hc, IH.
Qed.

Lemma all_digits_drop (n : nat) (s : string) :
  all_digits s = true -> all_digits (drop n s) = true.
Proof.
  revert s. induction n as [|n IH]; intros [|c s]; cbn [drop all_digits];
    try reflexivity; try (intros H; exact H).
  intros H. apply andb_true_iff in H as [_ Hs]. now apply IH.
Qed.

Lemma take_drop (n : nat) (s : string) : take n s ++ drop n s = s.
Proof.
  revert s. induction n as [|n IH]; intros [|c s]; cbn [take drop append];
    try reflexivity.
  now rewrite IH.
Qed.

Lemma length_take (n : nat) (s : string) :
  n <= String.length s -> String.length (take n s) = n.
Proof.
  revert s. induction n as [|n IH]; intros [|c s]; cbn [take String.length];
    try lia.
  intros H. rewrite IH; lia.
Qed.

Lemma length_drop (n : nat) (s : string) :
  String.length (drop n s) = String.length s - n.
Proof.
  revert s. induction n as [|n IH]; intros [|c s]; cbn [drop String.length];
    try lia.
  apply IH.
Qed.

Lemma length_zeros (n : nat) : String.length (zeros n) = n.
Proof. induction n; cbn [zeros String.length]; lia. Qed.

Lemma read_digits_app (ds rest : string) :
  all_digits ds = true -> head_is_digit rest = false ->
  read_digits (ds ++ rest) = (ds, rest).
Proof.
  intros Hds Hrest. induction ds as [|c ds IH].
  - destruct rest as [|c r]; [reflexivity|].
    cbn in Hrest. cbn [append read_digits]. now rewrite Hrest.
  - cbn [all_digits] in Hds. apply andb_true_iff in Hds as [Hc Hds].
    cbn [append read_digits]. now rewrite Hc, (IH Hds).
Qed.

Lemma read_digits_split (s ds r : string) :
  read_digits s = (ds, r) -> s = ds ++ r.
Proof.
  revert ds r. induction s as [|c s IH]; intros ds r; cbn [read_digits].
  - now intros [= <- <-].
  - destruct (is_digit c).
    + destruct (read_digits s) as [ds' r'].
      intros [= <- <-]. cbn [append]. now rewrite (IH ds' r' eq_refl).
    + now intros [= <- <-].
Qed.

(** ** The number of a run of digits *)

Lemma number_of_digits_app (acc : N) (a b : string) :
  number_of_digits acc (a ++ b)
  = number_of_digits (number_of_digits acc a) b.
Proof.
  revert acc. induction a as [|c a IH]; intros acc;
    cbn [append number_of_digits]; [reflexivity | apply IH].
Qed.

Lemma number_of_digits_zeros (acc : N) (n : nat) :
  number_of_digits acc (zeros n) = (acc * 10 ^ N.of_nat n)%N.
Proof.
  revert acc. induction n as [|n IH]; intros acc.
  - cbn [zeros number_of_digits]. change (N.of_nat 0) with 0%N.
    rewrite N.pow_0_r. lia.
  - cbn [zeros number_of_digits]. rewrite IH.
    change (N_of_ascii "0" - 48)%N with 0%N.
    rewrite Nat2N.inj_succ, N.pow_succ_r'. lia.
Qed.

Lemma number_of_digits_acc (d : uint) (acc : positive) :
  number_of_digits (Npos acc) (string_of_uint d)
  = Npos (Pos.of_uint_acc d acc).
Proof.
  revert acc. induction d; intros acc;
    cbn [string_of_uint number_of_digits Pos.of_uint_acc];
    [reflexivity|..];
    match goal with
    | |- number_of_digits ?a _ = _ =>
        match goal with
        | |- _ = Npos (Pos.of_uint_acc _ ?b) =>
            replace a with (Npos b)
              by (set (x := (N_of_ascii _ - 48)%N); vm_compute in x;
                  subst x; lia)
        end
    end; apply IHd.
Qed.

Lemma number_of_digits_of_uint (d : uint) :
  number_of_digits 0 (string_of_uint d) = N.of_uint d.
Proof.
  unfold N.of_uint.
  induction d; cbn [string_of_uint number_of_digits Pos.of_uint];
    [reflexivity | exact IHd | ..];
    match goal with
    | |- number_of_digits ?a _ = Npos (Pos.of_uint_acc _ ?b) =>
        replace a with (Npos b)
              by (set (x := (N_of_ascii _ - 48)%N); vm_compute in x;
                  subst x; lia)
    end; apply number_of_digits_acc.
Qed.

Lemma number_of_digits_digits (m : N) : number_of_digits 0 (digits m) = m.
Proof.
  unfold digits. rewrite number_of_digits_of_uint.
  apply DecimalN.Unsigned.of_to.
Qed.


(** ** The digits of a number *)

Lemma digits_head (m : N) :
  m <> 0%N ->
  exists c r, digits m = String c r
              /\ is_digit c = true /\ Ascii.eqb c "0" = false.
Proof.
  intros Hm. unfold digits. destruct (to_uint_shape m) as [Hnil Hzero].
  destruct (N.to_uint m) as [|d|d|d|d|d|d|d|d|d|d] eqn:E;
    cbn [string_of_uint]; [congruence | | eexists _, _; now repeat split ..].
  exfalso. apply Hm. rewrite <- (DecimalN.Unsigned.of_to m), E.
  now rewrite (Hzero d eq_refl).
Qed.

Lemma significant_zeros (s : string) :
  s = significant s
        ++ zeros (String.length s - String.length (significant s)).
Proof.
  induction s as [|c r IH]; [reflexivity|].
  cbn [significant]. destruct (significant r) as [|a s'] eqn:E.
  - cbn [append String.length] in IH. rewrite Nat.sub_0_r in IH.
    destruct (Ascii.eqb_spec c "0") as [->|Hc].
    + cbn [append String.length]. rewrite Nat.sub_0_r.
      cbn [zeros]. now rewrite <- IH.
    + cbn [append String.length].
      replace (S (String.length r) - 1) with (String.length r) by lia.
      now rewrite <- IH.
  - cbn [append String.length] in *.
    replace (S (String.length r) - S (S (String.length s')))
      with (String.length r - S (String.length s')) by lia.
    now rewrite <- IH.
Qed.

Lemma length_significant (s : string) :
  String.length (significant s) <= String.length s.
Proof.
  rewrite (significant_zeros s) at 2. rewrite length_append. lia.
Qed.

Lemma all_digits_significant (s : string) :
  all_digits s = true -> all_digits (significant s) = true.
Proof.
  intros H. rewrite (significant_zeros s), all_digits_app in H.
  now apply andb_true_iff in H as [H _].
Qed.

Lemma significant_head (c : ascii) (r : string) :
  Ascii.eqb c "0" = false ->
  exists r', significant (String c r) = String c r'.
Proof.
  intros Hc. cbn [significant]. rewrite Hc.
  destruct (significant r); eauto.
Qed.

(** ** The parts of a literal *)

Lemma parse_int_app (ds rest : string) :
  all_digits ds = true -> is_int ds = true -> head_is_digit rest = false ->
  parse_int (ds ++ rest) = Some (ds, rest).
Proof.
  intros Hds Hint Hrest. unfold parse_int.
  now rewrite (read_digits_app _ _ Hds Hrest), Hint.
Qed.

Lemma parse_digits_app (c : ascii) (ds rest : string) :
  all_digits (String c ds) = true -> head_is_digit rest = false ->
  parse_digits (String c ds ++ rest) = Some (String c ds, rest).
Proof.
  intros Hds Hrest. unfold parse_digits.
  now rewrite (read_digits_app _ _ Hds Hrest).
Qed.

Lemma parse_frac_none (rest : string) :
  fraction_follows rest = false -> parse_frac rest = Some ("", rest).
Proof.
  destruct rest as [|c r]; [reflexivity|]. cbn [fraction_follows parse_frac].
  intros H. destruct (Ascii.eqb_spec c ".") as [->|]; [discriminate H|].
  reflexivity.
Qed.

Lemma parse_exp_none (rest : string) :
  fraction_follows rest = false -> parse_exp rest = Some (0%Z, rest).
Proof.
  destruct rest as [|c r]; [reflexivity|]. cbn [fraction_follows parse_exp].
  intros H.
  destruct (Ascii.eqb_spec c "e") as [->|]; [discriminate H|].
  destruct (Ascii.eqb_spec c "E") as [->|]; [discriminate H|].
  reflexivity.
Qed.

Lemma digits_nonempty (m : N) :
  exists c r, digits m = String c r.
Proof.
  unfold digits. destruct (to_uint_shape m) as [Hnil _].
  destruct (N.to_uint m); cbn [string_of_uint]; try congruence; eauto.
Qed.

Lemma parse_digits_digits (m : N) (rest : string) :
  head_is_digit rest = false ->
  parse_digits (digits m ++ rest) = Some (digits m, rest).
Proof.
  intros Hrest. pose proof (all_digits_digits m) as Hd.
  destruct (digits_nonempty m) as (c & r & E). rewrite E in *.
  now apply parse_digits_app.
Qed.

Lemma parse_exp_exponent (n : Z) (rest : string) :
  head_is_digit rest = false ->
  parse_exp (exponent n ++ rest) = Some ((n - 1)%Z, rest).
Proof.
  intros Hrest. unfold exponent. destruct (Z.ltb_spec n 1).
  - cbn [append parse_exp]. change (Ascii.eqb "e" "e") with true.
    change (Ascii.eqb "-" "-") with true. cbv iota. cbn [orb].
    rewrite (parse_digits_digits _ _ Hrest), number_of_digits_digits.
    do 2 f_equal. lia.
  - cbn [append parse_exp]. change (Ascii.eqb "e" "e") with true.
    change (Ascii.eqb "+" "-") with false.
    change (Ascii.eqb "+" "+") with true. cbv iota. cbn [orb].
    rewrite (parse_digits_digits _ _ Hrest), number_of_digits_digits.
    do 2 f_equal. lia.
Qed.

Lemma exponent_head (n : Z) (rest : string) :
  head_is_digit (exponent n ++ rest) = false
  /\ exists r, exponent n ++ rest = String "e" r.
Proof.
  unfold exponent. destruct (n <? 1)%Z; cbn [append]; split; eauto.
Qed.

Lemma make_number_same (a b : string) (e : Z) :
  number_of_digits 0 a = number_of_digits 0 b ->
  make_number a e = make_number b e.
Proof. unfold make_number. now intros ->. Qed.

(** ** Numbers are read back *)

(** What is read back of the way [toString] writes the number of the
    digits [s]. *)
Lemma parse_unsigned_toString (s : string) (n : Z) (rest : string) :
  all_digits s = true ->
  (exists c r, s = String c r /\ Ascii.eqb c "0" = false) ->
  follow_ok rest = true ->
  parse_unsigned (toString s n ++ rest)
  = Some (make_number s (n - Z.of_nat (String.length s)), rest).
Proof.
  intros Hs (c & r & Es & Hc) Hf.
  apply follow_ok_head in Hf as [Hd Hq].
  assert (is_digit c = true /\ all_digits r = true) as [Hcd Hr].
  { rewrite Es in Hs. now apply andb_true_iff in Hs. }
  unfold toString, parse_unsigned. cbv zeta.
  destruct ((Z.of_nat (String.length s) <=? n) && (n <=? 21))%Z eqn:B1.
  { (* the digits, and zeros *)
    apply andb_true_iff in B1 as [B1 _]. apply Z.leb_le in B1.
    rewrite (@parse_int_app (s ++ zeros (Z.to_nat (n - Z.of_nat (String.length s))))
               rest); try assumption.
    - rewrite (parse_frac_none _ Hq), (parse_exp_none _ Hq).
      rewrite append_empty. cbn [String.length]. f_equal. f_equal.
      unfold make_number.
      rewrite number_of_digits_app, number_of_digits_zeros.
      replace (0 <=? 0 - Z.of_nat 0)%Z with true by reflexivity.
      replace (0 <=? n - Z.of_nat (String.length s))%Z with true
        by (symmetry; apply Z.leb_le; lia).
      f_equal. rewrite N2Z.inj_mul, N2Z.inj_pow, nat_N_Z.
      rewrite Z2Nat.id by lia. change (Z.of_N 10) with 10%Z.
      replace (0 - Z.of_nat 0)%Z with 0%Z by reflexivity.
      rewrite Z.pow_0_r. lia.
    - rewrite all_digits_app, Hs. apply all_digits_zeros.
    - rewrite Es. cbn [append is_int]. rewrite Hc.
      now destruct (r ++ zeros _). }
  destruct ((0 <? n) && (n <=? 21))%Z eqn:B2.
  { (* digits, the point, digits *)
    apply andb_true_iff in B2 as [B2 B2']. apply Z.ltb_lt in B2.
    apply Z.leb_le in B2'.
    apply andb_false_iff in B1 as [B1|B1];
      [apply Z.leb_gt in B1 | apply Z.leb_gt in B1; lia].
    assert (exists k, Z.to_nat n = S k) as (k & Ek).
    { exists (Z.to_nat n - 1)%nat. lia. }
    assert (exists x y, drop (Z.to_nat n) s = String x y) as (x & y & Ed).
    { pose proof (length_drop (Z.to_nat n) s) as L.
      destruct (drop (Z.to_nat n) s) as [|x y]; [|eauto].
      cbn [String.length] in L. lia. }
    rewrite append_assoc, parse_int_app.
    - cbn [append parse_frac]. change (Ascii.eqb "." ".") with true.
      cbv iota. rewrite Ed, parse_digits_app; [|now rewrite <- Ed;
        apply all_digits_drop | exact Hd].
      rewrite (parse_exp_none _ Hq). rewrite <- Ed, take_drop.
      f_equal. f_equal. f_equal. rewrite length_drop. lia.
    - now apply all_digits_take.
    - rewrite Ek, Es. cbn [take is_int]. rewrite Hc.
      now destruct (take k r).
    - reflexivity. }
  destruct ((-6 <? n) && (n <=? 0))%Z eqn:B3.
  { (* zero, the point, zeros, the digits *)
    apply andb_true_iff in B3 as [_ B3]. apply Z.leb_le in B3.
    cbn [append]. unfold parse_int. cbn [read_digits].
    change (is_digit "0") with true. cbv iota.
    change (is_digit ".") with false. cbv iota. cbn [is_int].
    cbn [parse_frac]. change (Ascii.eqb "." ".") with true. cbv iota.
    assert (exists x y, zeros (Z.to_nat (- n)) ++ s = String x y)
      as (x & y & Ez).
    { rewrite Es. destruct (zeros (Z.to_nat (- n))); cbn [append]; eauto. }
    rewrite Ez, parse_digits_app;
      [| rewrite <- Ez, all_digits_app, all_digits_zeros; exact Hs
       | exact Hd].
    rewrite (parse_exp_none _ Hq), <- Ez. f_equal. f_equal.
    replace (0 - Z.of_nat (String.length (zeros (Z.to_nat (- n)) ++ s)))%Z
      with (n - Z.of_nat (String.length s))%Z
      by (rewrite length_append, length_zeros; lia).
    apply make_number_same.
    change ("0" ++ zeros (Z.to_nat (- n)) ++ s)
      with (zeros (S (Z.to_nat (- n))) ++ s).
    rewrite number_of_digits_app, number_of_digits_zeros. now f_equal. }
  (* a digit, the point and digits if there are more, the exponent *)
  destruct (exponent_head n rest) as (He & re & Ee).
  rewrite Es. unfold scientific. destruct r as [|x y].
  - cbn [append]. unfold parse_int. cbn [read_digits]. rewrite Hcd.
    rewrite Ee at 1. cbn [read_digits]. change (is_digit "e") with false.
    cbv iota. cbn [is_int]. rewrite <- Ee.
    assert (parse_frac (exponent n ++ rest) = Some ("", exponent n ++ rest))
      as ->.
    { rewrite Ee. reflexivity. }
    rewrite (parse_exp_exponent _ _ Hd). cbn [String.length append].
    f_equal. f_equal. f_equal. lia.
  - cbn [append]. unfold parse_int. cbn [read_digits]. rewrite Hcd.
    change (is_digit ".") with false. cbv iota. cbn [is_int].
    cbn [parse_frac]. change (Ascii.eqb "." ".") with true. cbv iota.
    rewrite append_assoc.
    change (String x (y ++ exponent n ++ rest))
      with (String x y ++ exponent n ++ rest).
    rewrite parse_digits_app; [| exact Hr | exact He].
    rewrite (parse_exp_exponent _ _ Hd). cbn [append String.length].
    f_equal. f_equal. f_equal. lia.
Qed.

Lemma toString_head (s : string) (n : Z) (rest : string) :
  (exists c r, s = String c r /\ is_digit c = true) ->
  exists c r, toString s n ++ rest = String c r /\ is_digit c = true.
Proof.
  intros (c & r & -> & Hc). unfold toString. cbv zeta.
  destruct ((Z.of_nat (String.length (String c r)) <=? n) && (n <=? 21))%Z;
    [cbn [append]; eauto|].
  destruct ((0 <? n) && (n <=? 21))%Z eqn:B2.
  { apply andb_true_iff in B2 as [B2 _]. apply Z.ltb_lt in B2.
    destruct (Z.to_nat n) as [|k] eqn:Ek; [lia|].
    cbn [take append]. eauto. }
  destruct ((-6 <? n) && (n <=? 0))%Z;
    [cbn [append]; eexists _, _; split; reflexivity|].
  unfold scientific. destruct r; cbn [append]; eauto.
Qed.

Lemma make_number_significant (m : N) :
  make_number (significant (digits m))
    (Z.of_nat (String.length (digits m))
     - Z.of_nat (String.length (significant (digits m))))
  = Int (Z.of_N m).
Proof.
  pose proof (length_significant (digits m)) as L.
  unfold make_number.
  replace (0 <=? _)%Z with true by (symmetry; apply Z.leb_le; lia).
  f_equal.
  set (sig := significant (digits m)) in *.
  set (j := String.length (digits m) - String.length sig).
  assert ((number_of_digits 0 sig * 10 ^ N.of_nat j)%N = m) as Hm.
  { rewrite <- number_of_digits_zeros, <- number_of_digits_app.
    subst sig j. rewrite <- significant_zeros.
    apply number_of_digits_digits. }
  apply (f_equal Z.of_N) in Hm.
  rewrite N2Z.inj_mul, N2Z.inj_pow, nat_N_Z in Hm.
  change (Z.of_N 10) with 10%Z in Hm. rewrite <- Hm.
  do 2 f_equal. subst j. lia.
Qed.

Lemma make_number_lowest (m : N) (e : positive) :
  (m mod 10 =? 0)%N = false ->
  make_number (digits m) (- Z.pos e) = Dec (Z.of_N m) e.
Proof.
  intros Hm. unfold make_number. rewrite number_of_digits_digits.
  change (0 <=? - Z.pos e)%Z with false. cbv iota.
  change (- - Z.pos e)%Z with (Z.pos e). rewrite Z2Nat.inj_pos.
  destruct (Pos2Nat.is_succ e) as (k & Ek).
  rewrite Ek. cbn [lowest]. rewrite Hm, <- Ek. now rewrite Pos2Nat.id.
Qed.

Lemma digit_not_minus (c : ascii) :
  is_digit c = true -> Ascii.eqb c "-" = false.
Proof.
  intros H. destruct (Ascii.eqb_spec c "-") as [->|]; [discriminate H|].
  reflexivity.
Qed.

(** What is read back of the way a number without a sign is written. *)
Lemma parse_number_toString (s : string) (n : Z) (rest : string)
      (x : number) :
  all_digits s = true ->
  (exists c r, s = String c r /\ Ascii.eqb c "0" = false) ->
  follow_ok rest = true ->
  make_number s (n - Z.of_nat (String.length s)) = x ->
  parse_number (toString s n ++ rest) = Some (x, rest)
  /\ parse_number (String "-" (toString s n ++ rest))
     = Some (negate x, rest).
Proof.
  intros Hs Hhead Hf Hx.
  pose proof (@parse_unsigned_toString s n rest Hs Hhead Hf) as Hp.
  rewrite Hx in Hp. split.
  - destruct Hhead as (c & r & Es & Hc).
    destruct (@toString_head s n rest) as (c' & r' & E & Hc').
    { exists c, r. split; [exact Es|]. rewrite Es in Hs.
      now apply andb_true_iff in Hs as [Hs _]. }
    rewrite E in *. cbn [parse_number].
    now rewrite (digit_not_minus _ Hc').
  - cbn [parse_number]. change (Ascii.eqb "-" "-") with true. cbv iota.
    now rewrite Hp.
Qed.

(** A number in lowest form is read back from the way it is written. *)
Lemma parse_number_string_of_number (x : number) (rest : string) :
  canonical x = true -> follow_ok rest = true ->
  parse_number (string_of_number x ++ rest) = Some (x, rest).
Proof.
  intros Hx Hf. destruct x as [n|m e].
  - (* an integer *)
    assert (forall p,
               let s := digits (Npos p) in
               all_digits (significant s) = true
               /\ (exists c r, significant s = String c r
                               /\ Ascii.eqb c "0" = false)) as Hshape.
    { intros p s. split; [apply all_digits_significant, all_digits_digits|].
      destruct (@digits_head (Npos p)) as (c & r & E & _ & Hc);
        [discriminate|].
      subst s. rewrite E. destruct (@significant_head c r Hc) as (r' & Er).
      eauto. }
    destruct n as [|p|p]; cbn [string_of_number Z.eqb sign Z.abs_N].
    + pose proof (follow_ok_head _ Hf) as [Hd Hq].
      cbn [append parse_number]. change (Ascii.eqb "0" "-") with false.
      cbv iota. unfold parse_unsigned, parse_int. cbn [read_digits].
      change (is_digit "0") with true. cbv iota.
      change (read_digits rest) with (read_digits ("" ++ rest)).
      rewrite (read_digits_app "" rest eq_refl Hd). cbn [is_int].
      now rewrite (parse_frac_none _ Hq), (parse_exp_none _ Hq).
    + cbv zeta. destruct (Hshape p) as [Hs Hh].
      apply (proj1 (@parse_number_toString _ _ _ _ Hs Hh Hf
                      (make_number_significant (Npos p)))).
    + cbv zeta. destruct (Hshape p) as [Hs Hh]. cbn [append].
      apply (proj2 (@parse_number_toString _ _ _ _ Hs Hh Hf
                      (make_number_significant (Npos p)))).
  - (* a fraction *)
    cbn [canonical] in Hx. apply negb_true_iff in Hx.
    assert (forall p (s := digits (Npos p)),
               (Npos p mod 10 =? 0)%N = false ->
               make_number s
                 (Z.of_nat (String.length s) - Z.pos e
                  - Z.of_nat (String.length s))
               = Dec (Zpos p) e) as Hmake.
    { intros p s Hp.
      replace (Z.of_nat (String.length s) - Z.pos e
               - Z.of_nat (String.length s))%Z with (- Z.pos e)%Z by lia.
      apply (make_number_lowest _ _ Hp). }
    assert (forall p (s := digits (Npos p)),
               all_digits s = true
               /\ (exists c r, s = String c r /\ Ascii.eqb c "0" = false))
      as Hshape.
    { intros p s. split; [apply all_digits_digits|].
      destruct (@digits_head (Npos p)) as (c & r & E & _ & Hc);
        [discriminate|]. eauto. }
    destruct m as [|p|p]; cbn [string_of_number sign Z.abs_N] in *.
    + discriminate Hx.
    + cbv zeta. destruct (Hshape p) as [Hs Hh].
      apply (proj1 (@parse_number_toString _ _ _ _ Hs Hh Hf (Hmake p Hx))).
    + cbv zeta. destruct (Hshape p) as [Hs Hh]. cbn [append].
      apply (proj2 (@parse_number_toString _ _ _ _ Hs Hh Hf (Hmake p Hx))).
Qed.

(** The first character of a printed number sends [parse_value] to
    [parse_number]. *)
Lemma parse_value_number (fuel : nat) (c : ascii) (r : string) :
  (is_digit c || Ascii.eqb c "-") = true ->
  parse_value (S fuel) (String c r) =
  match parse_number (String c r) with
  | Some (n, r') => Some (JNum n, r')
  | None => None
  end.
Proof.
  destruct c as [[] [] [] [] [] [] [] []]; intros H;
    try discriminate H; reflexivity.
Qed.

(** The first character of a printed number is a digit or the sign. *)
Lemma string_of_number_head (x : number) (rest : string) :
  exists c r, string_of_number x ++ rest = String c r
              /\ (is_digit c || Ascii.eqb c "-") = true.
Proof.
  assert (forall m n, exists c r,
             toString (digits m) n ++ rest = String c r
             /\ (is_digit c || Ascii.eqb c "-") = true) as Hdec.
  { intros m n. destruct (@toString_head (digits m) n rest)
      as (c & r & E & Hc).
    - destruct (digits_nonempty m) as (c & r & E).
      exists c, r. split; [exact E|].
      pose proof (all_digits_digits m) as H. rewrite E in H.
      now apply andb_true_iff in H as [H _].
    - exists c, r. now rewrite Hc. }
  assert (forall p n, exists c r,
             toString (significant (digits (Npos p))) n ++ rest = String c r
             /\ (is_digit c || Ascii.eqb c "-") = true) as Hint.
  { intros p n.
    destruct (@digits_head (Npos p)) as (c & r & E & Hd & Hc);
      [discriminate|].
    destruct (@significant_head c r Hc) as (r' & Er).
    destruct (@toString_head (significant (digits (Npos p))) n rest)
      as (c' & r'' & E' & Hc').
    - rewrite E, Er. eauto.
    - exists c', r''. now rewrite Hc'. }
  destruct x as [[|p|p]|[|p|p] e]; cbn [string_of_number Z.eqb sign Z.abs_N];
    cbv zeta; cbn [append]; eauto;
    eexists _, _; split; reflexivity.
Qed.

(** ** What the reader of numbers returns *)

Lemma parse_digits_length (s ds r : string) :
  parse_digits s = Some (ds, r) -> String.length r < String.length s.
Proof.
  unfold parse_digits. destruct (read_digits s) as [ds' r'] eqn:E.
  apply read_digits_split in E. subst s.
  destruct ds'; [discriminate|]. intros [= <- <-].
  rewrite length_append. cbn [String.length]. lia.
Qed.

Lemma parse_int_length (s ds r : string) :
  parse_int s = Some (ds, r) -> String.length r < String.length s.
Proof.
  unfold parse_int. destruct (read_digits s) as [ds' r'] eqn:E.
  apply read_digits_split in E. subst s.
  destruct ds'; [discriminate|]. destruct (is_int _); [|discriminate].
  intros [= <- <-]. rewrite length_append. cbn [String.length]. lia.
Qed.

Lemma parse_frac_length (s ds r : string) :
  parse_frac s = Some (ds, r) -> String.length r <= String.length s.
Proof.
  destruct s as [|c s]; cbn [parse_frac]; [now intros [= <- <-]|].
  destruct (Ascii.eqb c ".").
  - intros H. apply parse_digits_length in H. cbn [String.length]. lia.
  - now intros [= <- <-].
Qed.

Lemma parse_exp_length (s : string) (e : Z) (r : string) :
  parse_exp s = Some (e, r) -> String.length r <= String.length s.
Proof.
  destruct s as [|c s]; cbn [parse_exp]; [now intros [= <- <-]|].
  destruct (Ascii.eqb c "e" || Ascii.eqb c "E"); [|now intros [= <- <-]].
  destruct s as [|sg s]; [discriminate|].
  destruct (Ascii.eqb sg "-").
  - destruct (parse_digits s) as [[ds r']|] eqn:E; [|discriminate].
    intros [= <- <-]. apply parse_digits_length in E.
    cbn [String.length]. lia.
  - destruct (parse_digits _) as [[ds r']|] eqn:E; [|discriminate].
    intros [= <- <-]. apply parse_digits_length in E.
    destruct (Ascii.eqb sg "+"); cbn [String.length] in *; lia.
Qed.

Lemma parse_unsigned_length (s : string) (x : number) (r : string) :
  parse_unsigned s = Some (x, r) -> String.length r < String.length s.
Proof.
  unfold parse_unsigned.
  destruct (parse_int s) as [[int r1]|] eqn:E1; [|discriminate].
  destruct (parse_frac r1) as [[frac r2]|] eqn:E2; [|discriminate].
  destruct (parse_exp r2) as [[e r3]|] eqn:E3; [|discriminate].
  intros [= _ <-]. apply parse_int_length in E1.
  apply parse_frac_length in E2. apply parse_exp_length in E3. lia.
Qed.

Lemma parse_number_length (s : string) (x : number) (r : string) :
  parse_number s = Some (x, r) -> String.length r < String.length s.
Proof.
  destruct s as [|c s]; [discriminate|]. cbn [parse_number].
  destruct (Ascii.eqb c "-").
  - destruct (parse_unsigned s) as [[y r']|] eqn:E; [|discriminate].
    intros [= _ <-]. apply parse_unsigned_length in E.
    cbn [String.length]. lia.
  - apply parse_unsigned_length.
Qed.

Lemma lowest_canonical (e : nat) (m : N) : canonical (lowest e m) = true.
Proof.
  revert m. induction e as [|e IH]; intros m; cbn [lowest]; [reflexivity|].
  destruct (m mod 10 =? 0)%N eqn:E; [apply IH|].
  cbn [canonical]. now rewrite Zabs2N.id, E.
Qed.

Lemma negate_canonical (x : number) :
  canonical (negate x) = canonical x.
Proof.
  destruct x as [n|m e]; cbn [negate canonical]; [reflexivity|].
  now rewrite Zabs2N.inj_opp.
Qed.

(** The reader returns numbers in lowest form. *)
Lemma parse_number_canonical (s : string) (x : number) (r : string) :
  parse_number s = Some (x, r) -> canonical x = true.
Proof.
  assert (forall s x r, parse_unsigned s = Some (x, r) ->
                        canonical x = true) as Hu.
  { clear. intros s x r. unfold parse_unsigned.
    destruct (parse_int s) as [[int r1]|]; [|discriminate].
    destruct (parse_frac r1) as [[frac r2]|]; [|discriminate].
    destruct (parse_exp r2) as [[e r3]|]; [|discriminate].
    intros [= <- _]. unfold make_number.
    destruct (0 <=? _)%Z; [reflexivity | apply lowest_canonical]. }
  destruct s as [|c s]; [discriminate|]. cbn [parse_number].
  destruct (Ascii.eqb c "-"); [|apply Hu].
  destruct (parse_unsigned s) as [[y r']|] eqn:E; [|discriminate].
  intros [= <- _]. rewrite negate_canonical. apply (Hu _ _ _ E).
Qed.

(** ** Objects *)

Lemma mem_app (k : string) (a b : list string) :
  mem k (a ++ b)%list = mem k a || mem k b.
Proof.
  induction a as [|x a IH]; cbn; [reflexivity|].
  now rewrite IH, orb_assoc.
Qed.

Lemma distinct_app_cons (a : list string) (k : string) (b : list string) :
  distinct (a ++ k :: b)%list = true ->
  mem k a = false /\ distinct ((a ++ [k]) ++ b)%list = true.
Proof.
  rewrite <- List.app_assoc. cbn [app]. intros H. split; [|exact H].
  induction a as [|x a IH]; [reflexivity|].
  cbn [app distinct] in H. apply andb_true_iff in H as [Hx Ha].
  cbn [mem]. rewrite (IH Ha), orb_false_r.
  rewrite mem_app in Hx. cbn [mem] in Hx.
  apply negb_true_iff in Hx.
  apply orb_false_iff in Hx as [_ Hx].
  apply orb_false_iff in Hx as [Hx _].
  now rewrite String.eqb_sym.
Qed.

Lemma assign_fresh (k : string) (v : value) (o : object) :
  mem k (map fst o) = false -> assign k v o = (o ++ [(k, v)])%list.
Proof.
  induction o as [|[k' v'] o IH]; cbn; [reflexivity|].
  intros H. apply orb_false_iff in H as [Hk Ho].
  now rewrite Hk, (IH Ho).
Qed.

Lemma fold_assign_distinct (l acc : object) :
  distinct (map fst (acc ++ l)%list) = true ->
  fold_left (fun o kv => assign (fst kv) (snd kv) o) l acc
  = (acc ++ l)%list.
Proof.
  revert acc. induction l as [|[k v] l IH]; intros acc H.
  - now rewrite List.app_nil_r.
  - cbn [fold_left fst snd].
    rewrite map_app in H. cbn [map fst] in H.
    apply distinct_app_cons in H as [Hk Hd].
    rewrite (assign_fresh _ _ _ Hk), IH.
    + now rewrite <- List.app_assoc.
    + now rewrite !map_app.
Qed.

(** Reading the members of an object back builds the same object. *)
Lemma make_object_distinct (o : object) :
  distinct (map fst o) = true -> make_object o = o.
Proof. intros H. apply (fold_assign_distinct o [] H). Qed.

(** ** Values *)

Lemma stringify_arr (l : list value) :
  stringify (JArr l) = "[" ++ print_elements l.
Proof. reflexivity. Qed.

Lemma stringify_obj (o : object) :
  stringify (JObj o) = "{" ++ print_members o.
Proof. reflexivity. Qed.

Lemma stringify_opens (v : value) (rest : string) :
  opens_value (stringify v ++ rest).
Proof.
  unfold opens_value. destruct v as [|[]|n|s|l|o].
  1-3, 5-7: cbn; eexists _, _; split; [reflexivity|]; now repeat split.
  destruct (string_of_number_head n rest) as (c & r & Hs & Hc).
  exists c, r. split; [exact Hs|].
  clear Hs. destruct c as [[] [] [] [] [] [] [] []];
    try discriminate Hc; now repeat split.
Qed.

Lemma skip_ws_opens (s : string) : opens_value s -> skip_ws s = s.
Proof.
  intros (c & r & -> & Hws & _). cbn [skip_ws]. now rewrite Hws.
Qed.

Lemma parse_value_string (fuel : nat) (r : string) :
  parse_value (S fuel) (String dquote r) =
  match parse_string r with
  | Some (x, r') => Some (JStr x, r')
  | None => None
  end.
Proof. reflexivity. Qed.

Lemma parse_value_array (fuel : nat) (r : string) :
  opens_value r ->
  parse_value (S fuel) (String "[" r) =
  match parse_elements fuel r with
  | Some (l, r') => Some (JArr l, r')
  | None => None
  end.
Proof.
  intros Hr. pose proof (skip_ws_opens Hr) as Hskip.
  destruct Hr as (c & r0 & -> & _ & Hc & _).
  change (parse_value (S fuel) (String "[" (String c r0)))
    with (match skip_ws (String c r0) with
          | EmptyString => None
          | String c' r' =>
              if Ascii.eqb c' "]" then Some (JArr [], r')
              else match parse_elements fuel (String c r0) with
                   | Some (l, r'') => Some (JArr l, r'')
                   | None => None
                   end
          end).
  now rewrite Hskip, Hc.
Qed.

Lemma parse_value_object (fuel : nat) (r : string) :
  parse_value (S fuel) (String "{" (String dquote r)) =
  match parse_members fuel (String dquote r) with
  | Some (o, r') => Some (JObj (make_object o), r')
  | None => None
  end.
Proof. reflexivity. Qed.

Lemma parse_elements_step (fuel : nat) (s : string) :
  parse_elements (S fuel) s =
  match parse_value fuel s with
  | None => None
  | Some (x, r) =>
      match skip_ws r with
      | EmptyString => None
      | String c r' =>
          if Ascii.eqb c "," then
            match parse_elements fuel r' with
            | Some (l, r'') => Some (x :: l, r'')
            | None => None
            end
          else if Ascii.eqb c "]" then Some ([x], r')
          else None
      end
  end.
Proof. reflexivity. Qed.

Lemma parse_members_step (fuel : nat) (r : string) :
  parse_members (S fuel) (String dquote r) =
  match parse_string r with
  | None => None
  | Some (k, r1) =>
      match skip_ws r1 with
      | EmptyString => None
      | String c r2 =>
          if Ascii.eqb c ":" then
            match parse_value fuel r2 with
            | None => None
            | Some (x, r3) =>
                match skip_ws r3 with
                | EmptyString => None
                | String c' r4 =>
                    if Ascii.eqb c' "," then
                      match parse_members fuel r4 with
                      | Some (o, r5) => Some ((k, x) :: o, r5)
                      | None => None
                      end
                    else if Ascii.eqb c' "}" then Some ([(k, x)], r4)
                    else None
                end
            end
          else None
      end
  end.
Proof. reflexivity. Qed.

Lemma print_elements_more (x y : value) (r : list value) :
  print_elements (x :: y :: r)
  = stringify x ++ "," ++ print_elements (y :: r).
Proof. reflexivity. Qed.

Lemma print_members_more (k : string) (x : value) (kv : string * value)
      (r : object) :
  print_members ((k, x) :: kv :: r)
  = quote k ++ ":" ++ stringify x ++ "," ++ print_members (kv :: r).
Proof. reflexivity. Qed.

Lemma parse_elements_print (l : list value) :
  l <> [] ->
  Forall reads_back l ->
  forallb wf_value l = true ->
  forall fuel rest,
    (fold_right (fun x n => S (size x + n)) 0 l <= fuel)%nat ->
    parse_elements fuel (print_elements l ++ rest) = Some (l, rest).
Proof.
  intros Hne Hall. induction Hall as [|x l Hx Hall IH]; [congruence|].
  clear Hne. intros Hwf fuel rest Hfuel.
  cbn [forallb] in Hwf. apply andb_true_iff in Hwf as [Hwx Hwl].
  cbn [fold_right] in Hfuel.
  destruct fuel as [|f]; [lia|].
  rewrite parse_elements_step.
  destruct l as [|y r].
  - cbn [print_elements]. rewrite append_assoc.
    rewrite (Hx Hwx f _); [reflexivity | lia | reflexivity].
  - rewrite print_elements_more, !append_assoc.
    rewrite (Hx Hwx f _); [| lia | reflexivity].
    cbn [append skip_ws]. change (is_ws ",") with false. cbv iota.
    change (Ascii.eqb "," ",") with true. cbv iota.
    rewrite IH; [reflexivity | congruence | exact Hwl | lia].
Qed.

Lemma quote_append (k rest : string) :
  quote k ++ rest = String dquote (escape k ++ String dquote rest).
Proof.
  unfold quote. cbn [append]. now rewrite append_assoc.
Qed.

Lemma parse_members_print (o : object) :
  o <> [] ->
  Forall (fun kv => reads_back (snd kv)) o ->
  forallb (fun kv => wf_value (snd kv)) o = true ->
  forall fuel rest,
    (fold_right (fun kv n => S (size (snd kv) + n)) 0 o <= fuel)%nat ->
    parse_members fuel (print_members o ++ rest) = Some (o, rest).
Proof.
  intros Hne Hall. induction Hall as [|[k x] o Hx Hall IH]; [congruence|].
  clear Hne. intros Hwf fuel rest Hfuel.
  cbn [forallb snd] in Hwf. apply andb_true_iff in Hwf as [Hwx Hwo].
  cbn [fold_right snd] in Hfuel. cbn [snd] in Hx.
  destruct fuel as [|f]; [lia|].
  destruct o as [|kv r].
  - cbn [print_members]. rewrite !append_assoc, quote_append.
    rewrite parse_members_step, parse_string_quote.
    cbn [append skip_ws]. change (is_ws ":") with false. cbv iota.
    change (Ascii.eqb ":" ":") with true. cbv iota.
    rewrite (Hx Hwx f _); [reflexivity | lia | reflexivity].
  - rewrite print_members_more, !append_assoc, quote_append.
    rewrite parse_members_step, parse_string_quote.
    cbn [append skip_ws]. change (is_ws ":") with false. cbv iota.
    change (Ascii.eqb ":" ":") with true. cbv iota.
    rewrite (Hx Hwx f _); [| lia | reflexivity].
    cbn [skip_ws]. change (is_ws ",") with false. cbv iota.
    change (Ascii.eqb "," ",") with true. cbv iota.
    rewrite IH; [reflexivity | congruence | exact Hwo | lia].
Qed.

Lemma print_members_opens (o : object) (rest : string) :
  o <> [] ->
  exists r, print_members o ++ rest = String dquote r.
Proof.
  destruct o as [|[k x] [|kv o]]; [congruence| |]; intros _.
  - cbn [print_members]. rewrite quote_append. cbn [append]. eauto.
  - rewrite print_members_more, quote_append. cbn [append]. eauto.
Qed.

Lemma print_elements_opens (l : list value) (rest : string) :
  l <> [] -> opens_value (print_elements l ++ rest).
Proof.
  destruct l as [|x [|y l]]; [congruence| |]; intros _.
  - cbn [print_elements]. rewrite append_assoc. apply stringify_opens.
  - rewrite print_elements_more, append_assoc. apply stringify_opens.
Qed.

Lemma parse_stringify (v : value) : reads_back v.
Proof.
  induction v as [|b|n|s|l IH|o IH] using value_nested_ind;
    intros Hwf fuel rest Hfuel Hrest;
    (destruct fuel as [|f]; [cbn in Hfuel; lia|]).
  - reflexivity.
  - destruct b; reflexivity.
  - destruct (string_of_number_head n rest) as (c & r & Hs & Hc).
    cbn [stringify]. rewrite Hs, (parse_value_number _ _ _ Hc), <- Hs.
    now rewrite (parse_number_string_of_number _ _ Hwf Hrest).
  - cbn [stringify]. rewrite quote_append, parse_value_string.
    now rewrite parse_string_quote.
  - rewrite stringify_arr. cbn [append].
    destruct l as [|x l]; [reflexivity|].
    rewrite parse_value_array
      by (apply print_elements_opens; congruence).
    rewrite parse_elements_print;
      [reflexivity | congruence | exact IH | exact Hwf |].
    cbn [size] in Hfuel. lia.
  - rewrite stringify_obj. cbn [append].
    destruct o as [|kv o]; [reflexivity|].
    cbn [wf_value] in Hwf. apply andb_true_iff in Hwf as [Hd Hwf].
    destruct (@print_members_opens (kv :: o) rest) as [r Hr];
      [congruence|].
    rewrite Hr, parse_value_object, <- Hr.
    rewrite parse_members_print;
      [| congruence | exact IH | exact Hwf |].
    + now rewrite make_object_distinct.
    + cbn [size] in Hfuel. lia.
Qed.

Lemma size_le_length (v : value) :
  (size v <= String.length (stringify v))%nat.
Proof.
  induction v as [|b|n|s|l IH|o IH] using value_nested_ind.
  - cbn. lia.
  - destruct b; cbn; lia.
  - destruct (string_of_number_head n "") as (c & r & Hs & _).
    rewrite append_empty in Hs. cbn [stringify size]. rewrite Hs. cbn. lia.
  - cbn. lia.
  - rewrite stringify_arr. cbn [size append String.length].
    apply le_n_S.
    induction IH as [|x l Hx _ IHl]; [cbn; lia|].
    cbn [fold_right]. destruct l as [|y r].
    + cbn [print_elements fold_right]. rewrite length_append. cbn. lia.
    + rewrite print_elements_more, !length_append.
      cbn [String.length]. lia.
  - rewrite stringify_obj. cbn [size append String.length].
    apply le_n_S.
    induction IH as [|[k x] o Hx _ IHo]; [cbn; lia|].
    cbn [fold_right snd] in *. destruct o as [|kv r].
    + cbn [print_members fold_right]. rewrite !length_append. cbn. lia.
    + rewrite print_members_more, !length_append.
      cbn [String.length]. lia.
Qed.

(** [JSON.parse(JSON.stringify(v))] is [v]. *)
Theorem parse_stringify_id (v : value) :
  wf_value v = true -> parse (stringify v) = Ok v.
Proof.
  intros Hwf. unfold parse.
  pose proof (size_le_length v) as Hsize.
  rewrite <- (append_empty (stringify v)) at 2.
  rewrite (parse_stringify v Hwf); [reflexivity | lia | reflexivity].
Qed.

(** ** The fuel of the reader *)

Lemma skip_ws_length (s : string) :
  String.length (skip_ws s) <= String.length s.
Proof.
  induction s as [|c s IH]; cbn [skip_ws]; [lia|].
  destruct (is_ws c); cbn [String.length]; lia.
Qed.

Lemma skip_ws_cons (s : string) (c : ascii) (r : string) :
  skip_ws s = String c r -> String.length r < String.length s.
Proof.
  intros H. pose proof (skip_ws_length s) as L. rewrite H in L.
  cbn [String.length] in L. lia.
Qed.

Lemma expect_length (lit s r : string) :
  expect lit s = Some r ->
  String.length s = String.length lit + String.length r.
Proof.
  revert s. induction lit as [|c lit IH]; intros s H.
  - now injection H as <-.
  - destruct s as [|d s]; [discriminate|]. cbn [expect] in H.
    destruct (Ascii.eqb c d); [|discriminate].
    cbn [String.length]. now rewrite (IH _ H).
Qed.

Lemma tokens_length (n : nat) :
  forall s ts r,
    String.length s <= n -> tokens s = Some (ts, r) ->
    String.length r < String.length s.
Proof.
  induction n as [|n IH]; intros s ts r Hn H.
  - destruct s; [discriminate | cbn in Hn; lia].
  - destruct s as [|c s]; [discriminate|].
    cbn [String.length] in Hn. cbn [tokens] in H.
    destruct (Ascii.eqb c dquote).
    { injection H as _ <-. cbn. lia. }
    destruct (Ascii.eqb c backslash).
    + destruct s as [|e s]; [discriminate|].
      destruct (Ascii.eqb e "u").
      * destruct s as [|h1 [|h2 [|h3 [|h4 s]]]]; try discriminate.
        destruct (hex_value h1), (hex_value h2), (hex_value h3),
          (hex_value h4); try discriminate.
        destruct (tokens s) as [[ts' r']|] eqn:E; [|discriminate].
        injection H as _ <-.
        assert (String.length r' < String.length s)
          by (apply (IH s ts' r'); [cbn in Hn; lia | exact E]).
        cbn [String.length]. lia.
      * destruct (unescape e); [|discriminate].
        destruct (tokens s) as [[ts' r']|] eqn:E; [|discriminate].
        injection H as _ <-.
        assert (String.length r' < String.length s)
          by (apply (IH s ts' r'); [cbn in Hn; lia | exact E]).
        cbn [String.length]. lia.
    + destruct (N.ltb (N_of_ascii c) 32); [discriminate|].
      destruct (tokens s) as [[ts' r']|] eqn:E; [|discriminate].
      injection H as _ <-.
      assert (String.length r' < String.length s)
        by (apply (IH s ts' r'); [lia | exact E]).
      cbn [String.length]. lia.
Qed.

Lemma parse_string_length (s x r : string) :
  parse_string s = Some (x, r) -> String.length r < String.length s.
Proof.
  unfold parse_string. destruct (tokens s) as [[ts r']|] eqn:E; [|discriminate].
  intros [= _ <-]. exact (@tokens_length _ s ts r' (Nat.le_refl _) E).
Qed.

Lemma parse_value_step (f : nat) (s : string) :
  parse_value (S f) s =
  match skip_ws s with
  | EmptyString => None
  | String c r =>
      if Ascii.eqb c "n" then
        option_map (pair JNull) (expect "ull" r)
      else if Ascii.eqb c "t" then
        option_map (pair (JBool true)) (expect "rue" r)
      else if Ascii.eqb c "f" then
        option_map (pair (JBool false)) (expect "alse" r)
      else if Ascii.eqb c dquote then
        match parse_string r with
        | Some (x, r') => Some (JStr x, r')
        | None => None
        end
      else if Ascii.eqb c "[" then
        match skip_ws r with
        | EmptyString => None
        | String c' r' =>
            if Ascii.eqb c' "]" then Some (JArr [], r')
            else
              match parse_elements f r with
              | Some (l, r'') => Some (JArr l, r'')
              | None => None
              end
        end
      else if Ascii.eqb c "{" then
        match skip_ws r with
        | EmptyString => None
        | String c' r' =>
            if Ascii.eqb c' "}" then Some (JObj [], r')
            else
              match parse_members f r with
              | Some (o, r'') => Some (JObj (make_object o), r'')
              | None => None
              end
        end
      else
        match parse_number (String c r) with
        | Some (n, r') => Some (JNum n, r')
        | None => None
        end
  end.
Proof. reflexivity. Qed.

Lemma parse_members_unfold (f : nat) (s : string) :
  parse_members (S f) s =
  match skip_ws s with
  | EmptyString => None
  | String q r =>
      if Ascii.eqb q dquote then
        match parse_string r with
        | None => None
        | Some (k, r1) =>
            match skip_ws r1 with
            | EmptyString => None
            | String c r2 =>
                if Ascii.eqb c ":" then
                  match parse_value f r2 with
                  | None => None
                  | Some (x, r3) =>
                      match skip_ws r3 with
                      | EmptyString => None
                      | String c' r4 =>
                          if Ascii.eqb c' "," then
                            match parse_members f r4 with
                            | Some (o, r5) => Some ((k, x) :: o, r5)
                            | None => None
                            end
                          else if Ascii.eqb c' "}" then Some ([(k, x)], r4)
                          else None
                      end
                  end
                else None
            end
        end
      else None
  end.
Proof. reflexivity. Qed.

Ltac use_equations :=
  repeat match goal with
         | E : ?x = _ |- context [?x] => rewrite E
         end.

Lemma steady_value_step (f : nat) :
  steady_elements f -> steady_members f -> steady_value (S f).
Proof.
  intros IHe IHm s v r H. rewrite parse_value_step in H.
  destruct (skip_ws s) as [|c r0] eqn:Hs; [discriminate|].
  pose proof (skip_ws_cons _ Hs) as L0.
  destruct (Ascii.eqb c "n") eqn:En.
  { destruct (expect "ull" r0) as [r1|] eqn:E; [|discriminate].
    injection H as <- <-. pose proof (expect_length _ _ E) as L.
    cbn [String.length] in L. split; [lia|].
    intros [|F] HF; [lia|]. rewrite parse_value_step. now use_equations. }
  destruct (Ascii.eqb c "t") eqn:Et.
  { destruct (expect "rue" r0) as [r1|] eqn:E; [|discriminate].
    injection H as <- <-. pose proof (expect_length _ _ E) as L.
    cbn [String.length] in L. split; [lia|].
    intros [|F] HF; [lia|]. rewrite parse_value_step. now use_equations. }
  destruct (Ascii.eqb c "f") eqn:Ef.
  { destruct (expect "alse" r0) as [r1|] eqn:E; [|discriminate].
    injection H as <- <-. pose proof (expect_length _ _ E) as L.
    cbn [String.length] in L. split; [lia|].
    intros [|F] HF; [lia|]. rewrite parse_value_step. now use_equations. }
  destruct (Ascii.eqb c dquote) eqn:Eq.
  { destruct (parse_string r0) as [[x r1]|] eqn:E; [|discriminate].
    injection H as <- <-. pose proof (parse_string_length _ E) as L.
    split; [lia|].
    intros [|F] HF; [lia|]. rewrite parse_value_step. now use_equations. }
  destruct (Ascii.eqb c "[") eqn:Ea.
  { destruct (skip_ws r0) as [|c' r'] eqn:Hs'; [discriminate|].
    pose proof (skip_ws_cons _ Hs') as L1.
    destruct (Ascii.eqb c' "]") eqn:Ec.
    - injection H as <- <-. split; [lia|].
      intros [|F] HF; [lia|]. rewrite parse_value_step. now use_equations.
    - destruct (parse_elements f r0) as [[l r1]|] eqn:E; [|discriminate].
      injection H as <- <-. destruct (IHe _ _ _ E) as [L HF0].
      split; [lia|].
      intros [|F] HF; [lia|]. rewrite parse_value_step, Hs.
      rewrite (HF0 F) by lia. now use_equations. }
  destruct (Ascii.eqb c "{") eqn:Eo.
  { destruct (skip_ws r0) as [|c' r'] eqn:Hs'; [discriminate|].
    pose proof (skip_ws_cons _ Hs') as L1.
    destruct (Ascii.eqb c' "}") eqn:Ec.
    - injection H as <- <-. split; [lia|].
      intros [|F] HF; [lia|]. rewrite parse_value_step. now use_equations.
    - destruct (parse_members f r0) as [[o r1]|] eqn:E; [|discriminate].
      injection H as <- <-. destruct (IHm _ _ _ E) as [L HF0].
      split; [lia|].
      intros [|F] HF; [lia|]. rewrite parse_value_step, Hs.
      rewrite (HF0 F) by lia. now use_equations. }
  destruct (parse_number (String c r0)) as [[n r1]|] eqn:E; [|discriminate].
  injection H as <- <-. pose proof (parse_number_length _ E) as L.
  cbn [String.length] in L. split; [lia|].
  intros [|F] HF; [lia|]. rewrite parse_value_step. now use_equations.
Qed.

Lemma steady_elements_step (f : nat) :
  steady_value f -> steady_elements f -> steady_elements (S f).
Proof.
  intros IHv IHe s l r H. rewrite parse_elements_step in H.
  destruct (parse_value f s) as [[x r1]|] eqn:E; [|discriminate].
  destruct (IHv _ _ _ E) as [L1 HF1].
  destruct (skip_ws r1) as [|c r2] eqn:Hs; [discriminate|].
  pose proof (skip_ws_cons _ Hs) as L2.
  destruct (Ascii.eqb c ",") eqn:Ec.
  - destruct (parse_elements f r2) as [[l' r3]|] eqn:E'; [|discriminate].
    injection H as <- <-. destruct (IHe _ _ _ E') as [L3 HF3].
    split; [lia|].
    intros [|F] HF; [lia|]. rewrite parse_elements_step.
    rewrite (HF1 F) by lia. rewrite Hs, Ec. now rewrite (HF3 F) by lia.
  - destruct (Ascii.eqb c "]") eqn:Ec'; [|discriminate].
    injection H as <- <-. split; [lia|].
    intros [|F] HF; [lia|]. rewrite parse_elements_step.
    rewrite (HF1 F) by lia. now rewrite Hs, Ec, Ec'.
Qed.

Lemma steady_members_step (f : nat) :
  steady_value f -> steady_members f -> steady_members (S f).
Proof.
  intros IHv IHm s o r H. rewrite parse_members_unfold in H.
  destruct (skip_ws s) as [|q r0] eqn:Hs0; [discriminate|].
  pose proof (skip_ws_cons _ Hs0) as L0.
  destruct (Ascii.eqb q dquote) eqn:Eq; [|discriminate].
  destruct (parse_string r0) as [[k r1]|] eqn:Ek; [|discriminate].
  pose proof (parse_string_length _ Ek) as Lk.
  destruct (skip_ws r1) as [|c r2] eqn:Hs1; [discriminate|].
  pose proof (skip_ws_cons _ Hs1) as L1.
  destruct (Ascii.eqb c ":") eqn:Ec; [|discriminate].
  destruct (parse_value f r2) as [[x r3]|] eqn:E; [|discriminate].
  destruct (IHv _ _ _ E) as [L3 HF3].
  destruct (skip_ws r3) as [|c' r4] eqn:Hs3; [discriminate|].
  pose proof (skip_ws_cons _ Hs3) as L4.
  destruct (Ascii.eqb c' ",") eqn:Ec'.
  - destruct (parse_members f r4) as [[o' r5]|] eqn:E'; [|discriminate].
    injection H as <- <-. destruct (IHm _ _ _ E') as [L5 HF5].
    split; [lia|].
    intros [|F] HF; [lia|]. rewrite parse_members_unfold.
    rewrite Hs0, Eq, Ek, Hs1, Ec. rewrite (HF3 F) by lia.
    rewrite Hs3, Ec'. now rewrite (HF5 F) by lia.
  - destruct (Ascii.eqb c' "}") eqn:Ec''; [|discriminate].
    injection H as <- <-. split; [lia|].
    intros [|F] HF; [lia|]. rewrite parse_members_unfold.
    rewrite Hs0, Eq, Ek, Hs1, Ec. rewrite (HF3 F) by lia.
    now rewrite Hs3, Ec', Ec''.
Qed.

Lemma steady (f : nat) :
  steady_value f /\ steady_elements f /\ steady_members f.
Proof.
  induction f as [|f (IHv & IHe & IHm)].
  - split; [|split]; intros s x r Hp; discriminate Hp.
  - split; [|split].
    + now apply steady_value_step.
    + now apply steady_elements_step.
    + now apply steady_members_step.
Qed.

(** The fuel [parse] gives is enough: a text that reads as a value with
    some fuel is parsed to that value. *)
Theorem parse_fuel_enough (f : nat) (text : string) (v : value)
        (r : string) :
  parse_value f text = Some (v, r) ->
  skip_ws r = "" ->
  parse text = Ok v.
Proof.
  intros H Hr. destruct (proj1 (steady f) _ _ _ H) as [L HF].
  unfold parse. rewrite (HF (2 * String.length text + 2)) by lia.
  now rewrite Hr.
Qed.

End JSONFacts.

(* ================================================================== *)
(** * Facts about UTF-8 *)

Module UTF8Facts.
Import UTF8.
Local Open Scope N_scope.

Ltac divmod := zify; Z.to_euclidean_division_equations; lia.

Lemma within_bounds (lo hi : N) (b : byte) :
  within lo hi b = true -> lo <= Byte.to_N b <= hi.
Proof.
  unfold within. intros H. apply andb_true_iff in H as [H1 H2].
  apply N.leb_le in H1, H2. lia.
Qed.

Lemma ascii_of (b : byte) (n : N) :
  n = Byte.to_N b -> ascii_of_N n = ascii_of_byte b.
Proof. intros ->. symmetry. apply ascii_of_byte_via_N. Qed.

Lemma utf8_1 (x : byte) :
  Byte.to_N x < 128 ->
  JSON.utf8 (Byte.to_N x) = String (ascii_of_byte x) "".
Proof.
  intros H. unfold JSON.utf8. apply N.ltb_lt in H. rewrite H.
  now rewrite ascii_of_byte_via_N.
Qed.

Lemma utf8_2 (x y : byte) :
  194 <= Byte.to_N x <= 223 -> 128 <= Byte.to_N y <= 191 ->
  JSON.utf8 ((Byte.to_N x - 192) * 64 + bits y)
  = String (ascii_of_byte x) (String (ascii_of_byte y) "").
Proof.
  intros Hx Hy. unfold JSON.utf8, bits.
  set (cp := (Byte.to_N x - 192) * 64 + (Byte.to_N y - 128)).
  assert (128 <= cp < 2048) as Hcp by (subst cp; lia).
  replace (cp <? 128) with false by (symmetry; apply N.ltb_ge; lia).
  replace (cp <? 2048) with true by (symmetry; apply N.ltb_lt; lia).
  f_equal; [|f_equal]; apply ascii_of; subst cp; divmod.
Qed.

Lemma utf8_3 (x y z : byte) :
  224 <= Byte.to_N x <= 239 ->
  (if Byte.to_N x =? 224 then 160 else 128) <= Byte.to_N y
  <= (if Byte.to_N x =? 237 then 159 else 191) ->
  128 <= Byte.to_N z <= 191 ->
  JSON.utf8 ((Byte.to_N x - 224) * 4096 + bits y * 64 + bits z)
  = String (ascii_of_byte x)
      (String (ascii_of_byte y) (String (ascii_of_byte z) "")).
Proof.
  intros Hx Hy Hz. unfold JSON.utf8, bits.
  set (cp := (Byte.to_N x - 224) * 4096 + (Byte.to_N y - 128) * 64
             + (Byte.to_N z - 128)).
  assert (128 <= Byte.to_N y <= 191) as Hy'.
  { destruct (Byte.to_N x =? 224), (Byte.to_N x =? 237); lia. }
  assert (2048 <= cp < 65536) as Hcp.
  { subst cp. destruct (N.eqb_spec (Byte.to_N x) 224); lia. }
  replace (cp <? 128) with false by (symmetry; apply N.ltb_ge; lia).
  replace (cp <? 2048) with false by (symmetry; apply N.ltb_ge; lia).
  replace (cp <? 65536) with true by (symmetry; apply N.ltb_lt; lia).
  clear Hy Hcp.
  f_equal; [|f_equal; [|f_equal]]; apply ascii_of; subst cp; divmod.
Qed.

Lemma utf8_4 (x y z w : byte) :
  240 <= Byte.to_N x <= 244 ->
  (if Byte.to_N x =? 240 then 144 else 128) <= Byte.to_N y
  <= (if Byte.to_N x =? 244 then 143 else 191) ->
  128 <= Byte.to_N z <= 191 ->
  128 <= Byte.to_N w <= 191 ->
  JSON.utf8 ((Byte.to_N x - 240) * 262144 + bits y * 4096
             + bits z * 64 + bits w)
  = String (ascii_of_byte x)
      (String (ascii_of_byte y)
         (String (ascii_of_byte z) (String (ascii_of_byte w) ""))).
Proof.
  intros Hx Hy Hz Hw. unfold JSON.utf8, bits.
  set (cp := (Byte.to_N x - 240) * 262144 + (Byte.to_N y - 128) * 4096
             + (Byte.to_N z - 128) * 64 + (Byte.to_N w - 128)).
  assert (128 <= Byte.to_N y <= 191) as Hy'.
  { destruct (Byte.to_N x =? 240), (Byte.to_N x =? 244); lia. }
  assert (65536 <= cp) as Hcp.
  { subst cp. destruct (N.eqb_spec (Byte.to_N x) 240); lia. }
  replace (cp <? 128) with false by (symmetry; apply N.ltb_ge; lia).
  replace (cp <? 2048) with false by (symmetry; apply N.ltb_ge; lia).
  replace (cp <? 65536) with false by (symmetry; apply N.ltb_ge; lia).
  clear Hy Hcp.
  f_equal; [|f_equal; [|f_equal; [|f_equal]]]; apply ascii_of; subst cp;
    divmod.
Qed.

Lemma string_of_list_byte_cons (x : byte) (r : Buffer) :
  string_of_list_byte (x :: r)
  = String (ascii_of_byte x) (string_of_list_byte r).
Proof. reflexivity. Qed.

(** The bytes of a well-formed sequence are the UTF-8 form of its code
    points: the text of the buffer is the text of these code points. *)
Lemma decode_text (bs : Buffer) :
  forall code_points,
    decode bs = Some code_points ->
    string_of_list_byte bs = text code_points.
Proof.
  assert (forall n (bs : Buffer), (List.length bs <= n)%nat ->
            forall cps, decode bs = Some cps ->
                        string_of_list_byte bs = text cps) as H.
  { clear bs. induction n as [|n IH]; intros bs Hlen cps.
    { destruct bs; [|cbn in Hlen; lia]. now intros [= <-]. }
    destruct bs as [|x r]; [now intros [= <-]|].
    cbn [List.length] in Hlen. cbn [decode]. cbv zeta.
    destruct (N.ltb_spec (Byte.to_N x) 128) as [H1|H1].
    { destruct (decode r) as [cps'|] eqn:E; [|discriminate].
      intros [= <-]. cbn [text]. rewrite !string_of_list_byte_cons.
      rewrite (utf8_1 _ H1). cbn [append]. f_equal.
      apply IH; [lia | exact E]. }
    destruct ((194 <=? Byte.to_N x) && (Byte.to_N x <=? 223)) eqn:H2.
    { apply andb_true_iff in H2 as [H2 H2']. apply N.leb_le in H2, H2'.
      destruct r as [|y r]; [discriminate|].
      destruct (within 128 191 y) eqn:Hy; [|discriminate].
      apply within_bounds in Hy.
      destruct (decode r) as [cps'|] eqn:E; [|discriminate].
      intros [= <-]. cbn [text]. rewrite !string_of_list_byte_cons.
      rewrite utf8_2 by lia. cbn [append]. do 2 f_equal.
      apply IH; [cbn [List.length] in Hlen; lia | exact E]. }
    destruct ((224 <=? Byte.to_N x) && (Byte.to_N x <=? 239)) eqn:H3.
    { apply andb_true_iff in H3 as [H3 H3']. apply N.leb_le in H3, H3'.
      destruct r as [|y [|z r]]; try discriminate.
      destruct (within _ _ y && within 128 191 z) eqn:Hyz; [|discriminate].
      apply andb_true_iff in Hyz as [Hy Hz].
      apply within_bounds in Hy, Hz.
      destruct (decode r) as [cps'|] eqn:E; [|discriminate].
      intros [= <-]. cbn [text]. rewrite !string_of_list_byte_cons.
      rewrite (utf8_3 x y z) by (assumption || lia). cbn [append]. do 3 f_equal.
      apply IH; [cbn [List.length] in Hlen; lia | exact E]. }
    destruct ((240 <=? Byte.to_N x) && (Byte.to_N x <=? 244)) eqn:H4;
      [|discriminate].
    apply andb_true_iff in H4 as [H4 H4']. apply N.leb_le in H4, H4'.
    destruct r as [|y [|z [|w r]]]; try discriminate.
    destruct (within _ _ y && within 128 191 z && within 128 191 w)
      eqn:Hyzw; [|discriminate].
    apply andb_true_iff in Hyzw as [Hyz Hw].
    apply andb_true_iff in Hyz as [Hy Hz].
    apply within_bounds in Hy, Hz, Hw.
    destruct (decode r) as [cps'|] eqn:E; [|discriminate].
    intros [= <-]. cbn [text]. rewrite !string_of_list_byte_cons.
    rewrite (utf8_4 x y z w) by (assumption || lia). cbn [append]. do 4 f_equal.
    apply IH; [cbn [List.length] in Hlen; lia | exact E]. }
  intros cps. apply (H (List.length bs) bs (le_n _)).
Qed.

End UTF8Facts.

(* ================================================================== *)
(** * Facts about paths *)

Module lodashFacts.
Import lodash.

Lemma lookup_assign_same (k : string) (v : value) (o : object) :
  lookup k (assign k v o) = Some v.
Proof.
  induction o as [|[k' v'] o IH]; cbn.
  - now rewrite String.eqb_refl.
  - destruct (String.eqb k k') eqn:E; cbn; rewrite E; [reflexivity|exact IH].
Qed.

Lemma lookup_assign_other (k k' : string) (v : value) (o : object) :
  String.eqb k' k = false -> lookup k' (assign k v o) = lookup k' o.
Proof.
  intros Hk. induction o as [|[k0 v0] o IH]; cbn.
  - now rewrite Hk.
  - destruct (String.eqb k k0) eqn:E; cbn.
    + apply String.eqb_eq in E. subst k0. now rewrite Hk.
    + now rewrite IH.
Qed.

Lemma lookup_delete_same (k : string) (o : object) :
  lookup k (delete k o) = None.
Proof.
  induction o as [|[k' v'] o IH]; cbn; [reflexivity|].
  destruct (String.eqb k k') eqn:E; cbn; [exact IH|now rewrite E].
Qed.

Lemma lookup_delete_other (k k' : string) (o : object) :
  String.eqb k' k = false -> lookup k' (delete k o) = lookup k' o.
Proof.
  intros Hk. induction o as [|[k0 v0] o IH]; cbn; [reflexivity|].
  destruct (String.eqb k k0) eqn:E; cbn.
  - apply String.eqb_eq in E. subst k0. now rewrite Hk.
  - now rewrite IH.
Qed.

Lemma castPath_nonempty (path : string) : castPath path <> [].
Proof.
  destruct path as [|c r]; cbn; [discriminate|].
  destruct (Ascii.eqb c "."); [discriminate|].
  destruct (castPath r); discriminate.
Qed.

Lemma baseGet_off_object (t : value) (q : list string) :
  (forall o, t <> JObj o) -> q <> [] -> baseGet t q = None.
Proof.
  intros Ht Hq. destruct q as [|k q]; [congruence|].
  destruct t; try reflexivity. now elim (Ht properties).
Qed.

Lemma baseGet_empty_object (q : list string) :
  q <> [] -> baseGet (JObj []) q = None.
Proof. destruct q; [congruence | reflexivity]. Qed.

Lemma apart_nonempty_r (p q : list string) : apart p q = true -> q <> [].
Proof. destruct p, q; cbn; congruence. Qed.

Lemma baseSet_cons (k k2 : string) (more : list string) (o : object)
      (v : value) :
  baseSet o (k :: k2 :: more) v =
  assign k (JObj (baseSet match lookup k o with
                          | Some (JObj c) => c
                          | _ => []
                          end (k2 :: more) v)) o.
Proof. reflexivity. Qed.

Lemma baseUnset_cons (k k2 : string) (more : list string) (o : object) :
  baseUnset o (k :: k2 :: more) =
  match lookup k o with
  | Some (JObj c) => assign k (JObj (baseUnset c (k2 :: more))) o
  | _ => o
  end.
Proof. reflexivity. Qed.

(** What [set] wrote is what [get] reads at the same path. *)
Lemma baseGet_baseSet_same (p : list string) (o : object) (v : value) :
  p <> [] -> baseGet (JObj (baseSet o p v)) p = Some v.
Proof.
  revert o. induction p as [|k p IH]; intros o Hp; [congruence|].
  destruct p as [|k2 p].
  - cbn. now rewrite lookup_assign_same.
  - rewrite baseSet_cons. cbn [baseGet].
    rewrite lookup_assign_same. apply IH. discriminate.
Qed.

(** [set] leaves every path that is apart from its own as it was. *)
Lemma baseGet_baseSet_apart (p q : list string) (o : object) (v : value) :
  apart p q = true ->
  baseGet (JObj (baseSet o p v)) q = baseGet (JObj o) q.
Proof.
  revert o q. induction p as [|k p IH]; intros o q Hpq; [discriminate|].
  destruct q as [|k' q]; [discriminate|].
  cbn [apart] in Hpq. destruct (String.eqb k' k) eqn:E.
  - apply String.eqb_eq in E. subst k'.
    destruct p as [|k2 p]; [discriminate|].
    rewrite baseSet_cons. cbn [baseGet]. rewrite lookup_assign_same.
    rewrite (IH _ _ Hpq).
    pose proof (apart_nonempty_r _ Hpq) as Hq.
    destruct (lookup k o) as [[| | | | |c]|];
      try reflexivity;
      try (rewrite baseGet_empty_object by exact Hq;
           symmetry; apply baseGet_off_object;
           [discriminate | exact Hq]).
    now apply baseGet_empty_object.
  - destruct p as [|k2 p].
    + cbn. now rewrite lookup_assign_other.
    + rewrite baseSet_cons. cbn [baseGet].
      now rewrite lookup_assign_other.
Qed.

(** After [unset] nothing is left at the path. *)
Lemma baseGet_baseUnset_same (p : list string) (o : object) :
  p <> [] -> baseGet (JObj (baseUnset o p)) p = None.
Proof.
  revert o. induction p as [|k p IH]; intros o Hp; [congruence|].
  destruct p as [|k2 p].
  - cbn. now rewrite lookup_delete_same.
  - rewrite baseUnset_cons.
    destruct (lookup k o) as [[| | | | |c]|] eqn:E;
      try (cbn [baseGet]; rewrite E; reflexivity).
    cbn [baseGet]. rewrite lookup_assign_same. apply IH. discriminate.
Qed.

(** [unset] leaves every path that is apart from its own as it was. *)
Lemma baseGet_baseUnset_apart (p q : list string) (o : object) :
  apart p q = true ->
  baseGet (JObj (baseUnset o p)) q = baseGet (JObj o) q.
Proof.
  revert o q. induction p as [|k p IH]; intros o q Hpq; [discriminate|].
  destruct q as [|k' q]; [discriminate|].
  cbn [apart] in Hpq. destruct (String.eqb k' k) eqn:E.
  - apply String.eqb_eq in E. subst k'.
    destruct p as [|k2 p]; [discriminate|].
    rewrite baseUnset_cons.
    destruct (lookup k o) as [[| | | | |c]|] eqn:El; try reflexivity.
    cbn [baseGet]. rewrite lookup_assign_same, El. now apply IH.
  - destruct p as [|k2 p].
    + cbn. now rewrite lookup_delete_other.
    + rewrite baseUnset_cons.
      destruct (lookup k o) as [[| | | | |c]|] eqn:El; try reflexivity.
      cbn [baseGet]. now rewrite lookup_assign_other.
Qed.

End lodashFacts.

(* ================================================================== *)
(** * Properties of the node *)

Lemma bind_Ok_inv (A B : Type) (m : result A) (k : A -> result B) (b : B) :
  bind m k = Ok b -> exists a, m = Ok a /\ k a = Ok b.
Proof. destruct m as [a|e]; cbn; [eauto | discriminate]. Qed.

Lemma bind_Throw_inv (A B : Type) (m : result A) (k : A -> result B)
      (e : exn) :
  bind m k = Throw e -> m = Throw e \/ exists a, m = Ok a /\ k a = Throw e.
Proof. destruct m as [a|e']; cbn; [eauto | intros [= ->]; auto]. Qed.

(** [JSON.parse] throws nothing but a [SyntaxError]. *)
Lemma parse_throws (text : string) (e : exn) :
  JSON.parse text = Throw e -> e = SyntaxError.
Proof.
  unfold JSON.parse.
  destruct (JSON.parse_value _ _) as [[v r]|]; [|now intros [= <-]].
  destruct (JSON.skip_ws r); [discriminate | now intros [= <-]].
Qed.

(** The copy of a well-formed value is the value. *)
Lemma copy_wf (v : value) : wf_value v = true -> copy (Some v) = Ok v.
Proof. apply JSONFacts.parse_stringify_id. Qed.

Section NodeFacts.

Variable toStringOther : string -> Buffer -> result string.
Variable bufferFromOther : value -> result Buffer.

#[local] Abbreviation convert :=
  (MoveBinaryData.convert toStringOther bufferFromOther).
#[local] Abbreviation loop :=
  (MoveBinaryData.loop toStringOther bufferFromOther).
#[local] Abbreviation execute :=
  (MoveBinaryData.execute toStringOther bufferFromOther).
#[local] Abbreviation binaryToJson :=
  (MoveBinaryData.binaryToJson toStringOther bufferFromOther).
#[local] Abbreviation jsonToBinary :=
  (MoveBinaryData.jsonToBinary bufferFromOther).

Lemma loop_push (this : NodeParameters) (items : list INodeExecutionData)
      (i : nat) (acc more : list INodeExecutionData) :
  loop this items i (acc ++ more) =
  bind (loop this items i more) (fun out => Ok (acc ++ out)).
Proof.
  revert i more. induction items as [|item rest IH]; intros i more.
  - reflexivity.
  - cbn [MoveBinaryData.loop].
    destruct (convert this i item) as [[n|]|e]; cbn [bind].
    + now rewrite <- IH, app_assoc.
    + apply IH.
    + reflexivity.
Qed.

(** One step of the loop, from an empty [returnData]. *)
Lemma loop_cons (this : NodeParameters) (item : INodeExecutionData)
      (rest : list INodeExecutionData) (i : nat) :
  loop this (item :: rest) i [] =
  bind (convert this i item) (fun o =>
    bind (loop this rest (S i) []) (fun out => Ok (pushed o ++ out))).
Proof.
  cbn [MoveBinaryData.loop].
  destruct (convert this i item) as [[n|]|e]; cbn [bind pushed].
  - change ([] ++ [n]) with ([n] ++ []). apply loop_push.
  - cbn [app]. now destruct (loop this rest (S i) []).
  - reflexivity.
Qed.

(** When the loop ends, every item was converted, and the output is
    what the items pushed, in their order. *)
Lemma loop_Ok (this : NodeParameters) (items : list INodeExecutionData) :
  forall i out,
    loop this items i [] = Ok out ->
    exists results,
      List.length results = List.length items
      /\ (forall j item, nth_error items j = Some item ->
            exists o, nth_error results j = Some o
                      /\ convert this (i + j) item = Ok o)
      /\ out = flat_map pushed results.
Proof.
  induction items as [|item rest IH]; intros i out H.
  - injection H as <-. exists []. repeat split.
    intros [|j] item; discriminate.
  - rewrite loop_cons in H.
    apply bind_Ok_inv in H as (o & Ho & H).
    apply bind_Ok_inv in H as (out' & Hrest & H). injection H as <-.
    destruct (IH _ _ Hrest) as (results & Hlen & Hall & ->).
    exists (o :: results). repeat split.
    + cbn. now rewrite Hlen.
    + intros [|j] item' Hj.
      * injection Hj as <-. exists o. now rewrite Nat.add_0_r.
      * destruct (Hall j item' Hj) as (o' & Ho' & Hc).
        exists o'. split; [exact Ho'|]. now rewrite Nat.add_succ_r.
Qed.

(** The loop ends when every item is converted. *)
Lemma loop_total (this : NodeParameters)
      (items : list INodeExecutionData) :
  forall i,
    (forall j item, nth_error items j = Some item ->
       exists o, convert this (i + j) item = Ok o) ->
    exists out, loop this items i [] = Ok out.
Proof.
  induction items as [|item rest IH]; intros i H.
  - now exists [].
  - rewrite loop_cons.
    destruct (H 0 item eq_refl) as (o & Ho).
    rewrite Nat.add_0_r in Ho. rewrite Ho. cbn [bind].
    destruct (IH (S i)) as (out & Hout).
    + intros j item' Hj. destruct (H (S j) item' Hj) as (o' & Ho').
      exists o'. now rewrite Nat.add_succ_r in Ho'.
    + rewrite Hout. cbn. eauto.
Qed.

(** The first exception leaves the loop. *)
Lemma loop_Throw (this : NodeParameters)
      (items : list INodeExecutionData) :
  forall i j item e,
    nth_error items j = Some item ->
    convert this (i + j) item = Throw e ->
    (forall j' item', j' < j -> nth_error items j' = Some item' ->
       exists o, convert this (i + j') item' = Ok o) ->
    loop this items i [] = Throw e.
Proof.
  induction items as [|item0 rest IH]; intros i j item e Hj He Hbefore.
  - destruct j; discriminate.
  - rewrite loop_cons. destruct j as [|j].
    + injection Hj as ->. rewrite Nat.add_0_r in He. now rewrite He.
    + destruct (Hbefore 0 item0 (Nat.lt_0_succ j) eq_refl) as (o & Ho).
      rewrite Nat.add_0_r in Ho. rewrite Ho. cbn [bind].
      rewrite (IH (S i) j item e Hj).
      * reflexivity.
      * now rewrite Nat.add_succ_r in He.
      * intros j' item' Hlt Hj'.
        destruct (Hbefore (S j') item' (proj1 (Nat.succ_lt_mono _ _) Hlt) Hj')
          as (o' & Ho').
        exists o'. now rewrite Nat.add_succ_r in Ho'.
Qed.

(** An exception anywhere in the batch leaves the loop with an
    exception. *)
Lemma loop_Throw_some (this : NodeParameters)
      (items : list INodeExecutionData) :
  forall i j item e,
    nth_error items j = Some item ->
    convert this (i + j) item = Throw e ->
    exists e', loop this items i [] = Throw e'.
Proof.
  induction items as [|item0 rest IH]; intros i j item e Hj He.
  - destruct j; discriminate.
  - rewrite loop_cons. destruct j as [|j].
    + injection Hj as ->. rewrite Nat.add_0_r in He. rewrite He.
    cbn [bind]. eauto.
    + destruct (convert this i item0) as [o|e0]; [|cbn; eauto].
      cbn [bind]. rewrite Nat.add_succ_r in He.
      destruct (IH (S i) j item e Hj He) as (e' & ->). cbn. eauto.
Qed.

Lemma execute_loop (this : NodeParameters)
      (items : list INodeExecutionData) :
  execute this items =
  bind (loop this items 0 []) (fun returnData => Ok [returnData]).
Proof. reflexivity. Qed.

(** A conversion that ends says whether the source was there: it is
    [continue] exactly when the source is absent. *)
Lemma convert_Ok_absent (this : NodeParameters) (i : nat)
      (item : INodeExecutionData) (o : option INodeExecutionData) :
  convert this i item = Ok o ->
  source_absent this i item = is_none o.
Proof.
  unfold MoveBinaryData.convert, source_absent.
  destruct (String.eqb (mode this) "binaryToJson").
  - unfold MoveBinaryData.binaryToJson.
    destruct (lodash.get (binary item) (sourceKey this i)) as [value|].
    + intros H.
      repeat (apply bind_Ok_inv in H as (? & _ & H)).
      now injection H as <-.
    + now intros [= <-].
  - destruct (String.eqb (mode this) "jsonToBinary"); [|discriminate].
    unfold MoveBinaryData.jsonToBinary.
    destruct (convertAllData this i); cbn [negb andb].
    + intros H.
      repeat (apply bind_Ok_inv in H as (? & _ & H)).
      now injection H as <-.
    + destruct (lodash.get (Some (json item)) (sourceKey this i)) as [value|].
      * intros H.
        repeat (apply bind_Ok_inv in H as (? & _ & H)).
        now injection H as <-.
      * now intros [= <-].
Qed.

Lemma loop_length (this : NodeParameters)
      (items : list INodeExecutionData) :
  forall i out,
    loop this items i [] = Ok out ->
    List.length out + count_absent this items i = List.length items.
Proof.
  induction items as [|item rest IH]; intros i out H.
  - now injection H as <-.
  - rewrite loop_cons in H.
    apply bind_Ok_inv in H as (o & Ho & H).
    apply bind_Ok_inv in H as (out' & Hrest & H). injection H as <-.
    cbn [count_absent List.length]. rewrite (convert_Ok_absent _ _ _ Ho).
    rewrite length_app. specialize (IH _ _ Hrest).
    destruct o; cbn [pushed is_none List.length]; lia.
Qed.

(** C1 (as amended).  Whenever [execute] returns a batch, an item whose
    source is absent gave no output item, every other item gave exactly
    one, the output batch is these output items in the order of the
    input, and it is shorter than the input by the number of items whose
    source is absent. *)
Theorem execute_drops_absent (this : NodeParameters)
        (items : list INodeExecutionData)
        (outputs : list (list INodeExecutionData)) :
  execute this items = Ok outputs ->
  exists results : list (option INodeExecutionData),
    List.length results = List.length items
    /\ (forall i item,
          nth_error items i = Some item ->
          if source_absent this i item
          then nth_error results i = Some None
          else exists newItem,
                 nth_error results i = Some (Some newItem)
                 /\ convert this i item = Ok (Some newItem))
    /\ outputs = [flat_map pushed results]
    /\ List.length (flat_map pushed results) + count_absent this items 0
       = List.length items.
Proof.
  rewrite execute_loop. intros H.
  apply bind_Ok_inv in H as (out & Hloop & H). injection H as <-.
  destruct (loop_Ok _ _ _ Hloop) as (results & Hlen & Hall & Hout).
  exists results. repeat split.
  - exact Hlen.
  - intros i item Hi. destruct (Hall i item Hi) as (o & Ho & Hc).
    cbn [Nat.add] in Hc. rewrite (convert_Ok_absent _ _ _ Hc).
    destruct o as [newItem|]; cbn [is_none]; eauto.
  - now rewrite Hout.
  - rewrite <- Hout. apply (loop_length _ _ _ Hloop).
Qed.

(** C10.  On an empty batch [execute] returns an empty batch, whatever
    the mode is: the unknown mode is only met inside the loop. *)
Theorem execute_empty_batch (this : NodeParameters) :
  execute this [] = Ok [[]].
Proof. reflexivity. Qed.

(** C6 (as amended).  When the mode is neither of the two known ones and
    the batch is not empty, [execute] throws an error whose message
    names the mode, and returns no batch. *)
Theorem execute_unknown_mode (this : NodeParameters)
        (items : list INodeExecutionData) :
  mode this <> "binaryToJson" ->
  mode this <> "jsonToBinary" ->
  items <> [] ->
  execute this items
  = Throw (Error ("The operation " ++ String JSON.dquote (mode this)
                    ++ String JSON.dquote " is not known!")).
Proof.
  intros Hb Hj Hitems. destruct items as [|item rest]; [congruence|].
  rewrite execute_loop, loop_cons. unfold MoveBinaryData.convert.
  apply String.eqb_neq in Hb, Hj. now rewrite Hb, Hj.
Qed.

Lemma convert_parse_fails (this : NodeParameters) (i : nat)
      (item : INodeExecutionData) :
  parse_fails toStringOther this i item ->
  convert this i item = Throw SyntaxError.
Proof.
  intros (Hmode & payload & data & text & Hget & Hdata & Htext & Hask & Hparse).
  unfold MoveBinaryData.convert, MoveBinaryData.binaryToJson.
  rewrite Hmode, Hget, Hdata. cbn [String.eqb Ascii.eqb Bool.eqb bind].
  cbn [MoveBinaryData.Buffer_from_base64 bind]. rewrite Htext. cbn [bind].
  destruct (setAllData this i).
  - now rewrite Hparse.
  - destruct Hask as [Hask|Hask]; [discriminate|]. rewrite Hask.
    cbn [is_true]. rewrite Hparse.
    destruct (copy (Some (json item))) as [c|e] eqn:Hcopy; [reflexivity|].
    cbn [bind]. now rewrite (parse_throws _ Hcopy).
Qed.

(** C3 (as amended).  When an item of the batch has a payload whose text
    is not JSON and the node is asked to parse it, the conversion of that
    item throws a [SyntaxError] and [execute] throws with it: no batch is
    returned, whatever the other items are; the exception of [execute] is
    that [SyntaxError] when no item before threw. *)
Theorem parse_failure_aborts (this : NodeParameters)
        (items : list INodeExecutionData) (i : nat)
        (item : INodeExecutionData) :
  nth_error items i = Some item ->
  parse_fails toStringOther this i item ->
  convert this i item = Throw SyntaxError
  /\ (exists e, execute this items = Throw e)
  /\ ((forall j item', j < i -> nth_error items j = Some item' ->
         exists o, convert this j item' = Ok o) ->
      execute this items = Throw SyntaxError).
Proof.
  intros Hi Hfails. pose proof (convert_parse_fails Hfails) as Hc.
  split; [exact Hc|]. split.
  - destruct (@loop_Throw_some this items 0 i item SyntaxError Hi Hc)
      as (e & He).
    exists e. now rewrite execute_loop, He.
  - intros Hbefore. rewrite execute_loop.
    now rewrite (@loop_Throw this items 0 i item SyntaxError Hi Hc Hbefore).
Qed.

(** Nothing throws in the mode [jsonToBinary] when the raw data is not
    asked for and the binary data can be copied. *)
Lemma jsonToBinary_all_total (this : NodeParameters) (i : nat)
      (item : INodeExecutionData) :
  convertAllData this i = true ->
  is_true (useRawData (options this)) = false ->
  match binary item with Some b => wf_value b | None => true end = true ->
  exists newItem, jsonToBinary this i item = Ok (Some newItem).
Proof.
  intros Hall Hraw Hwf. unfold MoveBinaryData.jsonToBinary.
  rewrite Hall, Hraw.
  assert (exists nb, match binary item with
                     | Some _ => copy (binary item)
                     | None => Ok (JObj [])
                     end = Ok nb) as (nb & ->).
  { destruct (binary item) as [b|]; [|eauto].
    rewrite (copy_wf _ Hwf). eauto. }
  cbn [bind MoveBinaryData.Buffer_from].
  destruct (is_true (keepSource (options this))); cbn [bind]; eauto.
Qed.

(** C9 (as amended).  In the mode [jsonToBinary] with [convertAllData]
    set for every item, no item is dropped: whenever [execute] returns a
    batch, every item gave one output item and the batch is as long as
    the input; and [execute] does return a batch when [useRawData] is not
    set and the binary data of the items is well formed. *)
Theorem convert_all_keeps_every_item (this : NodeParameters)
        (items : list INodeExecutionData) :
  mode this = "jsonToBinary" ->
  (forall i, convertAllData this i = true) ->
  (forall outputs,
     execute this items = Ok outputs ->
     exists out,
       outputs = [out]
       /\ List.length out = List.length items
       /\ forall i item, nth_error items i = Some item ->
            exists newItem, convert this i item = Ok (Some newItem))
  /\ (is_true (useRawData (options this)) = false ->
      Forall (fun item => well_formed item = true) items ->
      exists out,
        execute this items = Ok [out]
        /\ List.length out = List.length items).
Proof.
  intros Hmode Hall.
  assert (forall i item, source_absent this i item = false) as Habs.
  { intros i item. unfold source_absent. rewrite Hmode, Hall. reflexivity. }
  assert (forall i, count_absent this items i = 0) as Hcount.
  { induction items as [|item rest IH]; intros i; [reflexivity|].
    cbn [count_absent]. now rewrite Habs, IH. }
  assert (forall outputs,
     execute this items = Ok outputs ->
     exists out,
       outputs = [out]
       /\ List.length out = List.length items
       /\ forall i item, nth_error items i = Some item ->
            exists newItem, convert this i item = Ok (Some newItem)) as Hfirst.
  { intros outputs H. rewrite execute_loop in H.
    apply bind_Ok_inv in H as (out & Hloop & H). injection H as <-.
    exists out. split; [reflexivity|]. split.
    - pose proof (loop_length _ _ _ Hloop) as Hlen.
      rewrite Hcount in Hlen. lia.
    - intros i item Hi.
      destruct (loop_Ok _ _ _ Hloop) as (results & _ & Hres & _).
      destruct (Hres i item Hi) as (o & _ & Hc). cbn [Nat.add] in Hc.
      pose proof (convert_Ok_absent _ _ _ Hc) as Ha. rewrite Habs in Ha.
      destruct o as [newItem|]; [eauto | discriminate Ha]. }
  split; [exact Hfirst|].
  intros Hraw Hwf.
  destruct (loop_total this items 0) as (out & Hout).
  - intros j item Hj. cbn [Nat.add].
    apply nth_error_In in Hj.
    pose proof (proj1 (Forall_forall _ _) Hwf item Hj) as Hitem.
    unfold well_formed in Hitem. apply andb_true_iff in Hitem as [_ Hb].
    destruct (jsonToBinary_all_total this j item (Hall j) Hraw Hb)
      as (newItem & Hc).
    exists (Some newItem). unfold MoveBinaryData.convert.
    now rewrite Hmode.
  - exists out. assert (execute this items = Ok [out]) as Hex.
    { now rewrite execute_loop, Hout. }
    split; [exact Hex|].
    destruct (Hfirst _ Hex) as (out' & [= <-] & Hlen & _). exact Hlen.
Qed.

(** C7.  The item with the JSON data [{a: 1}] and empty binary data,
    converted in the mode [jsonToBinary] with [convertAllData] set,
    [destinationKey] "data", [useRawData] and [keepSource] false and no
    [mimeType], gives one item: its JSON data is the empty object and
    its binary data has the single property [data], whose [data] is the
    base64 text of the printed JSON data and whose [mimeType] is
    "application/json". *)
Theorem scenario_all_data_to_binary (enc : option string)
        (parse : option bool) (all : nat -> bool) (source : nat -> string) :
  execute
    {| mode := "jsonToBinary";
       options := {| encoding := enc; jsonParse := parse;
                     keepSource := Some false; mimeType := None;
                     useRawData := Some false |};
       setAllData := all;
       convertAllData := fun _ => true;
       sourceKey := source;
       destinationKey := fun _ => "data" |}
    [ {| json := JObj [("a", JNum 1)]; binary := Some (JObj []) |} ]
  = Ok [[ {| json := JObj [];
             binary :=
               Some (JObj [("data",
                            JObj [("data", JStr "eyJhIjoxfQ==");
                                  ("mimeType", JStr "application/json")])])
          |} ]]
  /\ "eyJhIjoxfQ=="
     = Base64.encode
         (list_byte_of_string (JSON.stringify (JObj [("a", JNum 1)])))
  /\ JSON.stringify (JObj [("a", JNum 1)])
     = String "{" (String JSON.dquote (String "a" (String JSON.dquote ":1}"))).
Proof. repeat split; reflexivity. Qed.

(** An object is all that [get] reads a property from. *)
Lemma get_Some_object (t : value) (path : string) (v : value) :
  lodash.get (Some t) path = Some v -> exists o, t = JObj o.
Proof.
  cbn [lodash.get]. pose proof (lodashFacts.castPath_nonempty path) as Hp.
  destruct (lodash.castPath path) as [|k more]; [congruence|].
  destruct t; try discriminate. eauto.
Qed.

Lemma unset_removed_at (o : object) (path : string) :
  removed_at (JObj o) path (lodash.unset (JObj o) path).
Proof.
  split.
  - apply lodashFacts.baseGet_baseUnset_same, lodashFacts.castPath_nonempty.
  - intros q Hq. now apply lodashFacts.baseGet_baseUnset_apart.
Qed.

Lemma set_written_at (o : object) (path : string) (v : value) :
  written_at (JObj o) path v (lodash.set (JObj o) path v).
Proof.
  split.
  - apply lodashFacts.baseGet_baseSet_same, lodashFacts.castPath_nonempty.
  - intros q Hq. now apply lodashFacts.baseGet_baseSet_apart.
Qed.

(** C4.  On an item whose conversion succeeds: when [keepSource] is
    true, the side the data is read from is the one of the input item and
    still has the source; otherwise it is the one of the input item with
    the source removed and every path apart from it unchanged (the whole
    JSON data is the source when all data is converted, and an empty
    object is left). *)
Theorem keepSource_frame (this : NodeParameters) (i : nat)
        (item newItem : INodeExecutionData) :
  well_formed item = true ->
  convert this i item = Ok (Some newItem) ->
  (mode this = "binaryToJson" ->
   if is_true (keepSource (options this))
   then binary newItem = binary item
        /\ exists v,
             lodash.get (binary newItem) (sourceKey this i) = Some v
   else exists b,
       binary item = Some b
       /\ binary newItem = Some (lodash.unset b (sourceKey this i))
       /\ removed_at b (sourceKey this i)
            (lodash.unset b (sourceKey this i)))
  /\ (mode this = "jsonToBinary" ->
      if is_true (keepSource (options this))
      then json newItem = json item
      else if convertAllData this i
           then json newItem = JObj []
           else json newItem = lodash.unset (json item) (sourceKey this i)
                /\ removed_at (json item) (sourceKey this i)
                     (json newItem)).
Proof.
  intros Hwf H. unfold well_formed in Hwf.
  apply andb_true_iff in Hwf as [Hwj Hwb].
  unfold MoveBinaryData.convert in H. split; intros Hmode;
    rewrite Hmode in H; cbn [String.eqb Ascii.eqb Bool.eqb] in H.
  - unfold MoveBinaryData.binaryToJson in H.
    destruct (lodash.get (binary item) (sourceKey this i))
      as [payload|] eqn:Hget; [|discriminate].
    apply bind_Ok_inv in H as (data & _ & H).
    apply bind_Ok_inv in H as (buffer & _ & H).
    apply bind_Ok_inv in H as (text & _ & H).
    apply bind_Ok_inv in H as (newJson & _ & H).
    apply bind_Ok_inv in H as (newBinary & Hbin & H).
    injection H as <-. cbn [binary].
    destruct (is_true (keepSource (options this))).
    + injection Hbin as <-. rewrite Hget. eauto.
    + destruct (binary item) as [b|] eqn:Hb; [|discriminate].
      rewrite (copy_wf _ Hwb) in Hbin. injection Hbin as <-.
      exists b. split; [reflexivity|]. split; [reflexivity|].
      destruct (get_Some_object _ _ Hget) as (o & ->).
      apply unset_removed_at.
  - unfold MoveBinaryData.jsonToBinary in H.
    destruct (if convertAllData this i
              then Some (json item)
              else lodash.get (Some (json item)) (sourceKey this i))
      as [v|] eqn:Hv; [|discriminate].
    apply bind_Ok_inv in H as (nb & _ & H).
    apply bind_Ok_inv in H as (buffer & _ & H).
    apply bind_Ok_inv in H as (newJson & Hjson & H).
    injection H as <-. cbn [json].
    destruct (is_true (keepSource (options this))).
    + now injection Hjson as <-.
    + destruct (convertAllData this i).
      * now injection Hjson as <-.
      * rewrite (copy_wf _ Hwj) in Hjson. injection Hjson as <-.
        split; [reflexivity|].
        destruct (get_Some_object _ _ Hv) as (o & ->).
        apply unset_removed_at.
Qed.


(** C8.  Without the [encoding] option the node reads the bytes of the
    payload as UTF-8, whatever the other encodings do: when the bytes are
    the UTF-8 form of a list of code points, the conversion returns an
    item whose JSON data holds the text of these code points (or what it
    parses to), as all the data or at [destinationKey].  Without the
    [mimeType] option the payload written in the mode [jsonToBinary], at
    [destinationKey] of the binary data, has the [mimeType]
    "application/json". *)
Theorem option_defaults (this : NodeParameters) (i : nat)
        (item : INodeExecutionData) :
  well_formed item = true ->
  (encoding (options this) = None ->
   mode this = "binaryToJson" ->
   forall (payload : value) (data : string) (code_points : list N)
          (w : value),
     lodash.get (binary item) (sourceKey this i) = Some payload ->
     prop_data payload = Ok (Some (JStr data)) ->
     UTF8.decode (Base64.decode data) = Some code_points ->
     (if setAllData this i || is_true (jsonParse (options this))
      then JSON.parse (UTF8.text code_points)
      else Ok (JStr (UTF8.text code_points))) = Ok w ->
     exists newItem,
       convert this i item = Ok (Some newItem)
       /\ json newItem
          = if setAllData this i
            then w
            else lodash.set (json item) (destinationKey this i) w)
  /\ (mimeType (options this) = None ->
      mode this = "jsonToBinary" ->
      forall (source : value) (buffer : Buffer) (o : object),
        (if convertAllData this i
         then Some (json item)
         else lodash.get (Some (json item)) (sourceKey this i))
        = Some source ->
        MoveBinaryData.Buffer_from bufferFromOther
          (if is_true (useRawData (options this))
           then source
           else JStr (JSON.stringify source)) = Ok buffer ->
        match binary item with Some b => b | None => JObj [] end = JObj o ->
        exists newItem,
          convert this i item = Ok (Some newItem)
          /\ binary newItem
             = Some (lodash.set (JObj o) (destinationKey this i)
                       (JObj [("data", JStr (Base64.encode buffer));
                              ("mimeType", JStr "application/json")]))
          /\ lodash.get (binary newItem) (destinationKey this i)
             = Some (JObj [("data", JStr (Base64.encode buffer));
                           ("mimeType", JStr "application/json")])).
Proof.
  intros Hwf. unfold well_formed in Hwf.
  apply andb_true_iff in Hwf as [Hwj Hwb]. split.
  - intros Henc Hmode payload data code_points w Hget Hdata Hdecode Hw.
    pose proof (UTF8Facts.decode_text _ Hdecode) as Htext.
    destruct (binary item) as [b|] eqn:Hb; [|discriminate Hget].
    unfold MoveBinaryData.convert, MoveBinaryData.binaryToJson.
    rewrite Hmode, Hb, Hget, Hdata, Henc.
    cbn [String.eqb Ascii.eqb Bool.eqb bind or_default
         MoveBinaryData.Buffer_from_base64].
    unfold MoveBinaryData.Buffer_toString.
    cbn [String.eqb Ascii.eqb Bool.eqb orb bind]. rewrite Htext.
    assert (exists newBinary,
               (if is_true (keepSource (options this))
                then Ok (Some b)
                else bind (copy (Some b))
                       (fun copied =>
                          Ok (Some (lodash.unset copied (sourceKey this i)))))
               = Ok newBinary) as (newBinary & HnewBinary).
    { destruct (is_true (keepSource (options this))); [eauto|].
      rewrite (copy_wf _ Hwb). cbn [bind]. eauto. }
    destruct (setAllData this i); cbn [orb] in Hw.
    + rewrite Hw. cbn [bind]. rewrite HnewBinary. cbn [bind]. eauto.
    + rewrite (copy_wf _ Hwj). cbn [bind]. rewrite Hw. cbn [bind].
      rewrite HnewBinary. cbn [bind]. eauto.
  - intros Hmime Hmode source buffer o Hsource Hbuffer Hobject.
    unfold MoveBinaryData.convert, MoveBinaryData.jsonToBinary.
    rewrite Hmode, Hsource, Hmime.
    cbn [String.eqb Ascii.eqb Bool.eqb or_default].
    assert (match binary item with
            | Some _ => copy (binary item)
            | None => Ok (JObj [])
            end = Ok (JObj o)) as ->.
    { destruct (binary item) as [b|].
      - now rewrite (copy_wf _ Hwb), Hobject.
      - now rewrite Hobject. }
    cbn [bind].
    assert ((if is_true (useRawData (options this))
             then MoveBinaryData.Buffer_from bufferFromOther source
             else MoveBinaryData.Buffer_from bufferFromOther
                    (JStr (JSON.stringify source))) = Ok buffer) as ->.
    { now destruct (is_true (useRawData (options this))). }
    cbn [bind].
    assert (exists newJson,
               (if is_true (keepSource (options this))
                then Ok (json item)
                else if convertAllData this i
                     then Ok (JObj [])
                     else bind (copy (Some (json item)))
                            (fun copied =>
                               Ok (lodash.unset copied (sourceKey this i))))
               = Ok newJson) as (newJson & ->).
    { destruct (is_true (keepSource (options this))); [eauto|].
      destruct (convertAllData this i); [eauto|].
      rewrite (copy_wf _ Hwj). cbn [bind]. eauto. }
    cbn [bind]. eexists. split; [reflexivity|]. cbn [binary].
    split; [reflexivity|]. apply set_written_at.
Qed.

Lemma wf_lookup (k : string) (o : object) (c : value) :
  wf_value (JObj o) = true -> lookup k o = Some c -> wf_value c = true.
Proof.
  cbn [wf_value]. intros H. apply andb_true_iff in H as [_ H].
  induction o as [|[k' v'] o IH]; cbn [lookup]; [discriminate|].
  cbn [forallb snd] in H. apply andb_true_iff in H as [Hv Ho].
  destruct (String.eqb k k'); [now intros [= <-] | now apply IH].
Qed.

(** What [get] reads in a well-formed value is well formed. *)
Lemma wf_baseGet (p : list string) (t v : value) :
  wf_value t = true -> lodash.baseGet t p = Some v -> wf_value v = true.
Proof.
  revert t. induction p as [|k p IH]; intros t Hwf H.
  - now injection H as <-.
  - cbn [lodash.baseGet] in H. destruct t; try discriminate.
    destruct (lookup k properties) as [c|] eqn:E; [|discriminate].
    exact (IH c (wf_lookup _ _ Hwf E) H).
Qed.

(** C2.  The data at a path of a well-formed item, moved to the binary
    data at that path (serialized, with the source kept) and moved back
    to the JSON data at that path (UTF-8, parsed, with the source kept),
    is the data the item had there. *)
Theorem json_binary_round_trip (there back : NodeParameters) (i j : nat)
        (item : INodeExecutionData) (path : string) (v : value) :
  well_formed item = true ->
  (forall b, binary item = Some b -> is_object b = true) ->
  lodash.get (Some (json item)) path = Some v ->
  mode there = "jsonToBinary" ->
  convertAllData there i = false ->
  sourceKey there i = path ->
  destinationKey there i = path ->
  is_true (useRawData (options there)) = false ->
  keepSource (options there) = Some true ->
  mode back = "binaryToJson" ->
  setAllData back j = false ->
  sourceKey back j = path ->
  destinationKey back j = path ->
  jsonParse (options back) = Some true ->
  keepSource (options back) = Some true ->
  encoding (options back) = None ->
  exists moved returned,
    convert there i item = Ok (Some moved)
    /\ convert back j moved = Ok (Some returned)
    /\ lodash.get (Some (json returned)) path = Some v.
Proof.
  intros Hwf Hbin Hget Hm1 Hall1 Hs1 Hd1 Hraw1 Hk1
         Hm2 Hall2 Hs2 Hd2 Hp2 Hk2 He2.
  unfold well_formed in Hwf. apply andb_true_iff in Hwf as [Hwj Hwb].
  destruct (get_Some_object _ _ Hget) as (o & Hj).
  assert (wf_value v = true) as Hwv by exact (wf_baseGet _ _ Hwj Hget).
  assert (exists ob, match binary item with
                     | Some _ => copy (binary item)
                     | None => Ok (JObj [])
                     end = Ok (JObj ob)) as (ob & Hcopy).
  { destruct (binary item) as [b|] eqn:Hb; [|eauto].
    pose proof (Hbin b eq_refl) as Hob.
    destruct b; try discriminate. rewrite (copy_wf _ Hwb). eauto. }
  set (payload :=
         JObj [("data",
                JStr (Base64.encode
                        (list_byte_of_string (JSON.stringify v))));
               ("mimeType",
                JStr (or_default (mimeType (options there))
                        "application/json"))]).
  exists {| json := json item;
            binary := Some (lodash.set (JObj ob) path payload) |}.
  exists {| json := lodash.set (json item) path v;
            binary := Some (lodash.set (JObj ob) path payload) |}.
  split; [|split].
  - unfold MoveBinaryData.convert, MoveBinaryData.jsonToBinary.
    rewrite Hm1, Hall1, Hs1, Hd1, Hraw1, Hk1, Hget, Hcopy. reflexivity.
  - unfold MoveBinaryData.convert, MoveBinaryData.binaryToJson.
    rewrite Hm2, Hall2, Hs2, Hd2, Hp2, Hk2, He2.
    cbn [String.eqb Ascii.eqb Bool.eqb binary json].
    assert (lodash.get (Some (lodash.set (JObj ob) path payload)) path
            = Some payload) as ->.
    { apply lodashFacts.baseGet_baseSet_same,
            lodashFacts.castPath_nonempty. }
    change (prop_data payload)
      with (Ok (A := option value)
              (Some (JStr (Base64.encode
                             (list_byte_of_string (JSON.stringify v)))))).
    cbn [bind MoveBinaryData.Buffer_from_base64].
    rewrite Base64Facts.decode_encode.
    unfold MoveBinaryData.Buffer_toString.
    cbn [or_default String.eqb Ascii.eqb Bool.eqb orb bind].
    rewrite string_of_list_byte_of_string, (copy_wf _ Hwj).
    cbn [bind is_true].
    rewrite (JSONFacts.parse_stringify_id _ Hwv). reflexivity.
  - cbn [json]. rewrite Hj.
    apply lodashFacts.baseGet_baseSet_same, lodashFacts.castPath_nonempty.
Qed.

End NodeFacts.

(* ================================================================== *)
(** * The model on small inputs *)

Module ModelExamples.
Import Examples.

Local Open Scope string_scope.

Example base64_of_three_bytes :
  Base64.encode (list_byte_of_string "Man") = "TWFu".
Proof. reflexivity. Qed.

Example base64_of_two_bytes :
  Base64.encode (list_byte_of_string "Ma") = "TWE=".
Proof. reflexivity. Qed.

Example base64_of_one_byte :
  Base64.encode (list_byte_of_string "M") = "TQ==".
Proof. reflexivity. Qed.

Example base64_skips_white_space :
  string_of_list_byte (Base64.decode "TW Fu TQ==") = "ManM".
Proof. reflexivity. Qed.

Example stringify_object :
  JSON.stringify
    (JObj [("a", JNum 1); ("b", JArr [JNull; JBool true; JNum (-20)])])
  = "{" ++ q "a" ++ ":1," ++ q "b" ++ ":[null,true,-20]}".
Proof. reflexivity. Qed.

Example parse_with_white_space :
  JSON.parse (" { " ++ q "a" ++ " : [ 1 , 2 ] , " ++ q "b" ++ ":" ++ q "x"
                 ++ " } ")
  = Ok (JObj [("a", JArr [JNum 1; JNum 2]); ("b", JStr "x")]).
Proof. reflexivity. Qed.

Example parse_name_read_twice :
  JSON.parse ("{" ++ q "a" ++ ":1," ++ q "b" ++ ":2," ++ q "a" ++ ":3}")
  = Ok (JObj [("a", JNum 3); ("b", JNum 2)]).
Proof. reflexivity. Qed.

Example parse_escapes :
  JSON.parse (q "a\n\u0041\/")
  = Ok (JStr (String "a" (String (ascii_of_nat 10) "A/"))).
Proof. reflexivity. Qed.

(** Numbers are written the way JavaScript writes them: an exponent
    from 1e21 on and below 1e-6. *)
Example stringify_numbers :
  map (fun x : number => JSON.stringify (JNum x))
      [Int 0; Int 5; Int (-20); Int 1200; Dec 15 1; Dec (-15) 1; Dec 5 1;
       Dec 123456 3; Dec 1 6; Dec 1 7; Dec 15 8;
       Int (10 ^ 20); Int (10 ^ 21); Int (-12 * 10 ^ 21)]
  = ["0"; "5"; "-20"; "1200"; "1.5"; "-1.5"; "0.5";
     "123.456"; "0.000001"; "1e-7"; "1.5e-7";
     "100000000000000000000"; "1e+21"; "-1.2e+22"].
Proof. vm_compute. reflexivity. Qed.

(** A number literal may have a fraction and an exponent, and the number
    read is in lowest form. *)
Example parse_numbers :
  map JSON.parse
      ["0"; "-0"; "1.5"; "1.50"; "1e3"; "1E+3"; "15e-1"; "10e-1"; "0.0";
       "-0.5e-2"; " 2e-0 "; "[1.5,-1e21]"]
  = [Ok (JNum 0); Ok (JNum 0); Ok (JNum (Dec 15 1)); Ok (JNum (Dec 15 1));
     Ok (JNum 1000); Ok (JNum 1000); Ok (JNum (Dec 15 1)); Ok (JNum 1);
     Ok (JNum 0); Ok (JNum (Dec (-5) 3)); Ok (JNum 2);
     Ok (JArr [JNum (Dec 15 1); JNum (- 10 ^ 21)])].
Proof. vm_compute. reflexivity. Qed.

Example parse_rejects_numbers :
  map JSON.parse
      ["1."; ".5"; "1e"; "1e+"; "-"; "+1"; "1.e1"; "0x10"; "00"; "-01";
       "1.5.2"; "1e2e3"; "Infinity"; "NaN"; "1 2"]
  = repeat (Throw SyntaxError) 15.
Proof. vm_compute. reflexivity. Qed.

Example parse_rejects_word : JSON.parse "x" = Throw SyntaxError.
Proof. reflexivity. Qed.

Example parse_rejects_leading_zero : JSON.parse "01" = Throw SyntaxError.
Proof. reflexivity. Qed.

Example parse_rejects_trailing_comma :
  JSON.parse "[1,]" = Throw SyntaxError.
Proof. reflexivity. Qed.

Example parse_rejects_empty_text : JSON.parse "" = Throw SyntaxError.
Proof. reflexivity. Qed.

Example castPath_deep :
  lodash.castPath "level1.level2.currentKey"
  = ["level1"; "level2"; "currentKey"].
Proof. reflexivity. Qed.

Example castPath_empty : lodash.castPath "" = [""].
Proof. reflexivity. Qed.

Example get_deep :
  lodash.get (Some (json item_nested)) "a.b"
  = Some (JArr [JNum 1; JStr "x"]).
Proof. reflexivity. Qed.

Example get_absent : lodash.get (Some (json item_nested)) "a.x.y" = None.
Proof. reflexivity. Qed.

Example get_of_undefined : lodash.get None "data" = None.
Proof. reflexivity. Qed.

Example set_creates_objects :
  lodash.set (JObj [("c", JNum 1)]) "a.b" (JNum 2)
  = JObj [("c", JNum 1); ("a", JObj [("b", JNum 2)])].
Proof. reflexivity. Qed.

Example set_keeps_place :
  lodash.set (JObj [("a", JNum 1); ("c", JNum 3)]) "a" (JNum 2)
  = JObj [("a", JNum 2); ("c", JNum 3)].
Proof. reflexivity. Qed.

Example unset_deep :
  lodash.unset (json item_nested) "a.b"
  = JObj [("a", JObj []); ("c", JBool true)].
Proof. reflexivity. Qed.

Example unset_absent :
  lodash.unset (json item_nested) "a.x.y" = json item_nested.
Proof. reflexivity. Qed.

(** The payload of [{x: 5}], moved to the JSON data with the default
    parameters and the encoding "utf8": the JSON data is [{x: 5}] and
    the binary data has lost the payload. *)
Example scenario_binary_to_all_data :
  MoveBinaryData.execute no_other_encoding no_other_source
    (with_encoding defaults (Some "utf8")) [item_x5]
  = Ok [[ {| json := JObj [("x", JNum 5)]; binary := Some (JObj []) |} ]].
Proof. reflexivity. Qed.

(** Well-formed UTF-8 and its code points. *)
Example decode_examples :
  map UTF8.decode
      [ [x63; x61; x66; xc3; xa9];           (* cafe with an acute accent *)
        [xe2; x82; xac];                     (* the euro sign *)
        [xf0; x9f; x98; x80];                (* U+1F600 *)
        [xc0; x80];                          (* an overlong form *)
        [xed; xa0; x80];                     (* a surrogate *)
        [xf4; x90; x80; x80];                (* above U+10FFFF *)
        [xe2; x82];                          (* a character cut short *)
        [x80] ]                              (* a continuation byte alone *)
  = [Some [99; 97; 102; 233]%N; Some [8364]%N; Some [128512]%N;
     None; None; None; None; None].
Proof. vm_compute. reflexivity. Qed.

(** The payload of [{x: 1.5}], after the one of [{x: 5}]: a fraction is
    JSON text, and both items are converted. *)
Example scenario_fraction :
  MoveBinaryData.execute no_other_encoding no_other_source defaults
    [item_x5; item_x15]
  = Ok [[ {| json := JObj [("x", JNum 5)]; binary := Some (JObj []) |};
          {| json := JObj [("x", JNum (Dec 15 1))];
             binary := Some (JObj []) |} ]].
Proof. vm_compute. reflexivity. Qed.

End ModelExamples.

(* ================================================================== *)
(** * The properties on examples *)

Section OnExamples.
Import Examples.

#[local] Abbreviation convert :=
  (MoveBinaryData.convert no_other_encoding no_other_source).
#[local] Abbreviation execute :=
  (MoveBinaryData.execute no_other_encoding no_other_source).

(** C1, as it is stated, fails: with the default parameters, an item
    whose payload is there but is not JSON text gives no output item,
    since [execute] throws. *)
Lemma present_source_without_output :
  source_absent defaults 0 item_x = false
  /\ execute defaults [item_x] = Throw SyntaxError.
Proof. split; reflexivity. Qed.

(** The batch of three items with the default parameters: the item
    without binary data is dropped and the other two are kept in order. *)
Lemma execute_drops_absent_witness :
  execute defaults [item_x5; item_without_binary; item_x5]
  = Ok [[ {| json := JObj [("x", JNum 5)]; binary := Some (JObj []) |};
          {| json := JObj [("x", JNum 5)]; binary := Some (JObj []) |} ]]
  /\ exists results : list (option INodeExecutionData),
      List.length results = 3
      /\ (forall i item,
            nth_error [item_x5; item_without_binary; item_x5] i = Some item ->
            if source_absent defaults i item
            then nth_error results i = Some None
            else exists newItem,
                   nth_error results i = Some (Some newItem)
                   /\ convert defaults i item = Ok (Some newItem))
      /\ [[ {| json := JObj [("x", JNum 5)]; binary := Some (JObj []) |};
            {| json := JObj [("x", JNum 5)]; binary := Some (JObj []) |} ]]
         = [flat_map pushed results]
      /\ List.length (flat_map pushed results)
         + count_absent defaults [item_x5; item_without_binary; item_x5] 0
         = 3.
Proof.
  split; [reflexivity|].
  apply (@execute_drops_absent no_other_encoding no_other_source defaults
           [item_x5; item_without_binary; item_x5]).
  reflexivity.
Defined.

(** C3, as it is stated, fails: the first item converts on its own, and
    yet the batch gives no output, since the second item makes [execute]
    throw. *)
Lemma sibling_output_lost :
  convert defaults 0 item_x5
  = Ok (Some {| json := JObj [("x", JNum 5)]; binary := Some (JObj []) |})
  /\ execute defaults [item_x5; item_x] = Throw SyntaxError.
Proof. split; reflexivity. Qed.

(** The batch of a good item and an item whose payload is not JSON text. *)
Lemma parse_failure_aborts_witness :
  nth_error [item_x5; item_x] 1 = Some item_x
  /\ parse_fails no_other_encoding defaults 1 item_x
  /\ convert defaults 1 item_x = Throw SyntaxError
  /\ (exists e, execute defaults [item_x5; item_x] = Throw e)
  /\ ((forall j item', j < 1 ->
         nth_error [item_x5; item_x] j = Some item' ->
         exists o, convert defaults j item' = Ok o) ->
      execute defaults [item_x5; item_x] = Throw SyntaxError).
Proof.
  assert (parse_fails no_other_encoding defaults 1 item_x) as Hfails.
  { split; [reflexivity|].
    exists payload_x, "eA==", "x".
    repeat split; try reflexivity. left. reflexivity. }
  split; [reflexivity|]. split; [exact Hfails|].
  apply (@parse_failure_aborts no_other_encoding no_other_source defaults
           [item_x5; item_x] 1 item_x); [reflexivity | exact Hfails].
Defined.

(** C6, as it is stated, fails: on an empty batch an unknown mode throws
    nothing and an empty batch is returned. *)
Lemma unknown_mode_empty_batch :
  mode unknown <> "binaryToJson"
  /\ mode unknown <> "jsonToBinary"
  /\ execute unknown [] = Ok [[]].
Proof. repeat split; discriminate. Qed.

(** A batch of one item with a mode that is not known. *)
Lemma execute_unknown_mode_witness :
  mode unknown <> "binaryToJson"
  /\ mode unknown <> "jsonToBinary"
  /\ [item_x5] <> []
  /\ execute unknown [item_x5]
     = Throw (Error ("The operation " ++ String JSON.dquote "jsonToXml"
                       ++ String JSON.dquote " is not known!")).
Proof.
  split; [discriminate|]. split; [discriminate|]. split; [discriminate|].
  apply (@execute_unknown_mode no_other_encoding no_other_source unknown
           [item_x5]); discriminate.
Defined.

(** C9, as it is stated, fails: with [useRawData] set, the JSON data of
    the item goes to [Buffer.from] as the object it is, which throws, and
    the batch gives no output. *)
Lemma raw_object_without_output :
  convertAllData (all_to_binary (Some true)) 0 = true
  /\ execute (all_to_binary (Some true)) [item_a1] = Throw TypeError.
Proof. split; reflexivity. Qed.

(** A batch of two items, all data converted, [useRawData] not set. *)
Lemma convert_all_keeps_every_item_witness :
  mode (all_to_binary None) = "jsonToBinary"
  /\ (forall i, convertAllData (all_to_binary None) i = true)
  /\ is_true (useRawData (options (all_to_binary None))) = false
  /\ Forall (fun item => well_formed item = true)
       [item_a1; item_without_binary]
  /\ exists out,
      execute (all_to_binary None) [item_a1; item_without_binary] = Ok [out]
      /\ List.length out = 2.
Proof.
  assert (Forall (fun item => well_formed item = true)
            [item_a1; item_without_binary]) as Hwf.
  { repeat constructor. }
  split; [reflexivity|]. split; [reflexivity|]. split; [reflexivity|].
  split; [exact Hwf|].
  apply (proj2 (@convert_all_keeps_every_item no_other_encoding
                  no_other_source (all_to_binary None)
                  [item_a1; item_without_binary] eq_refl
                  (fun _ => eq_refl)));
    [reflexivity | exact Hwf].
Defined.

(** One payload moved to the JSON data as text, the source removed. *)
Lemma keepSource_frame_witness :
  well_formed item_x5 = true
  /\ convert (key_to_json None) 0 item_x5
     = Ok (Some {| json :=
                     JObj [("result",
                            JObj [("value",
                                   JStr (String "{" (String JSON.dquote
                                           (String "x" (String JSON.dquote
                                              ":5}")))))])];
                   binary := Some (JObj []) |})
  /\ exists b,
      binary item_x5 = Some b
      /\ Some (JObj []) = Some (lodash.unset b "data")
      /\ removed_at b "data" (lodash.unset b "data").
Proof.
  split; [reflexivity|]. split; [reflexivity|].
  apply (proj1 (@keepSource_frame no_other_encoding no_other_source
                  (key_to_json None) 0 item_x5 _ eq_refl eq_refl) eq_refl).
Defined.



(** A payload of text that is not ASCII moved to the JSON data with no
    [encoding] option, and all data converted with no [mimeType]
    option. *)
Lemma option_defaults_witness :
  well_formed item_cafe = true
  /\ well_formed item_a1 = true
  /\ UTF8.decode (Base64.decode "Y2Fmw6k=") = Some [99; 97; 102; 233]%N
  /\ (exists newItem,
        convert (key_to_json None) 0 item_cafe = Ok (Some newItem)
        /\ json newItem
           = lodash.set (JObj []) "result.value"
               (JStr (UTF8.text [99; 97; 102; 233]%N)))
  /\ exists newItem,
      convert (all_to_binary None) 0 item_a1 = Ok (Some newItem)
      /\ binary newItem
         = Some (lodash.set (JObj []) "data"
                   (JObj [("data", JStr "eyJhIjoxfQ==");
                          ("mimeType", JStr "application/json")]))
      /\ lodash.get (binary newItem) "data"
         = Some (JObj [("data", JStr "eyJhIjoxfQ==");
                       ("mimeType", JStr "application/json")]).
Proof.
  split; [reflexivity|]. split; [reflexivity|]. split; [reflexivity|].
  split.
  - apply (proj1 (@option_defaults no_other_encoding no_other_source
                    (key_to_json None) 0 item_cafe eq_refl)
             eq_refl eq_refl payload_cafe "Y2Fmw6k="
             [99; 97; 102; 233]%N
             (JStr (UTF8.text [99; 97; 102; 233]%N)));
      reflexivity.
  - apply (proj2 (@option_defaults no_other_encoding no_other_source
                    (all_to_binary None) 0 item_a1 eq_refl)
             eq_refl eq_refl (JObj [("a", JNum 1)])
             (list_byte_of_string (JSON.stringify (JObj [("a", JNum 1)])))
             []);
      reflexivity.
Defined.

(** The array at [a.b] moved to the binary data and back. *)
Lemma json_binary_round_trip_witness :
  well_formed item_nested = true
  /\ lodash.get (Some (json item_nested)) "a.b"
     = Some (JArr [JNum 1; JStr "x"])
  /\ exists moved returned,
      convert (there "a.b") 0 item_nested = Ok (Some moved)
      /\ convert (back "a.b") 0 moved = Ok (Some returned)
      /\ lodash.get (Some (json returned)) "a.b"
         = Some (JArr [JNum 1; JStr "x"]).
Proof.
  split; [reflexivity|]. split; [reflexivity|].
  apply (@json_binary_round_trip no_other_encoding no_other_source
           (there "a.b") (back "a.b") 0 0 item_nested "a.b"
           (JArr [JNum 1; JStr "x"]));
    try reflexivity.
  intros b Hb. discriminate Hb.
Defined.

End OnExamples.

(* ================================================================== *)
(** * Further properties of the node *)

Lemma bind_Ok_r (A : Type) (m : result A) : bind m (fun a => Ok a) = m.
Proof. now destruct m. Qed.

Lemma bind_bind (A B C : Type) (m : result A) (k : A -> result B)
      (h : B -> result C) :
  bind (bind m k) h = bind m (fun a => bind (k a) h).
Proof. now destruct m. Qed.

Section BatchFacts.

Variable toStringOther : string -> Buffer -> result string.
Variable bufferFromOther : value -> result Buffer.

#[local] Abbreviation convert :=
  (MoveBinaryData.convert toStringOther bufferFromOther).
#[local] Abbreviation loop :=
  (MoveBinaryData.loop toStringOther bufferFromOther).
#[local] Abbreviation execute :=
  (MoveBinaryData.execute toStringOther bufferFromOther).

(** The loop on two settings that convert every item of the batch alike. *)
Lemma loop_ext (this this' : NodeParameters)
      (items : list INodeExecutionData) :
  forall i acc,
    (forall j item, nth_error items j = Some item ->
       convert this (i + j) item = convert this' (i + j) item) ->
    loop this items i acc = loop this' items i acc.
Proof.
  induction items as [|item rest IH]; intros i acc H; [reflexivity|].
  cbn [MoveBinaryData.loop].
  pose proof (H 0 item eq_refl) as H0. rewrite Nat.add_0_r in H0.
  rewrite <- H0. destruct (convert this i item) as [o|e]; [|reflexivity].
  cbn [bind]. apply IH. intros j item' Hj.
  specialize (H (S j) item' Hj). now rewrite Nat.add_succ_r in H.
Qed.

(** X1.  [execute] returns a batch exactly when the conversion of every
    item returns; otherwise it throws what the first item that throws
    threw, and nothing of the items converted before is returned. *)
Theorem execute_all_or_nothing (this : NodeParameters)
        (items : list INodeExecutionData) :
  ((exists outputs, execute this items = Ok outputs)
   <-> (forall i item, nth_error items i = Some item ->
          exists o, convert this i item = Ok o))
  /\ (forall i item e,
        nth_error items i = Some item ->
        convert this i item = Throw e ->
        (forall j item', j < i -> nth_error items j = Some item' ->
           exists o, convert this j item' = Ok o) ->
        execute this items = Throw e).
Proof.
  split; [split|].
  - intros (outputs & H) i item Hi.
    unfold MoveBinaryData.execute in H.
    apply bind_Ok_inv in H as (out & Hloop & _).
    destruct (loop_Ok _ _ _ _ _ Hloop) as (results & _ & Hall & _).
    destruct (Hall i item Hi) as (o & _ & Ho). eauto.
  - intros H.
    destruct (loop_total toStringOther bufferFromOther this items 0 H)
      as (out & Hout).
    exists [out]. unfold MoveBinaryData.execute. now rewrite Hout.
  - intros i item e Hi He Hbefore. unfold MoveBinaryData.execute.
    now rewrite (@loop_Throw toStringOther bufferFromOther this items 0 i
                   item e Hi He Hbefore).
Qed.

Lemma convert_shift (n : nat) (this : NodeParameters) (i : nat)
      (item : INodeExecutionData) :
  convert (shift n this) i item = convert this (n + i) item.
Proof. reflexivity. Qed.

Lemma loop_shift (n : nat) (this : NodeParameters)
      (items : list INodeExecutionData) :
  forall i acc,
    loop (shift n this) items i acc = loop this items (n + i) acc.
Proof.
  induction items as [|item rest IH]; intros i acc; [reflexivity|].
  cbn [MoveBinaryData.loop]. rewrite convert_shift.
  destruct (convert this (n + i) item) as [o|e]; [|reflexivity].
  cbn [bind]. rewrite IH. now rewrite Nat.add_succ_r.
Qed.

Lemma loop_app (this : NodeParameters) (a b : list INodeExecutionData) :
  forall i,
    loop this (a ++ b) i [] =
    bind (loop this a i []) (fun oa =>
      bind (loop this b (List.length a + i) []) (fun ob => Ok (oa ++ ob))).
Proof.
  induction a as [|item rest IH]; intros i.
  - cbn [List.app MoveBinaryData.loop bind List.length Nat.add].
    now rewrite bind_Ok_r.
  - cbn [List.app]. rewrite !loop_cons.
    destruct (convert this i item) as [o|e]; [|reflexivity].
    cbn [bind List.length Nat.add]. rewrite IH, !bind_bind, Nat.add_succ_r.
    destruct (loop this rest (S i) []) as [oa|e]; [|reflexivity].
    cbn [bind].
    destruct (loop this b (S (List.length rest + i)) []) as [ob|e];
      [|reflexivity].
    cbn [bind]. now rewrite List.app_assoc.
Qed.

(** X2.  A batch can be split: [execute] on two batches in a row gives
    the output of the first followed by the output of the second (run
    with the parameters of its items), and throws what the first of the
    two to throw throws. *)
Theorem execute_app (this : NodeParameters)
        (a b : list INodeExecutionData) :
  execute this (a ++ b) =
  bind (execute this a) (fun oa =>
    bind (execute (shift (List.length a) this) b) (fun ob =>
      Ok [List.concat oa ++ List.concat ob])).
Proof.
  unfold MoveBinaryData.execute. rewrite loop_app, loop_shift, !bind_bind.
  rewrite Nat.add_0_r.
  destruct (loop this a 0 []) as [oa|e]; [|reflexivity]. cbn [bind].
  rewrite bind_bind.
  destruct (loop this b (List.length a) []) as [ob|e]; [|reflexivity].
  cbn [bind List.concat]. now rewrite !List.app_nil_r.
Qed.

Lemma convert_absent (this : NodeParameters) (i : nat)
      (item : INodeExecutionData) :
  source_absent this i item = true -> convert this i item = Ok None.
Proof.
  unfold source_absent, MoveBinaryData.convert.
  destruct (String.eqb (mode this) "binaryToJson").
  - unfold MoveBinaryData.binaryToJson.
    now destruct (lodash.get (binary item) (sourceKey this i)).
  - destruct (String.eqb (mode this) "jsonToBinary"); [|discriminate].
    unfold MoveBinaryData.jsonToBinary.
    destruct (convertAllData this i); [discriminate|]. cbn [negb andb].
    now destruct (lodash.get (Some (json item)) (sourceKey this i)).
Qed.

Lemma convert_uniform (this : NodeParameters) (i : nat)
      (item : INodeExecutionData) :
  uniform this -> convert this i item = convert this 0 item.
Proof.
  intros H. destruct (H i) as (Hs & Hc & Hk & Hd).
  unfold MoveBinaryData.convert, MoveBinaryData.binaryToJson,
         MoveBinaryData.jsonToBinary.
  now rewrite Hs, Hc, Hk, Hd.
Qed.

Lemma source_absent_uniform (this : NodeParameters) (i : nat)
      (item : INodeExecutionData) :
  uniform this -> source_absent this i item = source_absent this 0 item.
Proof.
  intros H. destruct (H i) as (_ & Hc & Hk & _).
  unfold source_absent. now rewrite Hc, Hk.
Qed.

Lemma loop_without_absent (this : NodeParameters)
      (items : list INodeExecutionData) :
  uniform this ->
  forall i j,
    loop this items i [] =
    loop this
      (filter (fun item => negb (source_absent this 0 item)) items) j [].
Proof.
  intros Hu. induction items as [|item rest IH]; intros i j; [reflexivity|].
  cbn [filter]. rewrite loop_cons.
  destruct (source_absent this 0 item) eqn:Ha; cbn [negb].
  - rewrite <- (source_absent_uniform i item Hu) in Ha.
    rewrite (convert_absent _ _ _ Ha). cbn [bind pushed List.app].
    rewrite bind_Ok_r. apply IH.
  - rewrite loop_cons, (convert_uniform i item Hu),
      (convert_uniform j item Hu).
    destruct (convert this 0 item) as [o|e]; [|reflexivity].
    cbn [bind]. now rewrite (IH (S i) (S j)).
Qed.

(** X3.  When the parameters are the same for every item, the items
    whose source is absent can be taken out of the batch beforehand:
    [execute] gives the same output, or throws the same, without them. *)
Theorem execute_without_absent (this : NodeParameters)
        (items : list INodeExecutionData) :
  uniform this ->
  execute this items =
  execute this (filter (fun item => negb (source_absent this 0 item)) items).
Proof.
  intros Hu. unfold MoveBinaryData.execute.
  now rewrite (loop_without_absent items Hu 0 0).
Qed.

End BatchFacts.

Section DescriptionFacts.

Variable toStringOther : string -> Buffer -> result string.
Variable bufferFromOther : value -> result Buffer.

#[local] Abbreviation convert :=
  (MoveBinaryData.convert toStringOther bufferFromOther).
#[local] Abbreviation execute :=
  (MoveBinaryData.execute toStringOther bufferFromOther).

Lemma execute_ext (this this' : NodeParameters)
      (items : list INodeExecutionData) :
  (forall i item, nth_error items i = Some item ->
     convert this i item = convert this' i item) ->
  execute this items = execute this' items.
Proof.
  intros H. unfold MoveBinaryData.execute.
  now rewrite (loop_ext toStringOther bufferFromOther this this' items 0 [] H).
Qed.

Lemma or_default_declared_encoding (x : option string) :
  or_default (or_declared x "encoding") "utf8" = or_default x "utf8".
Proof. now destruct x as [[|c s]|]. Qed.

Lemma or_default_declared_mimeType (x : option string) :
  or_default (or_declared x "mimeType") "application/json"
  = or_default x "application/json".
Proof. now destruct x as [[|c s]|]. Qed.

Lemma is_true_declared (x : option bool) (name : string) :
  Description.default_bool name Description.option_declarations
  = Some false ->
  is_true (or_declared_bool x name) = is_true x.
Proof.
  intros H. destruct x as [[]|]; [reflexivity | reflexivity |].
  unfold or_declared_bool. now rewrite H.
Qed.

(** X4.  An option that is not set behaves as if it were set to the
    default the description declares for it, and so does an [encoding] or
    a [mimeType] set to the empty text: [execute] gives the same with the
    options filled in from the description. *)
Theorem unset_options_are_declared_defaults (this : NodeParameters)
        (items : list INodeExecutionData) :
  execute (with_options this (declared (options this))) items
  = execute this items.
Proof.
  apply execute_ext. intros i item _.
  unfold MoveBinaryData.convert, MoveBinaryData.binaryToJson,
         MoveBinaryData.jsonToBinary, with_options, declared.
  cbn [mode options encoding jsonParse keepSource mimeType useRawData
       setAllData convertAllData sourceKey destinationKey].
  rewrite or_default_declared_encoding, or_default_declared_mimeType.
  rewrite !is_true_declared by reflexivity.
  reflexivity.
Qed.

Lemma option_map_PBool_inj (x y : option bool) :
  option_map Description.PBool x = option_map Description.PBool y -> x = y.
Proof. destruct x, y; cbn; congruence. Qed.

Lemma option_map_PStr_inj (x y : option string) :
  option_map Description.PStr x = option_map Description.PStr y -> x = y.
Proof. destruct x, y; cbn; congruence. Qed.

(** Two settings that agree for an item on what is shown convert the item
    alike. *)
Lemma convert_agree (this this' : NodeParameters) (i : nat)
      (item : INodeExecutionData) :
  agree_on_displayed this this' i ->
  convert this i item = convert this' i item.
Proof.
  intros [Htop Hopt].
  assert (mode this = mode this') as Hmode.
  { pose proof (Htop _ (or_introl eq_refl) eq_refl) as H. now injection H. }
  assert (keepSource (options this) = keepSource (options this')) as Hkeep.
  { apply option_map_PBool_inj.
    exact (Hopt _ (or_intror (or_intror (or_introl eq_refl))) eq_refl). }
  unfold MoveBinaryData.convert. rewrite <- Hmode.
  destruct (String.eqb (mode this) "binaryToJson") eqn:Eb.
  - assert (setAllData this i = setAllData this' i) as Hall.
    { assert (Some (Description.PBool (setAllData this i))
              = Some (Description.PBool (setAllData this' i))) as H.
      { apply (Htop _ (or_intror (or_introl eq_refl))).
        unfold Description.displayed. cbn. now rewrite Eb. }
      now injection H. }
    assert (sourceKey this i = sourceKey this' i) as Hsrc.
    { assert (Some (Description.PStr (sourceKey this i))
              = Some (Description.PStr (sourceKey this' i))) as H.
      { apply (Htop _ (or_intror (or_intror (or_introl eq_refl)))).
        unfold Description.displayed. cbn. now rewrite Eb. }
      now injection H. }
    assert (encoding (options this) = encoding (options this')) as Henc.
    { apply option_map_PStr_inj. apply (Hopt _ (or_introl eq_refl)).
      unfold Description.displayed. cbn. now rewrite Eb. }
    unfold MoveBinaryData.binaryToJson.
    rewrite <- Hall, <- Hsrc, <- Henc, <- Hkeep.
    destruct (setAllData this i) eqn:Es; [reflexivity|].
    assert (destinationKey this i = destinationKey this' i) as Hdst.
    { assert (Some (Description.PStr (destinationKey this i))
              = Some (Description.PStr (destinationKey this' i))) as H.
      { apply (Htop _ (or_intror (or_intror (or_intror (or_introl eq_refl))))).
        unfold Description.displayed. cbn. now rewrite Eb, Es. }
      now injection H. }
    assert (jsonParse (options this) = jsonParse (options this')) as Hparse.
    { apply option_map_PBool_inj.
      apply (Hopt _ (or_intror (or_introl eq_refl))).
      unfold Description.displayed. cbn. now rewrite Eb, Es. }
    now rewrite <- Hdst, <- Hparse.
  - destruct (String.eqb (mode this) "jsonToBinary") eqn:Ej; [|reflexivity].
    assert (convertAllData this i = convertAllData this' i) as Hall.
    { assert (Some (Description.PBool (convertAllData this i))
              = Some (Description.PBool (convertAllData this' i))) as H.
      { apply (Htop _ (or_intror (or_intror (or_intror (or_intror
                          (or_introl eq_refl)))))).
        unfold Description.displayed. cbn. now rewrite Ej. }
      now injection H. }
    assert (destinationKey this i = destinationKey this' i) as Hdst.
    { assert (Some (Description.PStr (destinationKey this i))
              = Some (Description.PStr (destinationKey this' i))) as H.
      { apply (Htop _ (or_intror (or_intror (or_intror (or_intror
                          (or_intror (or_intror (or_introl eq_refl)))))))).
        unfold Description.displayed. cbn. now rewrite Ej. }
      now injection H. }
    assert (mimeType (options this) = mimeType (options this')) as Hmime.
    { apply option_map_PStr_inj.
      apply (Hopt _ (or_intror (or_intror (or_intror (or_introl eq_refl))))).
      unfold Description.displayed. cbn. now rewrite Ej. }
    assert (useRawData (options this) = useRawData (options this')) as Hraw.
    { apply option_map_PBool_inj.
      apply (Hopt _ (or_intror (or_intror (or_intror (or_intror
                        (or_introl eq_refl)))))).
      unfold Description.displayed. cbn. now rewrite Ej. }
    unfold MoveBinaryData.jsonToBinary.
    rewrite <- Hall, <- Hdst, <- Hmime, <- Hraw, <- Hkeep.
    destruct (convertAllData this i) eqn:Ec; [reflexivity|].
    assert (sourceKey this i = sourceKey this' i) as Hsrc.
    { assert (Some (Description.PStr (sourceKey this i))
              = Some (Description.PStr (sourceKey this' i))) as H.
      { apply (Htop _ (or_intror (or_intror (or_intror (or_intror
                          (or_intror (or_introl eq_refl))))))).
        unfold Description.displayed. cbn. now rewrite Ej, Ec. }
      now injection H. }
    now rewrite <- Hsrc.
Qed.

(** X5.  A parameter or an option that the description hides (by its
    [displayOptions]) for the values the other parameters have for an
    item has no effect on the conversion of that item: two settings that
    agree, for every item of the batch, on what is shown give the same
    output, or throw the same. *)
Theorem hidden_parameters_do_not_matter (this this' : NodeParameters)
        (items : list INodeExecutionData) :
  (forall i, i < List.length items -> agree_on_displayed this this' i) ->
  execute this items = execute this' items.
Proof.
  intros H. apply execute_ext. intros i item Hi.
  apply convert_agree, H. apply nth_error_Some. congruence.
Qed.

End DescriptionFacts.

(** ** Objects stay well formed *)

Lemma mem_snoc (k x : string) (l : list string) :
  mem k (l ++ [x]) = mem k l || String.eqb k x.
Proof.
  rewrite JSONFacts.mem_app. cbn [mem]. now rewrite orb_false_r.
Qed.

Lemma distinct_snoc (l : list string) (k : string) :
  distinct l = true -> mem k l = false -> distinct (l ++ [k]) = true.
Proof.
  induction l as [|x l IH]; intros Hd Hk; [reflexivity|].
  cbn [List.app distinct mem] in *.
  apply andb_true_iff in Hd as [Hx Hl].
  apply orb_false_iff in Hk as [Hkx Hkl].
  rewrite mem_snoc, (IH Hl Hkl), andb_true_r.
  apply negb_true_iff in Hx. rewrite Hx. cbn [orb].
  now rewrite String.eqb_sym, Hkx.
Qed.

Lemma keys_assign (k : string) (v : value) (o : object) :
  map fst (assign k v o)
  = if mem k (map fst o) then map fst o else map fst o ++ [k].
Proof.
  induction o as [|[k' v'] o IH]; [reflexivity|].
  cbn [assign map fst mem].
  destruct (String.eqb k k') eqn:E; cbn [orb map fst]; [reflexivity|].
  rewrite IH. now destruct (mem k (map fst o)).
Qed.

Lemma wf_assign (k : string) (v : value) (o : object) :
  wf_value (JObj o) = true -> wf_value v = true ->
  wf_value (JObj (assign k v o)) = true.
Proof.
  cbn [wf_value]. intros H Hv. apply andb_true_iff in H as [Hd Hall].
  apply andb_true_iff. split.
  - rewrite keys_assign. destruct (mem k (map fst o)) eqn:E; [exact Hd|].
    now apply distinct_snoc.
  - clear Hd. induction o as [|[k' v'] o IH]; cbn [assign forallb snd].
    + now rewrite Hv.
    + cbn [forallb snd] in Hall. apply andb_true_iff in Hall as [Hv' Ho].
      destruct (String.eqb k k'); cbn [forallb snd].
      * now rewrite Hv, Ho.
      * now rewrite Hv', (IH Ho).
Qed.

Lemma mem_delete (k k' : string) (o : object) :
  mem k' (map fst o) = false -> mem k' (map fst (delete k o)) = false.
Proof.
  induction o as [|[k0 v0] o IH]; [reflexivity|].
  cbn [map fst mem delete]. intros H.
  apply orb_false_iff in H as [H0 Ho].
  destruct (String.eqb k k0); cbn [map fst mem]; [now apply IH|].
  now rewrite H0, (IH Ho).
Qed.

Lemma wf_delete (k : string) (o : object) :
  wf_value (JObj o) = true -> wf_value (JObj (delete k o)) = true.
Proof.
  cbn [wf_value]. intros H. apply andb_true_iff in H as [Hd Hall].
  induction o as [|[k' v'] o IH]; [reflexivity|].
  cbn [map fst distinct forallb snd] in Hd, Hall.
  apply andb_true_iff in Hd as [Hk Hd].
  apply andb_true_iff in Hall as [Hv Hall].
  specialize (IH Hd Hall). apply andb_true_iff in IH as [IHd IHall].
  cbn [delete]. destruct (String.eqb k k'); [now rewrite IHd, IHall|].
  cbn [map fst distinct forallb snd].
  apply negb_true_iff in Hk.
  now rewrite (@mem_delete k k' o Hk), IHd, Hv, IHall.
Qed.

Lemma wf_child (k : string) (o : object) :
  wf_value (JObj o) = true ->
  wf_value (JObj match lookup k o with
                 | Some (JObj c) => c
                 | _ => []
                 end) = true.
Proof.
  intros H. destruct (lookup k o) as [[| | | | |c]|] eqn:E; try reflexivity.
  exact (wf_lookup _ _ H E).
Qed.

(** [set] keeps a well-formed object well formed. *)
Lemma wf_baseSet (p : list string) (v : value) :
  wf_value v = true ->
  forall o, wf_value (JObj o) = true ->
            wf_value (JObj (lodash.baseSet o p v)) = true.
Proof.
  intros Hv. induction p as [|k p IH]; intros o Ho; [exact Ho|].
  destruct p as [|k2 p].
  - now apply wf_assign.
  - rewrite lodashFacts.baseSet_cons. apply wf_assign; [exact Ho|].
    apply IH, wf_child, Ho.
Qed.

(** [unset] keeps a well-formed object well formed. *)
Lemma wf_baseUnset (p : list string) :
  forall o, wf_value (JObj o) = true ->
            wf_value (JObj (lodash.baseUnset o p)) = true.
Proof.
  induction p as [|k p IH]; intros o Ho; [exact Ho|].
  destruct p as [|k2 p].
  - now apply wf_delete.
  - rewrite lodashFacts.baseUnset_cons.
    destruct (lookup k o) as [[| | | | |c]|] eqn:E; try exact Ho.
    apply wf_assign; [exact Ho|]. apply IH. exact (wf_lookup _ _ Ho E).
Qed.

Section ItemFacts.

Variable toStringOther : string -> Buffer -> result string.
Variable bufferFromOther : value -> result Buffer.

#[local] Abbreviation convert :=
  (MoveBinaryData.convert toStringOther bufferFromOther).
#[local] Abbreviation Buffer_toString :=
  (MoveBinaryData.Buffer_toString toStringOther).
#[local] Abbreviation Buffer_from_base64 :=
  (MoveBinaryData.Buffer_from_base64 bufferFromOther).

(** X6.  In the mode [binaryToJson] with [setAllData], the JSON data of
    the input item is never looked at: the conversion is the same
    whatever it is, and the JSON data of the output item is what the text
    of the payload parses to, nothing else. *)
Theorem setAllData_replaces_json (this : NodeParameters) (i : nat)
        (item : INodeExecutionData) :
  mode this = "binaryToJson" ->
  setAllData this i = true ->
  (forall other,
     convert this i {| json := other; binary := binary item |}
     = convert this i item)
  /\ (forall newItem,
        convert this i item = Ok (Some newItem) ->
        exists payload data buffer text,
          lodash.get (binary item) (sourceKey this i) = Some payload
          /\ prop_data payload = Ok data
          /\ Buffer_from_base64 data = Ok buffer
          /\ Buffer_toString buffer
               (or_default (encoding (options this)) "utf8") = Ok text
          /\ JSON.parse text = Ok (json newItem)).
Proof.
  intros Hmode Hall. unfold MoveBinaryData.convert.
  rewrite Hmode. cbn [String.eqb Ascii.eqb Bool.eqb].
  unfold MoveBinaryData.binaryToJson. rewrite Hall. cbn [binary].
  split; [reflexivity|].
  intros newItem H.
  destruct (lodash.get (binary item) (sourceKey this i))
    as [payload|]; [|discriminate].
  apply bind_Ok_inv in H as (data & Hdata & H).
  apply bind_Ok_inv in H as (buffer & Hbuffer & H).
  apply bind_Ok_inv in H as (text & Htext & H).
  apply bind_Ok_inv in H as (newJson & Hjson & H).
  apply bind_Ok_inv in H as (newBinary & _ & H).
  injection H as <-. exists payload, data, buffer, text.
  repeat split; assumption.
Qed.

(** X7.  In the mode [jsonToBinary] without [useRawData], a well-formed
    item whose source is there is converted: the payload is written at
    [destinationKey] of the binary data of the input (of an empty object
    when the item has none), every binary path apart from it is
    unchanged, and the text of the payload parses back to the source. *)
Theorem jsonToBinary_writes_payload (this : NodeParameters) (i : nat)
        (item : INodeExecutionData) (v : value) :
  well_formed item = true ->
  (forall b, binary item = Some b -> is_object b = true) ->
  mode this = "jsonToBinary" ->
  is_true (useRawData (options this)) = false ->
  (if convertAllData this i
   then Some (json item)
   else lodash.get (Some (json item)) (sourceKey this i)) = Some v ->
  exists newItem old data,
    convert this i item = Ok (Some newItem)
    /\ old = match binary item with Some b => b | None => JObj [] end
    /\ binary newItem
       = Some (lodash.set old (destinationKey this i)
                 (payload_of this (list_byte_of_string (JSON.stringify v))))
    /\ written_at old (destinationKey this i)
         (payload_of this (list_byte_of_string (JSON.stringify v)))
         (lodash.set old (destinationKey this i)
            (payload_of this (list_byte_of_string (JSON.stringify v))))
    /\ prop_data (payload_of this (list_byte_of_string (JSON.stringify v)))
       = Ok (Some (JStr data))
    /\ JSON.parse (string_of_list_byte (Base64.decode data)) = Ok v.
Proof.
  intros Hwf Hbin Hmode Hraw Hv.
  unfold well_formed in Hwf. apply andb_true_iff in Hwf as [Hwj Hwb].
  assert (wf_value v = true) as Hwv.
  { destruct (convertAllData this i).
    - now injection Hv as <-.
    - exact (wf_baseGet _ _ Hwj Hv). }
  assert (exists ob,
             match binary item with Some b => b | None => JObj [] end
             = JObj ob
             /\ match binary item with
                | Some _ => copy (binary item)
                | None => Ok (JObj [])
                end = Ok (JObj ob)) as (ob & Hold & Hcopy).
  { destruct (binary item) as [b|] eqn:Hb; [|eauto].
    pose proof (Hbin b eq_refl) as Hob.
    destruct b; try discriminate. rewrite (copy_wf _ Hwb). eauto. }
  assert (exists newJson,
             (if is_true (keepSource (options this))
              then Ok (json item)
              else if convertAllData this i
                   then Ok (JObj [])
                   else copied <- copy (Some (json item)) ;;
                        Ok (lodash.unset copied (sourceKey this i)))
             = Ok newJson) as (newJson & Hjson).
  { destruct (is_true (keepSource (options this))); [eauto|].
    destruct (convertAllData this i); [eauto|].
    rewrite (copy_wf _ Hwj). cbn [bind]. eauto. }
  exists {| json := newJson;
            binary :=
              Some (lodash.set (JObj ob) (destinationKey this i)
                      (payload_of this
                         (list_byte_of_string (JSON.stringify v)))) |},
    (JObj ob),
    (Base64.encode (list_byte_of_string (JSON.stringify v))).
  split; [|split; [now rewrite Hold|split; [reflexivity|split;
          [apply set_written_at|split; [reflexivity|]]]]].
  - unfold MoveBinaryData.convert, MoveBinaryData.jsonToBinary.
    rewrite Hmode. cbn [String.eqb Ascii.eqb Bool.eqb].
    rewrite Hv, Hcopy, Hraw. cbn [bind MoveBinaryData.Buffer_from].
    rewrite Hjson. reflexivity.
  - rewrite Base64Facts.decode_encode, string_of_list_byte_of_string.
    now apply JSONFacts.parse_stringify_id.
Qed.

(** X8.  With [useRawData], a source that is a text goes to the payload
    as it is, without the quotes of JSON: the payload read at
    [destinationKey] holds the base64 of the bytes of the text, and its
    text is the text. *)
Theorem useRawData_keeps_text (this : NodeParameters) (i : nat)
        (item : INodeExecutionData) (s : string) :
  well_formed item = true ->
  (forall b, binary item = Some b -> is_object b = true) ->
  mode this = "jsonToBinary" ->
  useRawData (options this) = Some true ->
  (if convertAllData this i
   then Some (json item)
   else lodash.get (Some (json item)) (sourceKey this i)) = Some (JStr s) ->
  exists newItem,
    convert this i item = Ok (Some newItem)
    /\ lodash.get (binary newItem) (destinationKey this i)
       = Some (payload_of this (list_byte_of_string s))
    /\ string_of_list_byte
         (Base64.decode (Base64.encode (list_byte_of_string s))) = s.
Proof.
  intros Hwf Hbin Hmode Hraw Hv.
  unfold well_formed in Hwf. apply andb_true_iff in Hwf as [Hwj Hwb].
  assert (exists ob,
             match binary item with
             | Some _ => copy (binary item)
             | None => Ok (JObj [])
             end = Ok (JObj ob)) as (ob & Hcopy).
  { destruct (binary item) as [b|] eqn:Hb; [|eauto].
    pose proof (Hbin b eq_refl) as Hob.
    destruct b; try discriminate. rewrite (copy_wf _ Hwb). eauto. }
  assert (exists newJson,
             (if is_true (keepSource (options this))
              then Ok (json item)
              else if convertAllData this i
                   then Ok (JObj [])
                   else copied <- copy (Some (json item)) ;;
                        Ok (lodash.unset copied (sourceKey this i)))
             = Ok newJson) as (newJson & Hjson).
  { destruct (is_true (keepSource (options this))); [eauto|].
    destruct (convertAllData this i); [eauto|].
    rewrite (copy_wf _ Hwj). cbn [bind]. eauto. }
  exists {| json := newJson;
            binary :=
              Some (lodash.set (JObj ob) (destinationKey this i)
                      (payload_of this (list_byte_of_string s))) |}.
  split; [|split].
  - unfold MoveBinaryData.convert, MoveBinaryData.jsonToBinary.
    rewrite Hmode. cbn [String.eqb Ascii.eqb Bool.eqb].
    rewrite Hv, Hcopy, Hraw. cbn [bind is_true MoveBinaryData.Buffer_from].
    rewrite Hjson. reflexivity.
  - cbn [binary].
    apply lodashFacts.baseGet_baseSet_same, lodashFacts.castPath_nonempty.
  - now rewrite Base64Facts.decode_encode, string_of_list_byte_of_string.
Qed.

(** X10.  In the mode [binaryToJson], a source that is there but is not
    a payload ([null], or a value without a [data] property, as a path
    into a payload gives) is not skipped: the conversion throws a
    [TypeError]. *)
Theorem source_without_data_throws (this : NodeParameters) (i : nat)
        (item : INodeExecutionData) (source : value) :
  mode this = "binaryToJson" ->
  lodash.get (binary item) (sourceKey this i) = Some source ->
  source = JNull \/ prop_data source = Ok None ->
  source_absent this i item = false
  /\ convert this i item = Throw TypeError.
Proof.
  intros Hmode Hget Hsource. split.
  - unfold source_absent. rewrite Hmode, Hget. reflexivity.
  - unfold MoveBinaryData.convert, MoveBinaryData.binaryToJson.
    rewrite Hmode, Hget. cbn [String.eqb Ascii.eqb Bool.eqb].
    destruct Hsource as [->|Hdata]; [reflexivity|].
    now rewrite Hdata.
Qed.

End ItemFacts.

Section MoveFacts.

Variable toStringOther : string -> Buffer -> result string.
Variable bufferFromOther : value -> result Buffer.

#[local] Abbreviation convert :=
  (MoveBinaryData.convert toStringOther bufferFromOther).

(** X9.  With [keepSource] not set, as it is by default, the data at a
    path of a well-formed item really moves: converted to the binary
    data at that path, it is gone from the JSON data; converted back
    (UTF-8, parsed), it is at the path again and gone from the binary
    data, and every path apart from it, on both sides, leads to what it
    led to in the item. *)
Theorem move_there_and_back (there back : NodeParameters) (i j : nat)
        (item : INodeExecutionData) (path : string) (v : value) :
  well_formed item = true ->
  (forall b, binary item = Some b -> is_object b = true) ->
  lodash.get (Some (json item)) path = Some v ->
  mode there = "jsonToBinary" ->
  convertAllData there i = false ->
  sourceKey there i = path ->
  destinationKey there i = path ->
  is_true (useRawData (options there)) = false ->
  is_true (keepSource (options there)) = false ->
  mode back = "binaryToJson" ->
  setAllData back j = false ->
  sourceKey back j = path ->
  destinationKey back j = path ->
  jsonParse (options back) = Some true ->
  is_true (keepSource (options back)) = false ->
  encoding (options back) = None ->
  exists moved returned old after,
    convert there i item = Ok (Some moved)
    /\ lodash.get (Some (json moved)) path = None
    /\ convert back j moved = Ok (Some returned)
    /\ lodash.get (Some (json returned)) path = Some v
    /\ (forall q, apart (lodash.castPath path) q = true ->
          lodash.baseGet (json returned) q = lodash.baseGet (json item) q)
    /\ old = match binary item with Some b => b | None => JObj [] end
    /\ binary returned = Some after
    /\ lodash.get (Some after) path = None
    /\ (forall q, apart (lodash.castPath path) q = true ->
          lodash.baseGet after q = lodash.baseGet old q).
Proof.
  intros Hwf Hbin Hget Hm1 Hall1 Hs1 Hd1 Hraw1 Hk1
         Hm2 Hall2 Hs2 Hd2 Hp2 Hk2 He2.
  unfold well_formed in Hwf. apply andb_true_iff in Hwf as [Hwj Hwb].
  destruct (get_Some_object _ _ Hget) as (o & Hj).
  assert (wf_value v = true) as Hwv by exact (wf_baseGet _ _ Hwj Hget).
  assert (exists ob,
             match binary item with Some b => b | None => JObj [] end
             = JObj ob
             /\ wf_value (JObj ob) = true
             /\ match binary item with
                | Some _ => copy (binary item)
                | None => Ok (JObj [])
                end = Ok (JObj ob)) as (ob & Hold & Hwo & Hcopy).
  { destruct (binary item) as [b|] eqn:Hb.
    - pose proof (Hbin b eq_refl) as Hob.
      destruct b; try discriminate. rewrite (copy_wf _ Hwb). eauto.
    - exists []. repeat split. }
  set (payload :=
         JObj [("data",
                JStr (Base64.encode
                        (list_byte_of_string (JSON.stringify v))));
               ("mimeType",
                JStr (or_default (mimeType (options there))
                        "application/json"))]).
  assert (wf_value (lodash.set (JObj ob) path payload) = true) as Hwset.
  { apply wf_baseSet; [reflexivity | exact Hwo]. }
  assert (wf_value (lodash.unset (json item) path) = true) as Hwunset.
  { rewrite Hj. apply wf_baseUnset. now rewrite <- Hj. }
  exists {| json := lodash.unset (json item) path;
            binary := Some (lodash.set (JObj ob) path payload) |}.
  exists {| json := lodash.set (lodash.unset (json item) path) path v;
            binary :=
              Some (lodash.unset (lodash.set (JObj ob) path payload) path) |}.
  exists (JObj ob), (lodash.unset (lodash.set (JObj ob) path payload) path).
  split; [|split; [|split; [|split; [|split; [|split; [|split;
    [|split]]]]]]].
  - unfold MoveBinaryData.convert, MoveBinaryData.jsonToBinary.
    rewrite Hm1, Hall1, Hs1, Hd1, Hraw1, Hk1, Hget, Hcopy.
    cbn [String.eqb Ascii.eqb Bool.eqb bind MoveBinaryData.Buffer_from].
    now rewrite (copy_wf _ Hwj).
  - cbn [json]. rewrite Hj.
    apply lodashFacts.baseGet_baseUnset_same, lodashFacts.castPath_nonempty.
  - unfold MoveBinaryData.convert, MoveBinaryData.binaryToJson.
    rewrite Hm2, Hall2, Hs2, Hd2, Hp2, Hk2, He2.
    cbn [String.eqb Ascii.eqb Bool.eqb binary json].
    assert (lodash.get (Some (lodash.set (JObj ob) path payload)) path
            = Some payload) as ->.
    { apply lodashFacts.baseGet_baseSet_same,
            lodashFacts.castPath_nonempty. }
    change (prop_data payload)
      with (Ok (A := option value)
              (Some (JStr (Base64.encode
                             (list_byte_of_string (JSON.stringify v)))))).
    cbn [bind MoveBinaryData.Buffer_from_base64].
    rewrite Base64Facts.decode_encode.
    unfold MoveBinaryData.Buffer_toString.
    cbn [or_default String.eqb Ascii.eqb Bool.eqb orb bind].
    rewrite string_of_list_byte_of_string, (copy_wf _ Hwunset).
    cbn [bind is_true].
    rewrite (JSONFacts.parse_stringify_id _ Hwv). cbn [bind].
    now rewrite (copy_wf _ Hwset).
  - cbn [json]. rewrite Hj.
    apply lodashFacts.baseGet_baseSet_same, lodashFacts.castPath_nonempty.
  - intros q Hq. cbn [json]. rewrite Hj.
    cbn [lodash.unset lodash.set].
    rewrite (lodashFacts.baseGet_baseSet_apart _ _ _ _ Hq).
    now apply lodashFacts.baseGet_baseUnset_apart.
  - now rewrite Hold.
  - reflexivity.
  - apply lodashFacts.baseGet_baseUnset_same, lodashFacts.castPath_nonempty.
  - intros q Hq. cbn [lodash.unset lodash.set].
    rewrite (lodashFacts.baseGet_baseUnset_apart _ _ _ Hq).
    now apply lodashFacts.baseGet_baseSet_apart.
Qed.

End MoveFacts.

Section FreshNodeFacts.

Variable toStringOther : string -> Buffer -> result string.
Variable bufferFromOther : value -> result Buffer.

#[local] Abbreviation convert :=
  (MoveBinaryData.convert toStringOther bufferFromOther).

(** X12.  The node as it is added to a workflow (every parameter at the
    default the description declares) drops an item without a binary
    property [data], and converts a well-formed item whose binary
    property [data] is a payload with JSON text: the JSON data of the
    output is what the text parses to, and its binary data is the one of
    the input without the property [data]. *)
Theorem fresh_node_moves_data (i : nat) (item : INodeExecutionData) :
  (lodash.get (binary item) "data" = None ->
   convert fresh i item = Ok None)
  /\ (forall b payload data w,
        well_formed item = true ->
        binary item = Some b ->
        lodash.get (Some b) "data" = Some payload ->
        prop_data payload = Ok (Some (JStr data)) ->
        JSON.parse (string_of_list_byte (Base64.decode data)) = Ok w ->
        convert fresh i item
        = Ok (Some {| json := w;
                      binary := Some (lodash.unset b "data") |})
        /\ removed_at b "data" (lodash.unset b "data")).
Proof.
  split.
  - intros Hget. unfold MoveBinaryData.convert, MoveBinaryData.binaryToJson.
    cbn [mode fresh sourceKey String.eqb Ascii.eqb Bool.eqb].
    change (declared_string "sourceKey") with "data". now rewrite Hget.
  - intros b payload data w Hwf Hb Hget Hdata Hparse.
    unfold well_formed in Hwf. apply andb_true_iff in Hwf as [_ Hwb].
    rewrite Hb in Hwb. split.
    + unfold MoveBinaryData.convert, MoveBinaryData.binaryToJson.
      cbn [mode fresh sourceKey setAllData options encoding keepSource
           String.eqb Ascii.eqb Bool.eqb].
      change (declared_string "sourceKey") with "data".
      change (declared_bool "setAllData") with true.
      rewrite Hb, Hget, Hdata.
      cbn [bind MoveBinaryData.Buffer_from_base64 or_default is_true].
      unfold MoveBinaryData.Buffer_toString.
      cbn [String.eqb Ascii.eqb Bool.eqb orb bind].
      rewrite Hparse. cbn [bind]. now rewrite (copy_wf _ Hwb).
    + destruct (get_Some_object _ _ Hget) as (ob & ->).
      apply unset_removed_at.
Qed.

End FreshNodeFacts.

(* ================================================================== *)
(** * The further properties on examples *)

Section OnMoreExamples.
Import Examples MoreExamples.

#[local] Abbreviation convert :=
  (MoveBinaryData.convert no_other_encoding no_other_source).
#[local] Abbreviation execute :=
  (MoveBinaryData.execute no_other_encoding no_other_source).

(** The default parameters, and a batch with an item to drop. *)
Lemma execute_without_absent_witness :
  uniform defaults
  /\ execute defaults [item_x5; item_without_binary; item_x5]
     = execute defaults [item_x5; item_x5].
Proof.
  assert (uniform defaults) as Hu by (intros i; repeat split).
  split; [exact Hu|].
  apply (@execute_without_absent no_other_encoding no_other_source
           defaults [item_x5; item_without_binary; item_x5] Hu).
Defined.

(** The default parameters, and the same with every hidden one changed. *)
Lemma hidden_parameters_do_not_matter_witness :
  (forall i, i < 1 ->
     agree_on_displayed defaults defaults_with_hidden_changed i)
  /\ execute defaults [item_x5]
     = execute defaults_with_hidden_changed [item_x5].
Proof.
  assert (forall i, i < 1 ->
            agree_on_displayed defaults defaults_with_hidden_changed i)
    as Hagree.
  { intros i _. split; intros p Hin Hshown;
      repeat (destruct Hin as [<-|Hin]);
      try reflexivity; try discriminate Hshown; destruct Hin. }
  split; [exact Hagree|].
  apply (@hidden_parameters_do_not_matter no_other_encoding no_other_source
           defaults defaults_with_hidden_changed [item_x5] Hagree).
Defined.

(** The payload of [{x: 5}] with the default parameters, whatever the
    JSON data of the item is. *)
Lemma setAllData_replaces_json_witness :
  mode defaults = "binaryToJson"
  /\ setAllData defaults 0 = true
  /\ convert defaults 0
       {| json := JObj [("old", JNum 1)]; binary := binary item_x5 |}
     = convert defaults 0 item_x5.
Proof.
  split; [reflexivity|]. split; [reflexivity|].
  apply (proj1 (@setAllData_replaces_json no_other_encoding
                  no_other_source defaults 0 item_x5 eq_refl eq_refl)).
Defined.

(** The array at [a.b] written to the binary data of an item that has
    none. *)
Lemma jsonToBinary_writes_payload_witness :
  well_formed item_nested = true
  /\ lodash.get (Some (json item_nested)) "a.b"
     = Some (JArr [JNum 1; JStr "x"])
  /\ exists newItem old data,
      convert (there "a.b") 0 item_nested = Ok (Some newItem)
      /\ old = JObj []
      /\ binary newItem
         = Some (lodash.set old "a.b"
                   (payload_of (there "a.b")
                      (list_byte_of_string
                         (JSON.stringify (JArr [JNum 1; JStr "x"])))))
      /\ written_at old "a.b"
           (payload_of (there "a.b")
              (list_byte_of_string
                 (JSON.stringify (JArr [JNum 1; JStr "x"]))))
           (lodash.set old "a.b"
              (payload_of (there "a.b")
                 (list_byte_of_string
                    (JSON.stringify (JArr [JNum 1; JStr "x"])))))
      /\ prop_data
           (payload_of (there "a.b")
              (list_byte_of_string
                 (JSON.stringify (JArr [JNum 1; JStr "x"]))))
         = Ok (Some (JStr data))
      /\ JSON.parse (string_of_list_byte (Base64.decode data))
         = Ok (JArr [JNum 1; JStr "x"]).
Proof.
  split; [reflexivity|]. split; [reflexivity|].
  apply (@jsonToBinary_writes_payload no_other_encoding no_other_source
           (there "a.b") 0 item_nested (JArr [JNum 1; JStr "x"]));
    try reflexivity.
  intros b Hb. discriminate Hb.
Defined.

(** The text at [name] written as it is. *)
Lemma useRawData_keeps_text_witness :
  well_formed item_report = true
  /\ useRawData (options (raw_key "name")) = Some true
  /\ lodash.get (Some (json item_report)) "name" = Some (JStr "report")
  /\ exists newItem,
      convert (raw_key "name") 0 item_report = Ok (Some newItem)
      /\ lodash.get (binary newItem) "file"
         = Some (payload_of (raw_key "name") (list_byte_of_string "report"))
      /\ string_of_list_byte
           (Base64.decode (Base64.encode (list_byte_of_string "report")))
         = "report".
Proof.
  split; [reflexivity|]. split; [reflexivity|]. split; [reflexivity|].
  apply (@useRawData_keeps_text no_other_encoding no_other_source
           (raw_key "name") 0 item_report "report");
    try reflexivity.
  intros b Hb. discriminate Hb.
Defined.

(** The array at [a.b] moved to the binary data and back. *)
Lemma move_there_and_back_witness :
  well_formed item_nested = true
  /\ lodash.get (Some (json item_nested)) "a.b"
     = Some (JArr [JNum 1; JStr "x"])
  /\ exists moved returned old after,
      convert (move_there "a.b") 0 item_nested = Ok (Some moved)
      /\ lodash.get (Some (json moved)) "a.b" = None
      /\ convert (move_back "a.b") 0 moved = Ok (Some returned)
      /\ lodash.get (Some (json returned)) "a.b"
         = Some (JArr [JNum 1; JStr "x"])
      /\ (forall q, apart (lodash.castPath "a.b") q = true ->
            lodash.baseGet (json returned) q
            = lodash.baseGet (json item_nested) q)
      /\ old = JObj []
      /\ binary returned = Some after
      /\ lodash.get (Some after) "a.b" = None
      /\ (forall q, apart (lodash.castPath "a.b") q = true ->
            lodash.baseGet after q = lodash.baseGet old q).
Proof.
  split; [reflexivity|]. split; [reflexivity|].
  apply (@move_there_and_back no_other_encoding no_other_source
           (move_there "a.b") (move_back "a.b") 0 0 item_nested "a.b"
           (JArr [JNum 1; JStr "x"]));
    try reflexivity.
  intros b Hb. discriminate Hb.
Defined.

(** The source key [data.mimeType] leads to a text, not to a payload. *)
Lemma source_without_data_throws_witness :
  mode into_payload = "binaryToJson"
  /\ lodash.get (binary item_x5) (sourceKey into_payload 0)
     = Some (JStr "application/json")
  /\ prop_data (JStr "application/json") = Ok None
  /\ source_absent into_payload 0 item_x5 = false
  /\ convert into_payload 0 item_x5 = Throw TypeError.
Proof.
  split; [reflexivity|]. split; [reflexivity|]. split; [reflexivity|].
  apply (@source_without_data_throws no_other_encoding no_other_source
           into_payload 0 item_x5 (JStr "application/json"));
    [reflexivity | reflexivity | right; reflexivity].
Defined.

End OnMoreExamples.

(* ================================================================== *)
(** * Running the node again *)

Module ParseFacts.
Import JSON JSONShapes ParseShapes JSONFacts.

Lemma wf_fold_assign (members : list (string * value)) :
  forallb (fun kv => wf_value (snd kv)) members = true ->
  forall acc,
    wf_value (JObj acc) = true ->
    wf_value
      (JObj (fold_left (fun o kv => assign (fst kv) (snd kv) o) members acc))
    = true.
Proof.
  induction members as [|[k v] members IH]; intros H acc Hacc; [exact Hacc|].
  cbn [forallb snd] in H. apply andb_true_iff in H as [Hv Hm].
  cbn [fold_left fst snd]. apply (IH Hm). now apply wf_assign.
Qed.

Lemma wf_make_object (members : list (string * value)) :
  forallb (fun kv => wf_value (snd kv)) members = true ->
  wf_value (JObj (make_object members)) = true.
Proof. intros H. now apply (wf_fold_assign members H []). Qed.

Lemma parse_value_wf (f : nat) : wf_results f.
Proof.
  induction f as [|f (IHv & IHe & IHm)].
  - split; [|split]; intros s x r H; discriminate H.
  - split; [|split].
    + intros s v r H. rewrite parse_value_step in H.
      destruct (skip_ws s) as [|c r0]; [discriminate|].
      destruct (Ascii.eqb c "n").
      { destruct (expect "ull" r0); [|discriminate]. now injection H as <- _. }
      destruct (Ascii.eqb c "t").
      { destruct (expect "rue" r0); [|discriminate]. now injection H as <- _. }
      destruct (Ascii.eqb c "f").
      { destruct (expect "alse" r0); [|discriminate].
        now injection H as <- _. }
      destruct (Ascii.eqb c dquote).
      { destruct (parse_string r0) as [[x r1]|]; [|discriminate].
        now injection H as <- _. }
      destruct (Ascii.eqb c "[").
      { destruct (skip_ws r0) as [|c' r']; [discriminate|].
        destruct (Ascii.eqb c' "]"); [now injection H as <- _|].
        destruct (parse_elements f r0) as [[l r1]|] eqn:E; [|discriminate].
        injection H as <- _. exact (IHe _ _ _ E). }
      destruct (Ascii.eqb c "{").
      { destruct (skip_ws r0) as [|c' r']; [discriminate|].
        destruct (Ascii.eqb c' "}"); [now injection H as <- _|].
        destruct (parse_members f r0) as [[o r1]|] eqn:E; [|discriminate].
        injection H as <- _. apply wf_make_object. exact (IHm _ _ _ E). }
      destruct (parse_number (String c r0)) as [[n r1]|] eqn:E;
        [|discriminate].
      injection H as <- _. exact (parse_number_canonical _ E).
    + intros s l r H. rewrite parse_elements_step in H.
      destruct (parse_value f s) as [[x r1]|] eqn:E; [|discriminate].
      pose proof (IHv _ _ _ E) as Hx.
      destruct (skip_ws r1) as [|c r2]; [discriminate|].
      destruct (Ascii.eqb c ",").
      * destruct (parse_elements f r2) as [[l' r3]|] eqn:E'; [|discriminate].
        injection H as <- _. cbn [forallb]. now rewrite Hx, (IHe _ _ _ E').
      * destruct (Ascii.eqb c "]"); [|discriminate].
        injection H as <- _. cbn [forallb]. now rewrite Hx.
    + intros s o r H. rewrite parse_members_unfold in H.
      destruct (skip_ws s) as [|q r0]; [discriminate|].
      destruct (Ascii.eqb q dquote); [|discriminate].
      destruct (parse_string r0) as [[k r1]|]; [|discriminate].
      destruct (skip_ws r1) as [|c r2]; [discriminate|].
      destruct (Ascii.eqb c ":"); [|discriminate].
      destruct (parse_value f r2) as [[x r3]|] eqn:E; [|discriminate].
      pose proof (IHv _ _ _ E) as Hx.
      destruct (skip_ws r3) as [|c' r4]; [discriminate|].
      destruct (Ascii.eqb c' ",").
      * destruct (parse_members f r4) as [[o' r5]|] eqn:E'; [|discriminate].
        injection H as <- _. cbn [forallb snd].
        now rewrite Hx, (IHm _ _ _ E').
      * destruct (Ascii.eqb c' "}"); [|discriminate].
        injection H as <- _. cbn [forallb snd]. now rewrite Hx.
Qed.

(** [JSON.parse] returns well-formed values only. *)
Lemma parse_wf (text : string) (v : value) :
  parse text = Ok v -> wf_value v = true.
Proof.
  unfold parse.
  destruct (parse_value _ text) as [[x r]|] eqn:E; [|discriminate].
  destruct (skip_ws r); [|discriminate]. intros [= <-].
  exact (proj1 (parse_value_wf _) _ _ _ E).
Qed.

End ParseFacts.

Lemma assign_assign (k : string) (v v' : value) (o : object) :
  assign k v (assign k v' o) = assign k v o.
Proof.
  induction o as [|[k0 v0] o IH]; cbn [assign].
  - now rewrite String.eqb_refl.
  - destruct (String.eqb k k0) eqn:E; cbn [assign]; rewrite E;
      [reflexivity | now rewrite IH].
Qed.

(** Writing the same value at the same path again changes nothing. *)
Lemma baseSet_again (p : list string) (v : value) :
  forall o, lodash.baseSet (lodash.baseSet o p v) p v = lodash.baseSet o p v.
Proof.
  induction p as [|k p IH]; intros o; [reflexivity|].
  destruct p as [|k2 p].
  - apply assign_assign.
  - rewrite !lodashFacts.baseSet_cons, lodashFacts.lookup_assign_same.
    now rewrite IH, assign_assign.
Qed.

Lemma set_again (t : value) (path : string) (v : value) :
  lodash.set (lodash.set t path v) path v = lodash.set t path v.
Proof. destruct t; try reflexivity. cbn. now rewrite baseSet_again. Qed.

Lemma wf_set (t : value) (path : string) (v : value) :
  wf_value t = true -> wf_value v = true ->
  wf_value (lodash.set t path v) = true.
Proof.
  intros Ht Hv. destruct t; try exact Ht. now apply wf_baseSet.
Qed.

Section AgainFacts.

Variable toStringOther : string -> Buffer -> result string.
Variable bufferFromOther : value -> result Buffer.

#[local] Abbreviation convert :=
  (MoveBinaryData.convert toStringOther bufferFromOther).

(** X13.  With [keepSource], running the node again on its own output
    changes nothing: the output item of a well-formed item is converted
    to itself. *)
Theorem keepSource_run_again (this : NodeParameters) (i : nat)
        (item newItem : INodeExecutionData) :
  well_formed item = true ->
  keepSource (options this) = Some true ->
  convert this i item = Ok (Some newItem) ->
  convert this i newItem = Ok (Some newItem).
Proof.
  intros Hwf Hkeep H. unfold well_formed in Hwf.
  apply andb_true_iff in Hwf as [Hwj Hwb].
  unfold MoveBinaryData.convert in *.
  destruct (String.eqb (mode this) "binaryToJson").
  - unfold MoveBinaryData.binaryToJson in *. rewrite Hkeep in *.
    cbn [is_true] in *.
    destruct (lodash.get (binary item) (sourceKey this i))
      as [payload|] eqn:Hget; [|discriminate].
    apply bind_Ok_inv in H as (data & Hdata & H).
    apply bind_Ok_inv in H as (buffer & Hbuffer & H).
    apply bind_Ok_inv in H as (text & Htext & H).
    apply bind_Ok_inv in H as (newJson & Hjson & H).
    cbn [bind] in H. injection H as <-. cbn [binary json].
    rewrite Hget, Hdata. cbn [bind]. rewrite Hbuffer. cbn [bind].
    rewrite Htext. cbn [bind].
    destruct (setAllData this i).
    + now rewrite Hjson.
    + rewrite (copy_wf _ Hwj) in Hjson. cbn [bind] in Hjson.
      apply bind_Ok_inv in Hjson as (converted & Hconv & Hjson).
      injection Hjson as <-.
      assert (wf_value converted = true) as Hwc.
      { destruct (is_true (jsonParse (options this))).
        - exact (ParseFacts.parse_wf _ Hconv).
        - now injection Hconv as <-. }
      rewrite (copy_wf _ (@wf_set _ _ _ Hwj Hwc)). cbn [bind].
      rewrite Hconv. cbn [bind]. now rewrite set_again.
  - destruct (String.eqb (mode this) "jsonToBinary"); [|discriminate].
    unfold MoveBinaryData.jsonToBinary in *. rewrite Hkeep in *.
    cbn [is_true] in *.
    destruct (if convertAllData this i
              then Some (json item)
              else lodash.get (Some (json item)) (sourceKey this i))
      as [v|] eqn:Hv; [|discriminate].
    apply bind_Ok_inv in H as (copied & Hcopy & H).
    apply bind_Ok_inv in H as (buffer & Hbuffer & H).
    cbn [bind] in H. injection H as <-. cbn [binary json].
    rewrite Hv.
    assert (wf_value copied = true) as Hwc.
    { destruct (binary item) as [b|].
      - rewrite (copy_wf _ Hwb) in Hcopy. now injection Hcopy as <-.
      - now injection Hcopy as <-. }
    assert (wf_value
              (JObj [("data", JStr (Base64.encode buffer));
                     ("mimeType",
                      JStr (or_default (mimeType (options this))
                              "application/json"))]) = true) as Hwp
      by reflexivity.
    rewrite (copy_wf _ (@wf_set _ _ _ Hwc Hwp)). cbn [bind].
    rewrite Hbuffer. cbn [bind]. now rewrite set_again.
Qed.

End AgainFacts.

Section OnAgainExamples.
Import Examples MoreExamples.

#[local] Abbreviation convert :=
  (MoveBinaryData.convert no_other_encoding no_other_source).

(** The array at [a.b] copied to the binary data, twice. *)
Lemma keepSource_run_again_witness :
  well_formed item_nested = true
  /\ keepSource (options (there "a.b")) = Some true
  /\ exists newItem,
      convert (there "a.b") 0 item_nested = Ok (Some newItem)
      /\ convert (there "a.b") 0 newItem = Ok (Some newItem).
Proof.
  split; [reflexivity|]. split; [reflexivity|].
  eexists. split; [reflexivity|].
  apply (@keepSource_run_again no_other_encoding no_other_source
           (there "a.b") 0 item_nested); reflexivity.
Defined.

(** The node as it is added, on an item without binary data and on the
    payload of [{x: 5}]. *)
Lemma fresh_node_moves_data_witness :
  convert fresh 0 item_without_binary = Ok None
  /\ convert fresh 0 item_x5
     = Ok (Some {| json := JObj [("x", JNum 5)];
                   binary := Some (lodash.unset
                                     (JObj [("data", payload_x5)]) "data") |}).
Proof.
  split.
  - apply (proj1 (@fresh_node_moves_data no_other_encoding no_other_source
                    0 item_without_binary)). reflexivity.
  - apply (proj2 (@fresh_node_moves_data no_other_encoding no_other_source
                    0 item_x5) (JObj [("data", payload_x5)]) payload_x5
             "eyJ4Ijo1fQ==" (JObj [("x", JNum 5)]));
      reflexivity.
Defined.

End OnAgainExamples.

Section ModeFacts.

Variable toStringOther : string -> Buffer -> result string.
Variable bufferFromOther : value -> result Buffer.

#[local] Abbreviation convert :=
  (MoveBinaryData.convert toStringOther bufferFromOther).

Lemma item_at_parts (key : string) :
  exists j b,
    item_at key = {| json := j; binary := Some b |}
    /\ is_object j = true /\ is_object b = true
    /\ wf_value j = true /\ wf_value b = true
    /\ lodash.get (Some j) key = Some (JStr "x")
    /\ lodash.get (Some b) key
       = Some (JObj [("data", JStr "e30=");
                     ("mimeType", JStr "application/json")]).
Proof.
  eexists _, _. split; [reflexivity|].
  split; [reflexivity|]. split; [reflexivity|].
  split; [now apply wf_set|]. split; [now apply wf_set|].
  split; apply lodashFacts.baseGet_baseSet_same,
               lodashFacts.castPath_nonempty.
Qed.

Lemma item_at_is_item (key : string) : is_item (item_at key) = true.
Proof.
  destruct (item_at_parts key) as (j & b & -> & Hj & Hb & Hwj & Hwb & _).
  unfold is_item, well_formed. cbn [json binary].
  now rewrite Hj, Hb, Hwj, Hwb.
Qed.

(** X11.  The modes the description offers are the modes [execute]
    knows.  When the text is read as UTF-8 in the mode [binaryToJson]
    and the raw data is not asked for in the mode [jsonToBinary], there
    is an item the node can receive that it converts to an output item
    exactly when the mode is one of the choices of the parameter [mode];
    and with any other mode every item throws the error that names the
    mode. *)
Theorem declared_modes_are_known (this : NodeParameters) (i : nat) :
  (mode this = "binaryToJson" ->
   or_default (encoding (options this)) "utf8" = "utf8") ->
  (mode this = "jsonToBinary" ->
   is_true (useRawData (options this)) = false) ->
  (In (mode this) declared_modes
   <-> exists item newItem,
         is_item item = true
         /\ convert this i item = Ok (Some newItem))
  /\ (~ In (mode this) declared_modes ->
      forall item,
        convert this i item
        = Throw (Error (unknown_operation (mode this)))).
Proof.
  intros Hencoding Hraw.
  assert (forall item,
             String.eqb (mode this) "binaryToJson" = false ->
             String.eqb (mode this) "jsonToBinary" = false ->
             convert this i item
             = Throw (Error (unknown_operation (mode this)))) as Hunknown.
  { intros item Hb Hj. unfold MoveBinaryData.convert. now rewrite Hb, Hj. }
  split; [split|].
  - intros Hin. exists (item_at (sourceKey this i)).
    pose proof (item_at_is_item (sourceKey this i)) as Hitem.
    cut (exists newItem,
            convert this i (item_at (sourceKey this i)) = Ok (Some newItem)).
    { intros (newItem & H). eauto. }
    clear Hitem.
    destruct (item_at_parts (sourceKey this i))
      as (j & b & -> & _ & _ & Hwj & Hwb & Hgetj & Hgetb).
    unfold MoveBinaryData.convert.
    destruct Hin as [H|[H|[]]];
      [specialize (Hencoding (eq_sym H)) | specialize (Hraw (eq_sym H))];
      rewrite <- H; cbn [String.eqb Ascii.eqb Bool.eqb].
    + unfold MoveBinaryData.binaryToJson. cbn [json binary].
      rewrite Hgetb.
      cbn [prop_data lookup String.eqb Ascii.eqb Bool.eqb bind
           MoveBinaryData.Buffer_from_base64].
      unfold MoveBinaryData.Buffer_toString. rewrite Hencoding.
      cbn [String.eqb Ascii.eqb Bool.eqb orb bind].
      change (string_of_list_byte (Base64.decode "e30=")) with "{}".
      change (JSON.parse "{}") with (Ok (JObj [])).
      rewrite (copy_wf _ Hwj), (copy_wf _ Hwb).
      destruct (setAllData this i), (is_true (jsonParse (options this))),
        (is_true (keepSource (options this)));
        cbn [bind]; eauto.
    + unfold MoveBinaryData.jsonToBinary. cbn [json binary].
      rewrite Hraw, Hgetj, (copy_wf _ Hwj), (copy_wf _ Hwb).
      destruct (convertAllData this i),
        (is_true (keepSource (options this)));
        cbn [bind MoveBinaryData.Buffer_from]; eauto.
  - intros (item & newItem & _ & H).
    destruct (String.eqb (mode this) "binaryToJson") eqn:Eb.
    { apply String.eqb_eq in Eb. left. now rewrite Eb. }
    destruct (String.eqb (mode this) "jsonToBinary") eqn:Ej.
    { apply String.eqb_eq in Ej. right. left. now rewrite Ej. }
    rewrite (Hunknown item eq_refl eq_refl) in H. discriminate H.
  - intros Hnot item. apply Hunknown; apply String.eqb_neq; intros H;
      apply Hnot; rewrite H; cbn; auto.
Qed.

End ModeFacts.

Section OnModeExamples.
Import Examples.

#[local] Abbreviation convert :=
  (MoveBinaryData.convert no_other_encoding no_other_source).

(** The node as it is added to a workflow. *)
Lemma declared_modes_are_known_witness :
  or_default (encoding (options fresh)) "utf8" = "utf8"
  /\ is_true (useRawData (options fresh)) = false
  /\ In (mode fresh) declared_modes
  /\ exists item newItem,
      is_item item = true /\ convert fresh 0 item = Ok (Some newItem).
Proof.
  split; [reflexivity|]. split; [reflexivity|].
  assert (In (mode fresh) declared_modes) as Hin by (left; reflexivity).
  split; [exact Hin|].
  apply (proj1 (proj1 (@declared_modes_are_known no_other_encoding
                         no_other_source fresh 0
                         (fun _ => eq_refl) (fun _ => eq_refl))) Hin).
Defined.

End OnModeExamples.
